(** * tgen command-line driver ([run_tgen.py]): model and properties

    The driver parses its command line with [getopt], builds the
    candidate generator, the ranker and a planner from the modules of the
    [tgen] package, and runs training or generation.  The model below
    follows the driver statement by statement.  Everything the driver
    imports is a collaborator: its calls are recorded in a trace and its
    results come from an interface ([World]). *)

From stdpp Require Import base strings list gmap.
From Stdlib Require Import ZArith Ascii String DecimalString.

Open Scope string_scope.
Open Scope list_scope.
Open Scope Z_scope.

(** ** Exceptions that can leave the driver *)

Inductive exn : Type :=
| SystemExit (msg : string)          (* sys.exit(msg) *)
| GetoptError (msg opt : string)     (* getopt.GetoptError(msg, opt) *)
| ValueError (msg literal : string)  (* ValueError: message, quoted literal *)
| OverflowError (msg : string)       (* an integer that does not fit a C long *)
| UnicodeDecodeError (object : string) (* a byte string that is not ASCII *)
| CollabError (what : string).       (* raised inside a collaborator call *)

(** ** The module docstring, printed as usage text *)

Definition __doc__ : string :=
"
Generating T-trees from dialogue acts.

Usage: ./tgen.py <action> <argument1 ...>

Actions:

candgen_train -- train candidate generator (probability distributions)
    - arguments: [-p prune_threshold] train-das train-ttrees output-model

percrank_train -- train perceptron global ranker
    - arguments: [-d debug-output] [-c candgen-model] [-s data-portion] [-j parallel-jobs] [-w parallel-work-dir] \
                 ranker-config train-das train-ttrees output-model

sample_gen -- generate using the given candidate generator
    - arguments: [-n trees-per-da] [-o oracle-eval-ttrees] [-w output-ttrees] candgen-model test-das

asearch_gen -- generate using the A*search sentence planner
    - arguments: [-e eval-ttrees-file] [-s eval-ttrees-selector] [-d debug-output] [-w output-ttrees] [-c config] candgen-model percrank-model test-das
".

(** ** Python's [getopt.getopt] for short options

    The driver never passes long options, so [longopts] is empty and every
    word starting with two dashes (other than the terminator itself) is
    rejected by [do_longs]. *)

Module Getopt.

Definition opt_name (c : ascii) : string := String "-" (String c "").

(** [short_has_arg opt shortopts]: scans [shortopts] for [opt]; a colon is
    never an option letter. *)
Fixpoint short_has_arg (opt : ascii) (shortopts : string) : exn + bool :=
  match shortopts with
  | EmptyString =>
      inl (GetoptError ("option -" +:+ String opt "" +:+ " not recognized")
                       (String opt ""))
  | String c rest =>
      if Ascii.eqb opt c && negb (Ascii.eqb c ":")
      then inr (String.prefix ":" rest)
      else short_has_arg opt rest
  end.

(** [do_shorts]: the letters of one cluster (the word without its dash).
    [next] is the word after the cluster, if any; the boolean of the
    result says whether that word was taken as an option argument (the
    Python function returns the remaining words instead). *)
Fixpoint do_shorts (shortopts optstring : string) (next : option string)
  : exn + (list (string * string) * bool) :=
  match optstring with
  | EmptyString => inr ([], false)
  | String opt optstring' =>
      match short_has_arg opt shortopts with
      | inl e => inl e
      | inr true =>
          match optstring' with
          | EmptyString =>
              match next with
              | None =>
                  inl (GetoptError
                         ("option -" +:+ String opt "" +:+ " requires argument")
                         (String opt ""))
              | Some a => inr ([(opt_name opt, a)], true)
              end
          | _ => inr ([(opt_name opt, optstring')], false)
          end
      | inr false =>
          match do_shorts shortopts optstring' next with
          | inl e => inl e
          | inr (os, used) => inr ((opt_name opt, "") :: os, used)
          end
      end
  end.

(** The name of a long option: the text before the first equals sign. *)
Fixpoint long_name (s : string) : string :=
  match s with
  | EmptyString => ""
  | String c rest => if Ascii.eqb c "=" then "" else String c (long_name rest)
  end.

(** The scanning loop of [getopt], with the options found so far. *)
Fixpoint getopt_loop (shortopts : string) (opts : list (string * string))
         (args : list string) {struct args}
  : exn + (list (string * string) * list string) :=
  match args with
  | [] => inr (opts, [])
  | a :: rest =>
      match a with
      | String d (String c cluster' as cluster) =>
          if negb (Ascii.eqb d "-") then inr (opts, args)
          else if String.eqb a "--" then inr (opts, rest)
          else if Ascii.eqb c "-" then
            let opt := long_name cluster' in
            inl (GetoptError ("option --" +:+ opt +:+ " not recognized") opt)
          else
            match do_shorts shortopts cluster (head rest) with
            | inl e => inl e
            | inr (os, false) => getopt_loop shortopts (opts ++ os) rest
            | inr (os, true) =>
                match rest with
                | [] => inr (opts ++ os, [])
                | _ :: rest' => getopt_loop shortopts (opts ++ os) rest'
                end
            end
      | _ => inr (opts, args)
      end
  end.

Definition getopt (args : list string) (shortopts : string) :=
  getopt_loop shortopts [] args.

End Getopt.


(** ** Small string helpers of the Python runtime *)

Definition nl : string := String (ascii_of_nat 10) "".

(** ['%03d' % n] for a natural number. *)
Definition fmt_03d (n : nat) : string :=
  let digits := NilEmpty.string_of_uint (Nat.to_uint n) in
  match String.length digits with
  | 0%nat => "000"
  | 1%nat => "00" +:+ digits
  | 2%nat => "0" +:+ digits
  | _ => digits
  end.

(** [s.rstrip('/')] on the reversed list of characters. *)
Fixpoint drop_slashes (l : list ascii) : list ascii :=
  match l with
  | c :: l' => if Ascii.eqb c "/" then drop_slashes l' else l
  | [] => []
  end.

(** [tail] and reversed [head] of [posixpath.split]: the reversed path is cut
    before its first slash. *)
Fixpoint cut_at_slash (rev_path : list ascii) (tail : list ascii)
  : list ascii * list ascii :=
  match rev_path with
  | [] => ([], tail)
  | c :: rest =>
      if Ascii.eqb c "/" then (rev_path, tail) else cut_at_slash rest (c :: tail)
  end.

(** [os.path.split] of [posixpath]: the head keeps its trailing slashes only
    when it consists of slashes. *)
Definition os_path_split (p : string) : string * string :=
  let '(rev_head, tail) := cut_at_slash (rev (list_ascii_of_string p)) [] in
  let head := match drop_slashes rev_head with
              | [] => rev_head
              | stripped => stripped
              end in
  (string_of_list_ascii (rev head), string_of_list_ascii tail).

(** The module has [unicode_literals] in force, while the words of the
    command line are byte strings: where a literal is joined with such a
    word ([+] or [%]), the word is decoded as ASCII, which raises
    UnicodeDecodeError when one of its bytes is 128 or above. *)
Definition is_ascii (s : string) : bool :=
  forallb (fun c => (nat_of_ascii c <? 128)%nat) (list_ascii_of_string s).

Definition py_unicode (s : string) : exn + string :=
  if is_ascii s then inr s else inl (UnicodeDecodeError s).

(** Python's [enumerate] over a list. *)
Definition enumerate {A} (l : list A) : list (nat * A) := imap (fun i x => (i, x)) l.

(** ** Data and collaborators

    Objects built by the driver (generators, rankers, planners, documents)
    are named by their allocation number, so that two names of one object
    are equal numbers. *)

Definition obj : Type := nat.

(** Values stored in a configuration dictionary. *)
Inductive cfg_value : Type :=
| VObj (o : obj)
| VInt (z : Z)
| VStr (s : string).

Inductive EvalTypes : Type := NODE | DEP.

(** The data types of the [tgen] package and of the runtime. *)
Class Data : Type := {
  DA : Type;            (* dialogue act *)
  TreeData : Type;      (* tree as returned by trees_from_doc *)
  TTree : Type;         (* t-tree as returned by ttrees_from_doc *)
  Document : Type;      (* tree document *)
  OpenList : Type;
  CloseList : Type;
  PyFloat : Type;       (* Python float *)
  Rng : Type;           (* state of the process-wide random generator *)
  Store : Type          (* everything else the collaborators keep: loaded
                           models, learned weights, files, debug stream *)
}.

Section Events.
Context {D : Data}.

(** The hidden state of the process. *)
Record proc : Type := { rng : Rng; store : Store }.

(** Calls that leave the driver, in the order they are made. *)
Inductive event : Type :=
| EvRandomSeed (n : Z)
| EvLogInfo (msg : string)
| EvLogDebug (msg : string)
| EvSetDebugStream (fname mode : string)
| EvConfig (fname : string)
| EvNewCandgen (o : obj) (cfg : gmap string cfg_value)
| EvCandgenTrain (o : obj) (fname_das fname_ttrees : string)
| EvCandgenSave (o : obj) (fname : string)
| EvCandgenLoad (o : obj) (fname : string)
| EvNewRanker (o : obj) (cfg : gmap string cfg_value)
| EvNewParallelRanker (o : obj) (cfg : gmap string cfg_value) (work_dir : string)
| EvRankerTrain (o : obj) (fname_das fname_ttrees : string) (data_portion : PyFloat)
| EvRankerSave (o : obj) (fname : string)
| EvRankerLoad (o : obj) (fname : string)
| EvNewSamplingPlanner (o : obj) (cfg : gmap string cfg_value)
| EvNewASearchPlanner (o : obj) (cfg : gmap string cfg_value)
| EvReadDas (fname : string)
| EvReadTTrees (fname : string)
| EvGenerateTree (planner : obj) (da : DA) (doc : obj) (return_lists : bool)
| EvAddBundleText (doc : obj) (bundle : nat) (language selector text : string)
| EvWriteYAML (fname : string) (doc : Document).

End Events.

(** The collaborators: the interpreter's conversions and the modules that
    the driver imports ([tgen.candgen], [tgen.rank], [tgen.planner],
    [tgen.eval], [tgen.futil], [tgen.logf], [flect.config] and the tree
    documents of [alex]), none of which is among the sources.  A call changes
    the hidden state by [effect], may raise as [fails] says, and returns what
    the typed functions give on the state in which the call is made.

    Modelled from the spec: the generators, rankers and planners of the
    [tgen] package are not among the sources; they are deterministic for
    fixed models, a fixed input and a fixed random seed (ties are broken by
    insertion order), so what a call returns is a function of its arguments
    and of the hidden state of the process, which consists of the
    process-wide random generator and of everything else that calls can
    change (files, loaded models, streams). *)
Class World (D : Data) : Type := {
  (* the interpreter *)
  py_int : string -> option Z;                 (* int(s); None: ValueError *)
  py_float : string -> option PyFloat;         (* float(s) *)
  float_one : PyFloat;                         (* 1.0 *)
  float_gt : PyFloat -> PyFloat -> bool;       (* x > y *)
  fmt_float : string -> PyFloat -> string;     (* conversion % x *)
  python_implementation : string;
  python_version : string;
  sys_maxint : Z;                              (* the largest C long *)
  rng_of_seed : Z -> Rng;
  store_init : Store;
  (* calls *)
  effect : event -> proc -> proc;
  fails : event -> proc -> option exn;
  (* results *)
  Config_load : string -> proc -> gmap string cfg_value;
  read_das : string -> proc -> list DA;
  read_ttrees : string -> proc -> Document;
  Document_new : Document;
  planner_language : gmap string cfg_value -> string;
  planner_selector : gmap string cfg_value -> string;
  sampling_generate : obj -> DA -> Document -> proc -> Document;
  sample_tree : obj -> DA -> proc -> TTree;    (* the tree that call builds *)
  asearch_generate :
    obj -> DA -> Document -> bool -> proc -> Document * (OpenList * CloseList);
  (* pure helpers of tgen.futil and tgen.eval *)
  ttrees_from_doc : Document -> string -> string -> list TTree;
  trees_from_doc : Document -> string -> string -> list TreeData;
  doc_bundles : Document -> nat;
  add_bundle_text : Document -> nat -> string -> string -> string -> Document;
  corr_pred_gold : TTree -> TTree -> Z * Z * Z;
  f1_from_counts : Z -> Z -> Z -> PyFloat;
  p_r_f1_from_counts : Z -> Z -> Z -> PyFloat * PyFloat * PyFloat;
  lists_analyzer_stats :
    list (TreeData * OpenList * CloseList) -> PyFloat * PyFloat * PyFloat;
  evaluator_p_r_f1 :
    list (TTree * TTree) -> option EvalTypes -> PyFloat * PyFloat * PyFloat
}.

(** ** The driver monad: trace, store and exceptions *)

Section Driver.
Context {D : Data} {W : World D}.

(** What the driver itself holds: the hidden process state, the documents it
    created (by object number) and the next free object number. *)
Record st : Type := {
  st_proc : proc;
  st_docs : gmap obj Document;
  st_next : obj
}.

Definition with_proc (s : st) (p : proc) : st :=
  {| st_proc := p; st_docs := st_docs s; st_next := st_next s |}.

Definition M (A : Type) : Type := st -> list event * st * (exn + A).

#[global] Instance M_ret : MRet M := fun A a s => ([], s, inr a).

#[global] Instance M_bind : MBind M := fun A B k m s =>
  match m s with
  | (t1, s1, inl e) => (t1, s1, inl e)
  | (t1, s1, inr a) =>
      match k a s1 with
      | (t2, s2, r) => (t1 ++ t2, s2, r)
      end
  end.

Definition raise {A} (e : exn) : M A := fun s => ([], s, inl e).

Definition lift {A} (r : exn + A) : M A := fun s => ([], s, r).

(** [sys.exit(msg)] raises SystemExit. *)
Definition sys_exit {A} (msg : string) : M A := raise (SystemExit msg).

(** A call that cannot raise (logging). *)
Definition emit (e : event) : M unit := fun s =>
  ([e], with_proc s (effect e (st_proc s)), inr tt).

(** A collaborator call with result [r]. *)
Definition call {A} (e : event) (r : proc -> A) : M A := fun s =>
  match fails e (st_proc s) with
  | Some x => ([e], s, inl x)
  | None => ([e], with_proc s (effect e (st_proc s)), inr (r (st_proc s)))
  end.

Definition call_ (e : event) : M unit := call e (fun _ => tt).

(** [random.seed(n)] replaces the state of the process-wide generator. *)
Definition random_seed (n : Z) : M unit := fun s =>
  ([EvRandomSeed n],
   with_proc s {| rng := rng_of_seed n; store := store (st_proc s) |},
   inr tt).

Definition new_obj : M obj := fun s =>
  ([], {| st_proc := st_proc s; st_docs := st_docs s; st_next := S (st_next s) |},
   inr (st_next s)).

Definition get_doc (o : obj) : M Document := fun s =>
  ([], s, inr (default Document_new (st_docs s !! o))).

Definition set_doc (o : obj) (d : Document) : M unit := fun s =>
  ([], {| st_proc := st_proc s; st_docs := <[o := d]> (st_docs s);
          st_next := st_next s |}, inr tt).

Definition new_doc (d : Document) : M obj :=
  o ← new_obj; set_doc o d;; mret o.

(** [for x in l: acc = f(acc, x)] *)
Fixpoint foldM {A B} (f : A -> B -> M A) (a : A) (l : list B) : M A :=
  match l with
  | [] => mret a
  | x :: l' => a' ← f a x; foldM f a' l'
  end.

(** [for x in l: body(x)] *)
Definition for_ {B} (l : list B) (body : B -> M unit) : M unit :=
  foldM (fun _ x => body x) tt l.

Definition log_info (msg : string) : M unit := emit (EvLogInfo msg).
Definition log_debug (msg : string) : M unit := emit (EvLogDebug msg).

Definition int (s : string) : M Z :=
  match py_int s with
  | Some z => mret z
  | None => raise (ValueError "invalid literal for int() with base 10" s)
  end.

Definition float (s : string) : M PyFloat :=
  match py_float s with
  | Some x => mret x
  | None => raise (ValueError "could not convert string to float" s)
  end.

Definition getopt (args : list string) (shortopts : string)
  : M (list (string * string) * list string) :=
  lift (Getopt.getopt args shortopts).

(** [set_debug_stream(file_stream(arg, mode='w'))] *)
Definition set_debug_stream (fname : string) : M unit :=
  call_ (EvSetDebugStream fname "w").

Definition Config (fname : string) : M (gmap string cfg_value) :=
  call (EvConfig fname) (Config_load fname).

Definition RandomCandidateGenerator (cfg : gmap string cfg_value) : M obj :=
  o ← new_obj; call_ (EvNewCandgen o cfg);; mret o.

Definition PerceptronRanker (cfg : gmap string cfg_value) : M obj :=
  o ← new_obj; call_ (EvNewRanker o cfg);; mret o.

Definition ParallelPerceptronRanker (cfg : gmap string cfg_value) (work_dir : string)
  : M obj :=
  o ← new_obj; call_ (EvNewParallelRanker o cfg work_dir);; mret o.

(** [PerceptronRanker.load_from_file(fname)] *)
Definition PerceptronRanker_load_from_file (fname : string) : M obj :=
  o ← new_obj; call_ (EvRankerLoad o fname);; mret o.

Definition SamplingPlanner (cfg : gmap string cfg_value) : M obj :=
  o ← new_obj; call_ (EvNewSamplingPlanner o cfg);; mret o.

Definition ASearchPlanner (cfg : gmap string cfg_value) : M obj :=
  o ← new_obj; call_ (EvNewASearchPlanner o cfg);; mret o.

(** [Document()] *)
Definition Document_ : M obj := new_doc Document_new.

(** [writer = YAMLWriter(scenario=None, args={'to': fname});
     writer.process_document(doc)] *)
Definition write_yaml (fname : string) (doc : obj) : M unit :=
  d ← get_doc doc; call_ (EvWriteYAML fname d).

(** [tgen.generate_tree(da, gen_doc)] of the sampling planner: the call
    changes the document object in place. *)
Definition sampling_generate_tree (tgen : obj) (da : DA) (gen_doc : obj) : M unit :=
  d ← get_doc gen_doc;
  d' ← call (EvGenerateTree tgen da gen_doc false) (sampling_generate tgen da d);
  set_doc gen_doc d'.

(** [tgen.generate_tree(da, gen_doc, return_lists=...)] of the A* planner. *)
Definition asearch_generate_tree (tgen : obj) (da : DA) (gen_doc : obj)
           (return_lists : bool) : M (OpenList * CloseList) :=
  d ← get_doc gen_doc;
  r ← call (EvGenerateTree tgen da gen_doc return_lists)
           (asearch_generate tgen da d return_lists);
  set_doc gen_doc (fst r);;
  mret (snd r).

(** [add_bundle_text(bundle, language, selector, text)] on bundle number
    [bundle] of document [doc]. *)
Definition add_bundle_text_ (doc : obj) (bundle : nat) (language selector text : string)
  : M unit :=
  d ← get_doc doc;
  call_ (EvAddBundleText doc bundle language selector text);;
  set_doc doc (add_bundle_text d bundle language selector text).

(** ** Integer ranges *)

(** The integers that fit a C long. *)
Definition c_long (n : Z) : bool := (- sys_maxint - 1 <=? n) && (n <=? sys_maxint).

(** [xrange(n)]: empty when [n] is not positive; an argument that does not
    fit a C long raises OverflowError. *)
Definition xrange (n : Z) : exn + list nat :=
  if c_long n then inr (seq 0 (Z.to_nat n))
  else inl (OverflowError "Python int too large to convert to C long").

(** ** Helpers of the oracle evaluation *)

(** Python's [max(l, key=...)]: a later element replaces the current best
    only when its key is strictly greater. *)
Fixpoint max_from {A} (key : A -> PyFloat) (best : A) (l : list A) : A :=
  match l with
  | [] => best
  | x :: l' => max_from key (if float_gt (key x) (key best) then x else best) l'
  end.

Definition py_max {A} (key : A -> PyFloat) (l : list A) : exn + A :=
  match l with
  | [] => inl (ValueError "max() arg is an empty sequence" "")
  | x :: l' => inr (max_from key x l')
  end.

(** Modelled from the spec: [chunk_list] of tgen/futil.py is not among the
    sources; it yields the successive chunks of [n] elements of a list (the
    N samples of each dialogue act), through [xrange(0, len(l), n)], which
    rejects a step that does not fit a C long and a step of zero, and is
    empty for a negative one. *)
Fixpoint chunks {A} (fuel n : nat) (l : list A) : list (list A) :=
  match fuel with
  | O => []
  | S fuel' =>
      match l with
      | [] => []
      | _ => take n l :: chunks fuel' n (drop n l)
      end
  end.

Definition chunk_list {A} (l : list A) (n : Z) : exn + list (list A) :=
  if negb (c_long n) then inl (OverflowError "Python int too large to convert to C long")
  else if n =? 0 then inl (ValueError "xrange() arg 3 must not be zero" "")
  else if n <? 0 then inr []
  else inr (chunks (List.length l) (Z.to_nat n) l).

(** [zip(l, g)] for a list [l] and a generator [g]: the generator is not
    started when the list is empty. *)
Definition zip_gen {A B} (l : list A) (g : exn + list B) : exn + list (A * B) :=
  match l with
  | [] => inr []
  | _ => match g with
         | inl e => inl e
         | inr l' => inr (zip l l')
         end
  end.

(** The tuple [(f1_from_counts(c, p, g), c, p, g)] of one generated tree. *)
Definition scored (gold_tree gen_tree : TTree) : PyFloat * Z * Z * Z :=
  let '(c, p, g) := corr_pred_gold gold_tree gen_tree in
  (f1_from_counts c p g, c, p, g).

(** The list that [max] ranges over, for one dialogue act. *)
Definition scored_counts (gold_tree : TTree) (gen_trees : list TTree)
  : list (PyFloat * Z * Z * Z) :=
  map (scored gold_tree) gen_trees.

Definition score_key (x : PyFloat * Z * Z * Z) : PyFloat :=
  let '(f, _, _, _) := x in f.

(** One round of the oracle loop: the best sample's counts are added. *)
Definition oracle_step (acc : Z * Z * Z) (pair : TTree * list TTree)
  : exn + (Z * Z * Z) :=
  let '(correct, predicted, gold) := acc in
  let '(gold_tree, gen_trees) := pair in
  match py_max score_key (scored_counts gold_tree gen_trees) with
  | inl e => inl e
  | inr (_, tc, tp, tg) => inr (correct + tc, predicted + tp, gold + tg)
  end.

(** A format string with three float conversions applied to a triple:
    [a ca b cb c cc] stands for the format [a ++ ca ++ b ++ cb ++ c ++ cc]. *)
Definition fmt3 (a ca b cb c cc : string) (x : PyFloat * PyFloat * PyFloat) : string :=
  let '(x1, x2, x3) := x in
  a +:+ fmt_float ca x1 +:+ b +:+ fmt_float cb x2 +:+ c +:+ fmt_float cc x3.

(** Truth value of a variable that holds [None] or a string. *)
Definition truthy (o : option string) : bool :=
  match o with
  | Some (String _ _) => true
  | _ => false
  end.

(** [a, b, c = files] after the length check. *)
Definition unpack2 (files : list string) : M (string * string) :=
  match files with
  | [a; b] => mret (a, b)
  | _ => raise (ValueError "wrong number of values to unpack" "")
  end.

Definition unpack3 (files : list string) : M (string * string * string) :=
  match files with
  | [a; b; c] => mret (a, b, c)
  | _ => raise (ValueError "wrong number of values to unpack" "")
  end.

Definition unpack4 (files : list string) : M (string * string * string * string) :=
  match files with
  | [a; b; c; d] => mret (a, b, c, d)
  | _ => raise (ValueError "wrong number of values to unpack" "")
  end.

(** ** [candgen_train] *)

(** The body of [for opt, arg in opts], on the locals it assigns. *)
Definition candgen_train_opt (prune_threshold : Z) (oa : string * string) : M Z :=
  let '(opt, arg) := oa in
  if String.eqb opt "-p" then int arg else mret prune_threshold.

Definition candgen_train_opts (opts : list (string * string)) : M Z :=
  foldM candgen_train_opt 1 opts.

Definition candgen_train (args : list string) : M unit :=
  '(opts, files) ← getopt args "p:";
  prune_threshold ← candgen_train_opts opts;
  if negb (List.length files =? 3)%nat then sys_exit __doc__ else
  '(fname_da_train, fname_ttrees_train, fname_cand_model) ← unpack3 files;
  log_info "Training candidate generator...";;
  candgen ← RandomCandidateGenerator {["prune_threshold" := VInt prune_threshold]};
  call_ (EvCandgenTrain candgen fname_da_train fname_ttrees_train);;
  call_ (EvCandgenSave candgen fname_cand_model).

(** ** [percrank_train] *)

Definition percrank_train_opt
           (locals : option string * PyFloat * bool * Z * option string)
           (oa : string * string)
  : M (option string * PyFloat * bool * Z * option string) :=
  let '(candgen_model, train_size, parallel, jobs_number, work_dir) := locals in
  let '(opt, arg) := oa in
  if String.eqb opt "-d" then
    set_debug_stream arg;;
    mret (candgen_model, train_size, parallel, jobs_number, work_dir)
  else if String.eqb opt "-s" then
    train_size ← float arg;
    mret (candgen_model, train_size, parallel, jobs_number, work_dir)
  else if String.eqb opt "-c" then
    mret (Some arg, train_size, parallel, jobs_number, work_dir)
  else if String.eqb opt "-j" then
    jobs_number ← int arg;
    mret (candgen_model, train_size, true, jobs_number, work_dir)
  else if String.eqb opt "-w" then
    mret (candgen_model, train_size, parallel, jobs_number, Some arg)
  else mret (candgen_model, train_size, parallel, jobs_number, work_dir).

Definition percrank_train_opts (opts : list (string * string))
  : M (option string * PyFloat * bool * Z * option string) :=
  foldM percrank_train_opt (None, float_one, false, 0, None) opts.

Definition percrank_train (args : list string) : M unit :=
  '(opts, files) ← getopt args "c:d:s:j:w:";
  '(candgen_model, train_size, parallel, jobs_number, work_dir) ← percrank_train_opts opts;
  if negb (List.length files =? 4)%nat then sys_exit __doc__ else
  '(fname_rank_config, fname_train_das, fname_train_ttrees, fname_rank_model)
    ← unpack4 files;
  log_info "Training perceptron ranker...";;
  rank_config ← Config fname_rank_config;
  let rank_config :=
    if truthy candgen_model
    then <["candgen_model" := VStr (default "" candgen_model)]> rank_config
    else rank_config in
  ranker ← (if negb parallel then PerceptronRanker rank_config
            else
              let rank_config := <["jobs_number" := VInt jobs_number]> rank_config in
              let work_dir := match work_dir with
                              | None => fst (os_path_split fname_rank_config)
                              | Some w => w
                              end in
              ParallelPerceptronRanker rank_config work_dir);
  call_ (EvRankerTrain ranker fname_train_das fname_train_ttrees train_size);;
  call_ (EvRankerSave ranker fname_rank_model).

(** ** [sample_gen] *)

Definition sample_gen_opt (locals : Z * option string * option string)
           (oa : string * string) : M (Z * option string * option string) :=
  let '(num_to_generate, oracle_eval_file, fname_ttrees_out) := locals in
  let '(opt, arg) := oa in
  if String.eqb opt "-n" then
    num_to_generate ← int arg;
    mret (num_to_generate, oracle_eval_file, fname_ttrees_out)
  else if String.eqb opt "-o" then
    mret (num_to_generate, Some arg, fname_ttrees_out)
  else if String.eqb opt "-w" then
    mret (num_to_generate, oracle_eval_file, Some arg)
  else mret (num_to_generate, oracle_eval_file, fname_ttrees_out).

Definition sample_gen_opts (opts : list (string * string))
  : M (Z * option string * option string) :=
  foldM sample_gen_opt (1, None, None) opts.

(** [read_ttrees(fname)]: a new document object. *)
Definition read_ttrees_ (fname : string) : M obj :=
  d ← call (EvReadTTrees fname) (read_ttrees fname);
  new_doc d.

(** The double loop that generates [num_to_generate] trees for each act;
    [xrange(num_to_generate)] is evaluated once for every act. *)
Definition sample_gen_generate (tgen : obj) (gen_doc : obj) (das : list DA)
           (num_to_generate : Z) : M unit :=
  for_ das (fun da =>
    range ← lift (xrange num_to_generate);
    for_ range (fun _ =>
      sampling_generate_tree tgen da gen_doc)).

(** The block under [if oracle_eval_file is not None]. *)
Definition sample_gen_oracle (language selector : string) (gen_doc : obj)
           (num_to_generate : Z) (oracle_eval_file : string) : M unit :=
  log_info "Evaluating oracle F1...";;
  oracle_eval_file_u ← lift (py_unicode oracle_eval_file);
  log_info ("Loading gold data from " +:+ oracle_eval_file_u);;
  gold_doc ← read_ttrees_ oracle_eval_file;
  gold_d ← get_doc gold_doc;
  let gold_trees := ttrees_from_doc gold_d language selector in
  gen_d ← get_doc gen_doc;
  let gen_trees := ttrees_from_doc gen_d language selector in
  log_info "Gold data loaded.";;
  pairs ← lift (zip_gen gold_trees (chunk_list gen_trees num_to_generate));
  '(correct, predicted, gold) ←
    foldM (fun acc pair => lift (oracle_step acc pair)) (0, 0, 0) pairs;
  log_info (fmt3 "Oracle Precision: " "%.6f" ", Recall: " "%.6f" ", F1: " "%.6f"
                 (p_r_f1_from_counts correct predicted gold)).

Definition sample_gen (args : list string) : M unit :=
  '(opts, files) ← getopt args "r:n:o:w:";
  '(num_to_generate, oracle_eval_file, fname_ttrees_out) ← sample_gen_opts opts;
  if negb (List.length files =? 2)%nat then sys_exit __doc__ else
  '(fname_cand_model, fname_da_test) ← unpack2 files;
  log_info "Initializing...";;
  candgen ← RandomCandidateGenerator ∅;
  call_ (EvCandgenLoad candgen fname_cand_model);;
  let ranker := candgen in
  let cfg : gmap string cfg_value :=
    <["ranker" := VObj ranker]> (<["candgen" := VObj candgen]> ∅) in
  tgen ← SamplingPlanner cfg;
  log_info "Generating...";;
  gen_doc ← Document_;
  das ← call (EvReadDas fname_da_test) (read_das fname_da_test);
  sample_gen_generate tgen gen_doc das num_to_generate;;
  match oracle_eval_file with
  | Some f => sample_gen_oracle (planner_language cfg) (planner_selector cfg)
                                gen_doc num_to_generate f
  | None => mret tt
  end;;
  match fname_ttrees_out with
  | Some f => log_info "Writing output...";; write_yaml f gen_doc
  | None => mret tt
  end.

(** ** [asearch_gen] *)

Definition asearch_gen_opt
           (locals : option string * option string * option string * string)
           (oa : string * string)
  : M (option string * option string * option string * string) :=
  let '(eval_file, fname_ttrees_out, cfg_file, eval_selector) := locals in
  let '(opt, arg) := oa in
  if String.eqb opt "-e" then
    mret (Some arg, fname_ttrees_out, cfg_file, eval_selector)
  else if String.eqb opt "-s" then
    mret (eval_file, fname_ttrees_out, cfg_file, arg)
  else if String.eqb opt "-d" then
    set_debug_stream arg;;
    mret (eval_file, fname_ttrees_out, cfg_file, eval_selector)
  else if String.eqb opt "-w" then
    mret (eval_file, Some arg, cfg_file, eval_selector)
  else if String.eqb opt "-c" then
    mret (eval_file, fname_ttrees_out, Some arg, eval_selector)
  else mret (eval_file, fname_ttrees_out, cfg_file, eval_selector).

Definition asearch_gen_opts (opts : list (string * string))
  : M (option string * option string * option string * string) :=
  foldM asearch_gen_opt (None, None, None, "") opts.

(** Modelled from the spec: [ASearchListsAnalyzer] of tgen/eval.py is not
    among the sources; the analyzer keeps what [append] is given, in order,
    and [stats] computes its three rates from that (best on the close list,
    on the close list, on any list). *)
Definition ASearchListsAnalyzer : list (TreeData * OpenList * CloseList) := [].

Definition lists_analyzer_append (lists_analyzer : list (TreeData * OpenList * CloseList))
           (gold_tree : TreeData) (open_list : OpenList) (close_list : CloseList)
  : list (TreeData * OpenList * CloseList) :=
  lists_analyzer ++ [(gold_tree, open_list, close_list)].

(** Modelled from the spec: [Evaluator] of tgen/eval.py is not among the
    sources; it keeps the pairs given to [append] and computes precision,
    recall and F1 over them, on nodes by default or on dependencies. *)
Definition Evaluator : list (TTree * TTree) := [].

Definition evaler_append (evaler : list (TTree * TTree)) (eval_ttree gen_ttree : TTree)
  : list (TTree * TTree) :=
  evaler ++ [(eval_ttree, gen_ttree)].

(** The body of the loop that generates and analyzes the open and close
    lists. *)
Definition asearch_gen_analyze_step (tgen gen_doc : obj)
           (lists_analyzer : list (TreeData * OpenList * CloseList))
           (item : nat * (DA * TreeData))
  : M (list (TreeData * OpenList * CloseList)) :=
  let '(num, (da, gold_tree)) := item in
  log_debug (nl +:+ nl +:+ "TREE No. " +:+ fmt_03d num);;
  '(open_list, close_list) ← asearch_generate_tree tgen da gen_doc true;
  mret (lists_analyzer_append lists_analyzer gold_tree open_list close_list).

Definition asearch_gen_analyze (tgen gen_doc : obj)
           (pairs : list (DA * TreeData))
  : M (list (TreeData * OpenList * CloseList)) :=
  foldM (asearch_gen_analyze_step tgen gen_doc) ASearchListsAnalyzer (enumerate pairs).

(** The part of the evaluation block that computes the F-scores. *)
Definition asearch_gen_fscores (language selector eval_selector : string)
           (eval_doc gen_doc : obj) : M unit :=
  eval_d ← get_doc eval_doc;
  let eval_ttrees := ttrees_from_doc eval_d language eval_selector in
  gen_d ← get_doc gen_doc;
  let gen_ttrees := ttrees_from_doc gen_d language selector in
  log_info "Evaluating...";;
  evaler ←
    foldM (fun evaler '(eval_bundle, (eval_ttree, gen_ttree)) =>
             let '(c, p, g) := corr_pred_gold eval_ttree gen_ttree in
             add_bundle_text_ eval_doc eval_bundle language (selector +:+ "Xscore")
               (fmt3 "P: " "%.4f" " R: " "%.4f" " F1: " "%.4f"
                     (p_r_f1_from_counts c p g));;
             mret (evaler_append evaler eval_ttree gen_ttree))
          Evaluator (zip (seq 0 (doc_bundles eval_d)) (zip eval_ttrees gen_ttrees));
  log_info (fmt3 "NODE precision: " "%.4f" ", Recall: " "%.4f" ", F1: " "%.4f"
                 (evaluator_p_r_f1 evaler None));;
  log_info (fmt3 "DEP  precision: " "%.4f" ", Recall: " "%.4f" ", F1: " "%.4f"
                 (evaluator_p_r_f1 evaler (Some DEP))).

(** The block under [if eval_file is not None], both times it is tested. *)
Definition asearch_gen_eval (cfg : gmap string cfg_value) (tgen : obj)
           (das : list DA) (eval_file eval_selector : string) : M obj :=
  eval_doc ← read_ttrees_ eval_file;
  gen_doc ← (if String.eqb eval_selector (planner_selector cfg)
             then Document_ else mret eval_doc);
  eval_d ← get_doc eval_doc;
  lists_analyzer ←
    asearch_gen_analyze tgen gen_doc
      (zip das (trees_from_doc eval_d (planner_language cfg) eval_selector));
  log_info (fmt3 "Gold tree BEST: " "%.4f" ", on CLOSE: " "%.4f" ", on ANY list: " "%4f"
                 (lists_analyzer_stats lists_analyzer));;
  asearch_gen_fscores (planner_language cfg) (planner_selector cfg) eval_selector
                      eval_doc gen_doc;;
  mret gen_doc.

Definition asearch_gen (args : list string) : M unit :=
  '(opts, files) ← getopt args "e:d:w:c:";
  '(eval_file, fname_ttrees_out, cfg_file, eval_selector) ← asearch_gen_opts opts;
  if negb (List.length files =? 3)%nat
  then sys_exit ("Invalid arguments." +:+ nl +:+ __doc__) else
  '(fname_cand_model, fname_rank_model, fname_da_test) ← unpack3 files;
  log_info "Initializing...";;
  candgen ← RandomCandidateGenerator ∅;
  call_ (EvCandgenLoad candgen fname_cand_model);;
  ranker ← PerceptronRanker_load_from_file fname_rank_model;
  cfg ← (if truthy cfg_file then Config (default "" cfg_file) else mret ∅);
  let cfg := <["ranker" := VObj ranker]> (<["candgen" := VObj candgen]> cfg) in
  tgen ← ASearchPlanner cfg;
  log_info "Generating...";;
  das ← call (EvReadDas fname_da_test) (read_das fname_da_test);
  gen_doc ← match eval_file with
            | Some f => asearch_gen_eval cfg tgen das f eval_selector
            | None =>
                gen_doc ← Document_;
                for_ das (fun da => asearch_generate_tree tgen da gen_doc false;; mret tt);;
                mret gen_doc
            end;
  match fname_ttrees_out with
  | Some f => log_info "Writing output...";; write_yaml f gen_doc
  | None => mret tt
  end.

(** ** The entry point *)

Definition main (argv : list string) : M unit :=
  random_seed 1206;;
  if (List.length argv <? 3)%nat then sys_exit __doc__ else
  let action := nth 1 argv "" in
  let args := drop 2 argv in
  log_info ("Running on " +:+ python_implementation +:+ " version " +:+ python_version);;
  (if String.eqb action "candgen_train" then candgen_train args
   else if String.eqb action "percrank_train" then percrank_train args
   else if String.eqb action "random_gen" then sample_gen args
   else if String.eqb action "asearch_gen" then asearch_gen args
   else
     action_u ← lift (py_unicode action);
     sys_exit ((nl +:+ "ERROR: Unknown Tgen action: " +:+ action_u +:+ nl +:+ nl +:+ "---")
               +:+ __doc__));;
  log_info "Done.".

(** A process starts with some state of the random generator, no document
    and no object. *)
Definition start (r : Rng) : st :=
  {| st_proc := {| rng := r; store := store_init |}; st_docs := ∅; st_next := 0%nat |}.

End Driver.

(** ** Vocabulary of the properties *)

(** The options found before a word are put in front of what scanning the
    remaining words finds. *)
Definition shift_opts (acc : list (string * string))
  (r : exn + (list (string * string) * list string))
  : exn + (list (string * string) * list string) :=
  match r with
  | inl e => inl e
  | inr (o, f) => inr (acc ++ o, f)
  end.

(** [pre] consists of complete options: scanning it alone finds [popts] and
    leaves nothing, and it does not hold the terminator. *)
Definition option_words (so : string) (pre : list string)
           (popts : list (string * string)) : Prop :=
  Getopt.getopt pre so = inr (popts, [])
  /\ forallb (fun w => negb (String.eqb w "--")) pre = true.

(** Every option that [getopt] returns is a letter of the option string. *)
Definition known_opt (so : string) (oa : string * string) : Prop :=
  exists c b, oa.1 = Getopt.opt_name c /\ Getopt.short_has_arg c so = inr b.

(** The argument of the last occurrence of option [o], as the option loops
    keep it. *)
Fixpoint last_value (o : string) (opts : list (string * string)) (cur : option string)
  : option string :=
  match opts with
  | [] => cur
  | (opt, arg) :: opts' => last_value o opts' (if String.eqb opt o then Some arg else cur)
  end.

Definition contains (sub s : string) : bool :=
  match String.index 0 sub s with
  | Some _ => true
  | None => false
  end.

Section Vocabulary.
Context {D : Data} {W : World D}.

(** No collaborator call raises. *)
Definition reliable : Prop := forall e p, fails e p = None.

(** The content of document object [o]. *)
Definition doc_of (s : st) (o : obj) : Document := default Document_new (st_docs s !! o).

(** The result of a run that comes after the events [t]. *)
Definition prepend {A} (t : list event) (r : list event * st * (exn + A))
  : list event * st * (exn + A) :=
  (t ++ r.1.1, r.1.2, r.2).

(** Every argument of an option in [ints] is accepted by [int], and every
    argument of an option in [floats] by [float]. *)
Definition values_convert (ints floats : list string) (opts : list (string * string)) : bool :=
  forallb (fun '(opt, arg) =>
             implb (existsb (String.eqb opt) ints)
                   (match py_int arg with Some _ => true | None => false end)
             && implb (existsb (String.eqb opt) floats)
                      (match py_float arg with Some _ => true | None => false end))
          opts.

(** The debug stream named by [-d] can be opened. *)
Definition debug_stream_opens : Prop :=
  forall fname p, fails (EvSetDebugStream fname "w") p = None.

(** The calls that the [-d] options of [opts] make, in order. *)
Definition debug_events (opts : list (string * string)) : list event :=
  omap (fun '(opt, arg) =>
          if String.eqb opt "-d" then Some (EvSetDebugStream arg "w") else None) opts.

(** Modelled from the spec: [SamplingPlanner.generate_tree] of tgen/planner.py is
    not among the sources; it builds one tree for the dialogue act and writes
    it into the output document, after the trees already there. *)
Definition planner_appends (language selector : string) : Prop :=
  forall tgen da d p,
    ttrees_from_doc (sampling_generate tgen da d p) language selector
    = ttrees_from_doc d language selector ++ [sample_tree tgen da p].

(** [>] on the floats that occur is a strict order in which incomparable
    values are equal (no NaN). *)
Record float_order : Prop := {
  gt_irrefl : forall x, float_gt x x = false;
  gt_trans : forall x y z, float_gt x y = true -> float_gt y z = true -> float_gt x z = true;
  gt_cotrans : forall x y z, float_gt x z = true -> float_gt x y = true \/ float_gt y z = true
}.

(** [m] is what [max(l, key=key)] returns: an element that no element
    exceeds, and the first such. *)
Definition max_choice {A} (key : A -> PyFloat) (l : list A) (m : A) : Prop :=
  exists j, l !! j = Some m
    /\ (forall x, x ∈ l -> float_gt (key x) (key m) = false)
    /\ (forall j' y, (j' < j)%nat -> l !! j' = Some y -> float_gt (key m) (key y) = true).

(** A loop whose body only computes. *)
Fixpoint fold_sum {A B} (f : A -> B -> exn + A) (a : A) (l : list B) : exn + A :=
  match l with
  | [] => inr a
  | x :: l' => match f a x with
               | inl e => inl e
               | inr a' => fold_sum f a' l'
               end
  end.

Definition total (proj : PyFloat * Z * Z * Z -> Z) (bests : list (PyFloat * Z * Z * Z)) : Z :=
  foldr (fun b acc => proj b + acc) 0 bests.

Definition count_c (b : PyFloat * Z * Z * Z) : Z := let '(_, c, _, _) := b in c.
Definition count_p (b : PyFloat * Z * Z * Z) : Z := let '(_, _, p, _) := b in p.
Definition count_g (b : PyFloat * Z * Z * Z) : Z := let '(_, _, _, g) := b in g.

(** [best] is the tuple of the sample of [samples] that maximizes its F1
    against [gold_tree] (the first one, among equals). *)
Definition oracle_choice (gold_tree : TTree) (samples : list TTree)
           (best : PyFloat * Z * Z * Z) : Prop :=
  exists j sample,
    samples !! j = Some sample
    /\ best = scored gold_tree sample
    /\ (forall sample', sample' ∈ samples ->
          float_gt (score_key (scored gold_tree sample')) (score_key best) = false)
    /\ (forall j' sample', (j' < j)%nat -> samples !! j' = Some sample' ->
          float_gt (score_key best) (score_key (scored gold_tree sample')) = true).

(** The F1 of one sample against the gold tree: [f1_from_counts] of the
    counts that [corr_pred_gold] gives. *)
Definition f1_of (gold_tree sample : TTree) : PyFloat :=
  let '(c, p, g) := corr_pred_gold gold_tree sample in f1_from_counts c p g.

(** [counts] are the (correct, predicted, gold) counts of the sample of
    [samples] whose F1 against [gold_tree] no other sample exceeds, the
    first one among equals. *)
Definition oracle_best (gold_tree : TTree) (samples : list TTree) (counts : Z * Z * Z)
  : Prop :=
  exists j sample,
    samples !! j = Some sample
    /\ corr_pred_gold gold_tree sample = counts
    /\ (forall sample', sample' ∈ samples ->
          float_gt (f1_of gold_tree sample') (f1_of gold_tree sample) = false)
    /\ (forall j' sample', (j' < j)%nat -> samples !! j' = Some sample' ->
          float_gt (f1_of gold_tree sample) (f1_of gold_tree sample') = true).

(** The counts of a tuple that [max] ranges over. *)
Definition counts_of (b : PyFloat * Z * Z * Z) : Z * Z * Z :=
  let '(_, c, p, g) := b in (c, p, g).

(** The three sums over a list of count triples. *)
Definition sum_counts (l : list (Z * Z * Z)) : Z * Z * Z :=
  foldr (fun '(c, p, g) '(sc, sp, sg) => (c + sc, p + sp, g + sg)) (0, 0, 0) l.

(** The hidden state after the calls [t], none of which raised. *)
Definition run_effects (t : list event) (p : proc) : proc :=
  foldl (fun p e => effect e p) p t.

(** [m] leaves the content of every document that exists when it starts as
    it is, and gives up no object number. *)
Definition keeps_docs {A} (m : M A) : Prop :=
  forall s o, (o < st_next s)%nat ->
    doc_of (m s).1.2 o = doc_of s o /\ (st_next s <= st_next (m s).1.2)%nat.


Definition is_generate (e : event) : bool :=
  match e with
  | EvGenerateTree _ _ _ _ => true
  | _ => false
  end.

(** Events that build, load, train or save a generator, a ranker or a
    planner. *)
Definition is_model_event (e : event) : bool :=
  match e with
  | EvNewCandgen _ _ | EvCandgenTrain _ _ _ | EvCandgenSave _ _ | EvCandgenLoad _ _
  | EvNewRanker _ _ | EvNewParallelRanker _ _ _ | EvRankerTrain _ _ _ _
  | EvRankerSave _ _ | EvRankerLoad _ _
  | EvNewSamplingPlanner _ _ | EvNewASearchPlanner _ _ => true
  | _ => false
  end.

(** Events that build, load, train or save a perceptron ranker. *)
Definition is_ranker_event (e : event) : bool :=
  match e with
  | EvNewRanker _ _ | EvNewParallelRanker _ _ _ | EvRankerTrain _ _ _ _
  | EvRankerSave _ _ | EvRankerLoad _ _ => true
  | _ => false
  end.

(** What [sample_gen] builds before it generates: one candidate generator
    [candgen] with its model loaded from [fname], and a sampling planner
    whose candidate generator and ranker are both that object. *)
Definition sampling_setup (candgen : obj) (fname : string) : list event :=
  [EvNewCandgen candgen ∅;
   EvCandgenLoad candgen fname;
   EvNewSamplingPlanner (S candgen)
     (<["ranker" := VObj candgen]> (<["candgen" := VObj candgen]> ∅))].

(** [m] returns normally from every state, and all its events satisfy [P]. *)
Definition runs_ok (P : event -> Prop) {A} (m : M A) : Prop :=
  forall s, exists t s' a, m s = (t, s', inr a) /\ Forall P t.

(** All events of [m] satisfy [P], whether it returns or raises. *)
Definition trace_all (P : event -> Prop) {A} (m : M A) : Prop :=
  forall s, Forall P (m s).1.1.

(** The events of the analysis loop: one debug line and one generation call
    per pair, numbered from [k]. *)
Definition analysis_events (tgen gen_doc : obj) (k : nat) (pairs : list (DA * TreeData))
  : list event :=
  List.concat (imap (fun i (pair : DA * TreeData) =>
                       [EvLogDebug (nl +:+ nl +:+ "TREE No. " +:+ fmt_03d (k + i));
                        EvGenerateTree tgen pair.1 gen_doc true]) pairs).

End Vocabulary.

(** ** A small world, for worked examples

    Dialogue acts and trees are strings, a document is the list of its
    trees, floats are integers (thousandths), the random generator is a
    counter that every generation advances, and no call raises. *)

Definition example_int (s : string) : option Z :=
  match NilEmpty.int_of_string s with
  | Some i => Some (Z.of_int i)
  | None => None
  end.

Fixpoint common_prefix (a b : string) : Z :=
  match a, b with
  | String x a', String y b' => if Ascii.eqb x y then 1 + common_prefix a' b' else 0
  | _, _ => 0
  end.

Definition example_f1 (c p g : Z) : Z := if p + g =? 0 then 0 else 2000 * c / (p + g).

#[local] Instance example_data : Data := {|
  DA := string; TreeData := string; TTree := string; Document := list string;
  OpenList := nat; CloseList := nat; PyFloat := Z; Rng := nat; Store := unit |}.

Definition example_tree (da : string) (p : @proc example_data) : string :=
  da +:+ NilEmpty.string_of_uint (Nat.to_uint (@rng example_data p)).

Definition example_world : World example_data := {|
  py_int := example_int;
  py_float := example_int;
  float_one := 1000;
  float_gt := Z.gtb;
  fmt_float := fun _ x => NilEmpty.string_of_int (Z.to_int x);
  python_implementation := "CPython";
  python_version := "2.7.18";
  sys_maxint := 9223372036854775807;
  rng_of_seed := Z.to_nat;
  store_init := tt;
  effect := fun e p =>
    match e with
    | EvGenerateTree _ _ _ _ =>
        {| rng := S (@rng example_data p); store := @store example_data p |}
    | _ => p
    end;
  fails := fun _ _ => None;
  Config_load := fun _ _ => ∅;
  read_das := fun f _ => if String.eqb f "das" then ["ab"; "cd"] else [];
  read_ttrees := fun f _ => if String.eqb f "gold" then ["ab1"; "cd3"] else [];
  Document_new := [];
  planner_language := fun _ => "en";
  planner_selector := fun _ => "";
  sampling_generate := fun _ da d p => d ++ [example_tree da p];
  sample_tree := fun _ da p => example_tree da p;
  asearch_generate := fun _ da d _ p =>
    (d ++ [da], (@rng example_data p, S (@rng example_data p)));
  ttrees_from_doc := fun d _ _ => d;
  trees_from_doc := fun d _ _ => d;
  doc_bundles := fun d => List.length d;
  add_bundle_text := fun d _ _ _ _ => d;
  corr_pred_gold := fun gold gen =>
    (common_prefix gold gen, Z.of_nat (String.length gen), Z.of_nat (String.length gold));
  f1_from_counts := example_f1;
  p_r_f1_from_counts := fun c p g =>
    (if p =? 0 then 0 else 1000 * c / p, if g =? 0 then 0 else 1000 * c / g, example_f1 c p g);
  lists_analyzer_stats := fun l => (Z.of_nat (List.length l), 0, 0);
  evaluator_p_r_f1 := fun l _ => (Z.of_nat (List.length l), 0, 0)
|}.

(** A state in which document 2 holds two samples for each of two acts. *)
Definition example_generated : @st example_data :=
  {| st_proc := {| rng := 4%nat; store := tt |};
     st_docs := {[ 2%nat := ["ab0"; "ab1"; "cd2"; "cd3"] ]};
     st_next := 3%nat |}.

(** The state in which a process starts. *)
Definition example_start : @st example_data := start (W := example_world) 0%nat.

(** ** Vocabulary of the further properties *)

(** A word at which [getopt] stops scanning: it does not start with a dash,
    or it is the single dash. *)
Definition non_option (w : string) : bool :=
  match w with
  | String d (String _ _) => negb (Ascii.eqb d "-")
  | _ => true
  end.

(** [c] is an option letter of the option string [so]. *)
Fixpoint opt_letter (c : ascii) (so : string) : bool :=
  match so with
  | EmptyString => false
  | String x rest => (Ascii.eqb c x && negb (Ascii.eqb x ":")) || opt_letter c rest
  end.

(** Option [o] occurs among [opts]. *)
Definition has_opt (o : string) (opts : list (string * string)) : bool :=
  match last_value o opts None with
  | Some _ => true
  | None => false
  end.

Section FurtherVocabulary.
Context {D : Data} {W : World D}.

Definition is_write (e : event) : bool :=
  match e with
  | EvWriteYAML _ _ => true
  | _ => false
  end.

(** The line that [main] logs last. *)
Definition is_done (e : event) : bool :=
  match e with
  | EvLogInfo msg => String.eqb msg "Done."
  | _ => false
  end.

(** [cfg.update({'candgen': candgen, 'ranker': ranker})] on the objects
    that [asearch_gen] has just built. *)
Definition asearch_planner_cfg (candgen : obj) (file_cfg : gmap string cfg_value)
  : gmap string cfg_value :=
  <["ranker" := VObj (S candgen)]> (<["candgen" := VObj candgen]> file_cfg).

(** The configuration that [asearch_gen] starts from: the file of a
    non-empty [-c], read in state [p], or the empty dictionary. *)
Definition asearch_loaded_cfg (cfg_file : option string) (p : proc) : gmap string cfg_value :=
  if truthy cfg_file then Config_load (default "" cfg_file) p else ∅.

Definition asearch_cfg_events (cfg_file : option string) : list event :=
  if truthy cfg_file then [EvConfig (default "" cfg_file)] else [].

(** The events of [asearch_gen] from its first log line to the loading of
    the ranker. *)
Definition asearch_load_events (candgen : obj) (f_cand f_rank : string) : list event :=
  [EvLogInfo "Initializing..."; EvNewCandgen candgen ∅; EvCandgenLoad candgen f_cand;
   EvRankerLoad (S candgen) f_rank].

(** What [asearch_gen] builds before it generates: a candidate generator
    [candgen] loaded from [f_cand], a ranker loaded from [f_rank], and the
    A* planner on the configuration [file_cfg] with its two keys replaced. *)
Definition asearch_setup (candgen : obj) (f_cand f_rank : string)
           (file_cfg : gmap string cfg_value) : list event :=
  [EvNewCandgen candgen ∅;
   EvCandgenLoad candgen f_cand;
   EvRankerLoad (S candgen) f_rank;
   EvNewASearchPlanner (S (S candgen)) (asearch_planner_cfg candgen file_cfg)].

(** Generation calls go to planner [tgen] and document [gen_doc] with
    [return_lists=True], and bundle texts go to document [eval_doc]. *)
Definition targets (tgen gen_doc eval_doc : obj) (e : event) : Prop :=
  match e with
  | EvGenerateTree t _ o return_lists => t = tgen /\ o = gen_doc /\ return_lists = true
  | EvAddBundleText o _ _ _ _ => o = eval_doc
  | _ => True
  end.

(** The events of [-w]: the log line and the writer call, or nothing. *)
Definition write_events (fname_ttrees_out : option string) (d : Document) : list event :=
  match fname_ttrees_out with
  | Some f => [EvLogInfo "Writing output..."; EvWriteYAML f d]
  | None => []
  end.

(** The per-sentence score text that the F-score block attaches to a bundle. *)
Definition score_text (eval_ttree gen_ttree : TTree) : string :=
  let '(c, p, g) := corr_pred_gold eval_ttree gen_ttree in
  fmt3 "P: " "%.4f" " R: " "%.4f" " F1: " "%.4f" (p_r_f1_from_counts c p g).

End FurtherVocabulary.

(** * Properties *)

(** ** Facts about [getopt] *)

Section GetoptFacts.

Lemma shift_shift a b r : shift_opts a (shift_opts b r) = shift_opts (a ++ b) r.
Proof. destruct r as [e|[o f]]; simpl; [done|]. by rewrite app_assoc. Qed.

Lemma getopt_loop_shift_le so n : forall args acc,
  (List.length args <= n)%nat ->
  Getopt.getopt_loop so acc args = shift_opts acc (Getopt.getopt_loop so [] args).
Proof.
  induction n as [|n IH]; intros args acc Hn.
  - destruct args; [|simpl in Hn; lia]. simpl. by rewrite app_nil_r.
  - destruct args as [|a rest]; [simpl; by rewrite app_nil_r|].
    simpl in Hn. cbn [Getopt.getopt_loop].
    destruct a as [|d [|c cl]]; try (simpl; by rewrite app_nil_r).
    destruct (negb (Ascii.eqb d "-")); [simpl; by rewrite app_nil_r|].
    destruct (String.eqb _ _); [simpl; by rewrite app_nil_r|].
    destruct (Ascii.eqb c "-"); [done|].
    destruct (Getopt.do_shorts so (String c cl) (head rest)) as [e|[os [|]]]; [done| |].
    + destruct rest as [|b rest']; [done|]. simpl.
      rewrite (IH rest' (acc ++ os)), (IH rest' os) by (simpl in *; lia).
      by rewrite shift_shift.
    + simpl. rewrite (IH rest (acc ++ os)), (IH rest os) by lia.
      by rewrite shift_shift.
Qed.

Lemma getopt_loop_shift so acc args :
  Getopt.getopt_loop so acc args = shift_opts acc (Getopt.getopt_loop so [] args).
Proof. by apply (getopt_loop_shift_le so (List.length args)). Qed.

(** A cluster that is scanned without a following word never asks for one. *)
Lemma do_shorts_no_next so cl os u :
  Getopt.do_shorts so cl None = inr (os, u) ->
  u = false /\ forall nx, Getopt.do_shorts so cl nx = inr (os, false).
Proof.
  revert os u. induction cl as [|c cl IH]; intros os u H; simpl in *.
  - by inversion H.
  - destruct (Getopt.short_has_arg c so) as [e|[|]]; [done| |].
    + destruct cl; [done|]. by inversion H.
    + destruct (Getopt.do_shorts so cl None) as [e|[os' u']]; [done|].
      inversion H; subst. destruct (IH os' u eq_refl) as [-> Hnx].
      split; [done|]. intros nx. by rewrite Hnx.
Qed.

Lemma getopt_loop_words_le so n : forall pre popts acc tl,
  (List.length pre <= n)%nat ->
  option_words so pre popts ->
  Getopt.getopt_loop so acc (pre ++ tl) = Getopt.getopt_loop so (acc ++ popts) tl.
Proof.
  unfold option_words, Getopt.getopt.
  induction n as [|n IH]; intros pre popts acc tl Hn [Hp Ht].
  - destruct pre; [|simpl in Hn; lia]. simpl in *. inversion Hp. by rewrite app_nil_r.
  - destruct pre as [|a rest]; [simpl in *; inversion Hp; by rewrite app_nil_r|].
    simpl in Hn. rewrite <- app_comm_cons. cbn [Getopt.getopt_loop] in *.
    destruct a as [|d [|c cl]]; try done.
    destruct (negb (Ascii.eqb d "-")); [done|].
    cbn [forallb] in Ht. apply andb_prop in Ht as [Ha Ht'].
    destruct (String.eqb (String d (String c cl)) "--"); [done|].
    destruct (Ascii.eqb c "-"); [done|].
    destruct rest as [|b rest'].
    + cbn [head app] in *.
      destruct (Getopt.do_shorts so (String c cl) None) as [e|[os u]] eqn:E; [done|].
      destruct (do_shorts_no_next _ _ _ _ E) as [-> Hnx].
      rewrite Hnx. simpl in Hp. inversion Hp; subst. done.
    + cbn [head app] in *.
      destruct (Getopt.do_shorts so (String c cl) (Some b)) as [e|[os [|]]]; [done| |].
      * rewrite getopt_loop_shift in Hp.
        destruct (Getopt.getopt_loop so [] rest') as [e|[o f]] eqn:E; [done|].
        simpl in Hp. inversion Hp; subst.
        rewrite (IH rest' o (acc ++ os) tl); [by rewrite app_assoc|simpl in Hn; lia|].
        split; [done|]. cbn [forallb] in Ht'. by apply andb_prop in Ht' as [_ ?].
      * rewrite getopt_loop_shift in Hp.
        destruct (Getopt.getopt_loop so [] (b :: rest')) as [e|[o f]] eqn:E; [done|].
        simpl in Hp. inversion Hp; subst.
        rewrite app_comm_cons.
        rewrite (IH (b :: rest') o (acc ++ os) tl); [by rewrite app_assoc|simpl in *; lia|].
        split; [done|]. done.
Qed.

(** Complete options in front of other words only add their options. *)
Lemma getopt_loop_words so pre popts acc tl :
  option_words so pre popts ->
  Getopt.getopt_loop so acc (pre ++ tl) = Getopt.getopt_loop so (acc ++ popts) tl.
Proof. by apply (getopt_loop_words_le so (List.length pre)). Qed.

Lemma do_shorts_known so cl nx os u :
  Getopt.do_shorts so cl nx = inr (os, u) -> Forall (known_opt so) os.
Proof.
  revert os u. induction cl as [|c cl IH]; intros os u H; simpl in H.
  - inversion H. constructor.
  - destruct (Getopt.short_has_arg c so) as [e|[|]] eqn:E; [done| |].
    + destruct cl.
      * destruct nx; [|done]. inversion H. repeat constructor. by exists c, true.
      * inversion H. repeat constructor. by exists c, true.
    + destruct (Getopt.do_shorts so cl nx) as [e|[os' u']]; [done|].
      inversion H; subst. constructor; [by exists c, false|]. by eapply IH.
Qed.

Lemma getopt_loop_known_le so n : forall args acc opts files,
  (List.length args <= n)%nat ->
  Getopt.getopt_loop so acc args = inr (opts, files) ->
  Forall (known_opt so) acc -> Forall (known_opt so) opts.
Proof.
  induction n as [|n IH]; intros args acc opts files Hn H Hacc.
  - destruct args; [|simpl in Hn; lia]. simpl in H. by inversion H; subst.
  - destruct args as [|a rest]; [simpl in H; by inversion H; subst|].
    simpl in Hn. cbn [Getopt.getopt_loop] in H.
    destruct a as [|d [|c cl]]; try (by inversion H; subst).
    destruct (negb (Ascii.eqb d "-")); [by inversion H; subst|].
    destruct (String.eqb _ _); [by inversion H; subst|].
    destruct (Ascii.eqb c "-"); [done|].
    destruct (Getopt.do_shorts so (String c cl) (head rest)) as [e|[os u]] eqn:E; [done|].
    apply do_shorts_known in E.
    assert (Forall (known_opt so) (acc ++ os)) by (by apply Forall_app).
    destruct u.
    + destruct rest as [|b rest']; [by inversion H; subst|].
      eapply (IH rest'); eauto. simpl in Hn. lia.
    + eapply (IH rest); eauto. lia.
Qed.

Lemma getopt_known so args opts files :
  Getopt.getopt args so = inr (opts, files) -> Forall (known_opt so) opts.
Proof.
  intros H. eapply (getopt_loop_known_le so (List.length args)); eauto.
Qed.

Lemma asearch_known_not_s oa : known_opt "e:d:w:c:" oa -> String.eqb oa.1 "-s" = false.
Proof.
  intros (c & b & -> & Hc). unfold Getopt.opt_name.
  destruct (String.eqb_spec (String "-" (String c "")) "-s") as [Heq|]; [|done].
  inversion Heq; subst. discriminate Hc.
Qed.

Lemma getopt_s_rejected acc x rest :
  Getopt.getopt_loop "e:d:w:c:" acc (("-s" +:+ x) :: rest)
  = inl (GetoptError "option -s not recognized" "s").
Proof. reflexivity. Qed.

Lemma getopt_insert_r pre popts x rest :
  option_words "r:n:o:w:" pre popts ->
  Getopt.getopt (pre ++ "-r" :: x :: rest) "r:n:o:w:"
  = shift_opts (popts ++ [("-r", x)]) (Getopt.getopt rest "r:n:o:w:")
  /\ (x <> "" ->
      Getopt.getopt (pre ++ ("-r" +:+ x) :: rest) "r:n:o:w:"
      = shift_opts (popts ++ [("-r", x)]) (Getopt.getopt rest "r:n:o:w:"))
  /\ Getopt.getopt (pre ++ rest) "r:n:o:w:"
     = shift_opts popts (Getopt.getopt rest "r:n:o:w:").
Proof.
  intros Hw. unfold Getopt.getopt. rewrite !(getopt_loop_words _ _ _ _ _ Hw).
  cbn [app]. repeat split.
  - cbn. by rewrite getopt_loop_shift.
  - intros Hx. destruct x as [|c x]; [done|].
    change ("-r" +:+ String c x) with (String "-" (String "r" (String c x))). cbn.
    by rewrite (getopt_loop_shift _ (popts ++ _)).
  - by rewrite getopt_loop_shift.
Qed.

End GetoptFacts.

(** ** Facts about the driver monad *)

Section MonadFacts.
Context {D : Data} {W : World D}.

Lemma bind_run {A B} (m : M A) (k : A -> M B) s :
  (m ≫= k) s =
  match m s with
  | (t1, s1, inl e) => (t1, s1, inl e)
  | (t1, s1, inr a) => match k a s1 with (t2, s2, r) => (t1 ++ t2, s2, r) end
  end.
Proof. reflexivity. Qed.

Lemma ret_bind {A B} (a : A) (k : A -> M B) s : (mret a ≫= k) s = k a s.
Proof. rewrite bind_run. simpl. by destruct (k a s) as [[t s'] r]. Qed.

Lemma raise_bind {A B} (e : exn) (k : A -> M B) s : (raise e ≫= k) s = ([], s, inl e).
Proof. reflexivity. Qed.

Lemma lift_bind {A B} (r : exn + A) (k : A -> M B) s :
  (lift r ≫= k) s = match r with inl e => ([], s, inl e) | inr a => k a s end.
Proof. rewrite bind_run. destruct r as [e|a]; simpl; [done|]. by destruct (k a s) as [[t s'] r]. Qed.

Lemma bind_ext {A B} (m : M A) (k1 k2 : A -> M B) s :
  (forall a s', k1 a s' = k2 a s') -> (m ≫= k1) s = (m ≫= k2) s.
Proof.
  intros H. rewrite !bind_run. destruct (m s) as [[t1 s1] [e|a]]; [done|]. by rewrite H.
Qed.

Lemma bind_cong {A B} (m1 m2 : M A) (k : A -> M B) s :
  m1 s = m2 s -> (m1 ≫= k) s = (m2 ≫= k) s.
Proof. intros H. rewrite !bind_run. by rewrite H. Qed.

Lemma bind_assoc {A B C} (m : M A) (f : A -> M B) (g : B -> M C) s :
  ((m ≫= f) ≫= g) s = (m ≫= fun a => f a ≫= g) s.
Proof.
  rewrite !bind_run. destruct (m s) as [[t1 s1] [e|a]]; [done|].
  rewrite bind_run. destruct (f a s1) as [[t2 s2] [e|b]]; [done|].
  destruct (g b s2) as [[t3 s3] r]. by rewrite app_assoc.
Qed.

Lemma bind_known {A B} (m : M A) (k : A -> M B) s t s1 a :
  m s = (t, s1, inr a) -> (m ≫= k) s = prepend t (k a s1).
Proof. intros H. rewrite bind_run, H. by destruct (k a s1) as [[t2 s2] r]. Qed.

Lemma bind_failed {A B} (m : M A) (k : A -> M B) s t s1 e :
  m s = (t, s1, inl e) -> (m ≫= k) s = (t, s1, inl e).
Proof. intros H. by rewrite bind_run, H. Qed.

Lemma prepend_nil {A} (r : list event * st * (exn + A)) : prepend [] r = r.
Proof. by destruct r as [[t s] r]. Qed.

Lemma emit_bind {B} e (k : unit -> M B) s :
  (emit e ≫= k) s = prepend [e] (k tt (with_proc s (effect e (st_proc s)))).
Proof. by apply bind_known. Qed.

Lemma call_run {A} (e : event) (r : proc -> A) s :
  reliable ->
  call e r s = ([e], with_proc s (effect e (st_proc s)), inr (r (st_proc s))).
Proof. intros H. unfold call. by rewrite H. Qed.

Lemma call_bind {A B} e (r : proc -> A) (k : A -> M B) s :
  reliable ->
  (call e r ≫= k) s = prepend [e] (k (r (st_proc s)) (with_proc s (effect e (st_proc s)))).
Proof. intros H. apply bind_known. by apply call_run. Qed.

Lemma new_obj_bind {B} (k : obj -> M B) s :
  (new_obj ≫= k) s
  = k (st_next s) {| st_proc := st_proc s; st_docs := st_docs s; st_next := S (st_next s) |}.
Proof. erewrite bind_known by reflexivity. apply prepend_nil. Qed.

Lemma get_doc_bind {B} o (k : Document -> M B) s : (get_doc o ≫= k) s = k (doc_of s o) s.
Proof. erewrite bind_known by reflexivity. apply prepend_nil. Qed.

Lemma set_doc_bind {B} o d (k : unit -> M B) s :
  (set_doc o d ≫= k) s
  = k tt {| st_proc := st_proc s; st_docs := <[o := d]> (st_docs s); st_next := st_next s |}.
Proof. erewrite bind_known by reflexivity. apply prepend_nil. Qed.

Lemma doc_of_insert p docs o d n :
  doc_of {| st_proc := p; st_docs := <[o := d]> docs; st_next := n |} o = d.
Proof. unfold doc_of. cbn. by rewrite lookup_insert_eq. Qed.

Lemma doc_of_insert_ne p docs o o' d n :
  o <> o' ->
  doc_of {| st_proc := p; st_docs := <[o := d]> docs; st_next := n |} o'
  = default Document_new (docs !! o').
Proof. intros H. unfold doc_of. cbn. by rewrite lookup_insert_ne. Qed.

Lemma foldM_app {A B} (f : A -> B -> M A) (l1 l2 : list B) : forall a s,
  foldM f a (l1 ++ l2) s = (foldM f a l1 ≫= fun a' => foldM f a' l2) s.
Proof.
  induction l1 as [|x l1 IH]; intros a s; simpl.
  - by rewrite ret_bind.
  - rewrite !bind_run. destruct (f a x s) as [[t1 s1] [e|a1]]; [done|].
    rewrite IH, bind_run. destruct (foldM f a1 l1 s1) as [[t2 s2] [e|a2]]; [done|].
    destruct (foldM f a2 l2 s2) as [[t3 s3] r]. by rewrite app_assoc.
Qed.

(** An option that no branch of the loop handles leaves the locals as they
    are. *)

End MonadFacts.

Ltac mred := unfold mbind, M_bind, mret, M_ret, raise, lift, sys_exit; cbn.

Section RunsOk.
Context {D : Data} {W : World D}.
Variable P : event -> Prop.

Lemma runs_ok_ret {A} (a : A) : runs_ok P (mret a).
Proof. intros s. by exists [], s, a. Qed.

Lemma runs_ok_bind {A B} (m : M A) (k : A -> M B) :
  runs_ok P m -> (forall a, runs_ok P (k a)) -> runs_ok P (m ≫= k).
Proof.
  intros Hm Hk s. destruct (Hm s) as (t1 & s1 & a & E1 & H1).
  destruct (Hk a s1) as (t2 & s2 & b & E2 & H2).
  exists (t1 ++ t2), s2, b. split; [|by apply Forall_app].
  by rewrite (bind_known _ _ _ _ _ _ E1), E2.
Qed.

Lemma runs_ok_emit e : P e -> runs_ok P (emit e).
Proof. intros He s. do 3 eexists. split; [reflexivity|]. by constructor. Qed.

Lemma runs_ok_call {A} e (r : proc -> A) : reliable -> P e -> runs_ok P (call e r).
Proof.
  intros Hr He s. do 3 eexists. split; [by apply call_run|]. by constructor.
Qed.

Lemma runs_ok_new_obj : runs_ok P new_obj.
Proof. intros s. do 3 eexists. split; [reflexivity|]. constructor. Qed.

Lemma runs_ok_get_doc o : runs_ok P (get_doc o).
Proof. intros s. do 3 eexists. split; [reflexivity|]. constructor. Qed.

Lemma runs_ok_set_doc o d : runs_ok P (set_doc o d).
Proof. intros s. do 3 eexists. split; [reflexivity|]. constructor. Qed.

Lemma runs_ok_foldM {A B} (f : A -> B -> M A) l :
  (forall a x, runs_ok P (f a x)) -> forall a, runs_ok P (foldM f a l).
Proof.
  intros Hf. induction l as [|x l IH]; intros a; cbn [foldM].
  - apply runs_ok_ret.
  - apply runs_ok_bind; [apply Hf|apply IH].
Qed.

End RunsOk.

Ltac runs_ok_tac Hr :=
  repeat first
    [ apply runs_ok_ret
    | apply runs_ok_emit
    | apply (fun P A e r => @runs_ok_call _ _ P A e r Hr)
    | apply runs_ok_new_obj
    | apply runs_ok_get_doc
    | apply runs_ok_set_doc
    | apply runs_ok_foldM; intros
    | apply runs_ok_bind; [|intros]
    | match goal with
      | |- runs_ok _ (let '(_, _) := ?x in _) => destruct x
      | |- runs_ok _ (match ?x with _ => _ end) => destruct x
      end
    | done ].

Section TraceAll.
Context {D : Data} {W : World D}.
Variable P : event -> Prop.

Lemma trace_all_ret {A} (a : A) : trace_all P (mret a).
Proof. intros s. constructor. Qed.

Lemma trace_all_raise {A} e : trace_all P (raise (A := A) e).
Proof. intros s. constructor. Qed.

Lemma trace_all_lift {A} (r : exn + A) : trace_all P (lift r).
Proof. intros s. constructor. Qed.

Lemma trace_all_bind {A B} (m : M A) (k : A -> M B) :
  trace_all P m -> (forall a, trace_all P (k a)) -> trace_all P (m ≫= k).
Proof.
  intros Hm Hk s. rewrite bind_run. specialize (Hm s).
  destruct (m s) as [[t1 s1] [e|a]]; [done|]. specialize (Hk a s1).
  destruct (k a s1) as [[t2 s2] r]. by apply Forall_app.
Qed.

Lemma trace_all_emit e : P e -> trace_all P (emit e).
Proof. intros He s. by constructor. Qed.

Lemma trace_all_call {A} e (r : proc -> A) : P e -> trace_all P (call e r).
Proof. intros He s. unfold call. destruct (fails e (st_proc s)); by constructor. Qed.

Lemma trace_all_new_obj : trace_all P new_obj.
Proof. intros s. constructor. Qed.

Lemma trace_all_get_doc o : trace_all P (get_doc o).
Proof. intros s. constructor. Qed.

Lemma trace_all_set_doc o d : trace_all P (set_doc o d).
Proof. intros s. constructor. Qed.

Lemma trace_all_foldM {A B} (f : A -> B -> M A) l :
  (forall a x, trace_all P (f a x)) -> forall a, trace_all P (foldM f a l).
Proof.
  intros Hf. induction l as [|x l IH]; intros a; cbn [foldM].
  - apply trace_all_ret.
  - apply trace_all_bind; [apply Hf|apply IH].
Qed.

End TraceAll.

Ltac trace_all_tac :=
  repeat first
    [ apply trace_all_ret
    | apply trace_all_raise
    | apply trace_all_lift
    | apply trace_all_emit
    | apply trace_all_call
    | apply trace_all_new_obj
    | apply trace_all_get_doc
    | apply trace_all_set_doc
    | apply trace_all_foldM; intros
    | apply trace_all_bind; [|intros]
    | match goal with
      | |- trace_all _ (let '(_, _) := ?x in _) => destruct x
      | |- trace_all _ (match ?x with _ => _ end) => destruct x
      end
    | done ].

(** ** The option loops *)

Section OptionLoops.
Context {D : Data} {W : World D}.

Lemma last_value_cur o opts : forall cur,
  last_value o opts cur
  = match last_value o opts None with Some a => Some a | None => cur end.
Proof.
  induction opts as [|[opt arg] opts IH]; intros cur; [done|]. cbn [last_value].
  rewrite (IH (if String.eqb opt o then Some arg else cur)).
  rewrite (IH (if String.eqb opt o then Some arg else None)).
  destruct (last_value o opts None); [done|]. by destruct (String.eqb opt o).
Qed.

Lemma candgen_train_opts_run opts : forall cur s,
  values_convert ["-p"] [] opts = true ->
  exists v, foldM candgen_train_opt cur opts s = ([], s, inr v)
            /\ match last_value "-p" opts None with
               | Some arg => py_int arg = Some v
               | None => v = cur
               end.
Proof.
  induction opts as [|[opt arg] opts IH]; intros cur s Hc; [by eexists|].
  cbn [values_convert forallb] in Hc. apply andb_prop in Hc as [Hc Hcs].
  apply andb_prop in Hc as [Hc _]. cbn [foldM candgen_train_opt]. rewrite bind_run.
  cbn [existsb orb] in Hc. cbn [last_value]. rewrite last_value_cur.
  destruct (String.eqb opt "-p") eqn:E.
  - cbn in Hc. unfold int. destruct (py_int arg) as [z|] eqn:Hz; [|done].
    cbn. destruct (IH z s Hcs) as (v & -> & Hv).
    exists v. split; [done|]. destruct (last_value "-p" opts None); congruence.
  - cbn. destruct (IH cur s Hcs) as (v & -> & Hv).
    exists v. split; [done|]. by destruct (last_value "-p" opts None).
Qed.

Lemma sample_gen_opts_run opts : forall cur s,
  values_convert ["-n"] [] opts = true ->
  exists locals, foldM sample_gen_opt cur opts s = ([], s, inr locals).
Proof.
  induction opts as [|[opt arg] opts IH]; intros [[n o] w] s Hc; [by eexists|].
  cbn [values_convert forallb] in Hc. apply andb_prop in Hc as [Hc Hcs].
  apply andb_prop in Hc as [Hc _]. cbn [foldM sample_gen_opt]. rewrite bind_run.
  cbn [existsb orb] in Hc.
  destruct (String.eqb opt "-n").
  { cbn in Hc. unfold int. destruct (py_int arg) as [z|]; [|done].
    mred. destruct (IH (z, o, w) s Hcs) as [l ->]. by eexists. }
  destruct (String.eqb opt "-o").
  { mred. destruct (IH (n, Some arg, w) s Hcs) as [l ->]. by eexists. }
  destruct (String.eqb opt "-w").
  { mred. destruct (IH (n, o, Some arg) s Hcs) as [l ->]. by eexists. }
  mred. destruct (IH (n, o, w) s Hcs) as [l ->]. by eexists.
Qed.

Lemma debug_events_cons opt arg opts :
  debug_events ((opt, arg) :: opts)
  = if String.eqb opt "-d" then EvSetDebugStream arg "w" :: debug_events opts
    else debug_events opts.
Proof. unfold debug_events. cbn. by destruct (String.eqb opt "-d"). Qed.

Lemma set_debug_stream_run fname s :
  debug_stream_opens ->
  set_debug_stream fname s
  = ([EvSetDebugStream fname "w"],
     with_proc s (effect (EvSetDebugStream fname "w") (st_proc s)), inr tt).
Proof. intros H. unfold set_debug_stream, call_, call. by rewrite H. Qed.

Lemma percrank_train_opts_run opts : forall cur s,
  debug_stream_opens ->
  values_convert ["-j"] ["-s"] opts = true ->
  exists locals s', foldM percrank_train_opt cur opts s = (debug_events opts, s', inr locals).
Proof.
  induction opts as [|[opt arg] opts IH]; intros [[[[cm ts] par] jobs] wd] s Hd Hc;
    [by do 2 eexists|].
  cbn [values_convert forallb] in Hc. apply andb_prop in Hc as [Hc Hcs].
  apply andb_prop in Hc as [Hci Hcf]. cbn [foldM percrank_train_opt]. rewrite bind_run.
  cbn [existsb orb] in Hci, Hcf. rewrite debug_events_cons.
  destruct (String.eqb opt "-d").
  { rewrite bind_run, set_debug_stream_run by done. cbn.
    edestruct (IH (cm, ts, par, jobs, wd)) as (l & s' & ->); [done..|]. by do 2 eexists. }
  destruct (String.eqb opt "-s").
  { cbn in Hcf. unfold float. destruct (py_float arg) as [x|]; [|done]. mred.
    edestruct (IH (cm, x, par, jobs, wd)) as (l & s' & ->); [done..|]. by do 2 eexists. }
  destruct (String.eqb opt "-c").
  { mred. edestruct (IH (Some arg, ts, par, jobs, wd)) as (l & s' & ->); [done..|].
    by do 2 eexists. }
  destruct (String.eqb opt "-j").
  { cbn in Hci. unfold int. destruct (py_int arg) as [z|]; [|done]. mred.
    edestruct (IH (cm, ts, true, z, wd)) as (l & s' & ->); [done..|]. by do 2 eexists. }
  destruct (String.eqb opt "-w").
  { mred. edestruct (IH (cm, ts, par, jobs, Some arg)) as (l & s' & ->); [done..|].
    by do 2 eexists. }
  mred. edestruct (IH (cm, ts, par, jobs, wd)) as (l & s' & ->); [done..|]. by do 2 eexists.
Qed.

Lemma asearch_gen_opts_run opts : forall cur s,
  debug_stream_opens ->
  exists locals s', foldM asearch_gen_opt cur opts s = (debug_events opts, s', inr locals).
Proof.
  induction opts as [|[opt arg] opts IH]; intros [[[ef out] cf] sel] s Hd;
    [by do 2 eexists|].
  cbn [foldM asearch_gen_opt]. rewrite bind_run. rewrite debug_events_cons.
  destruct (String.eqb_spec opt "-e") as [->|_].
  { mred. edestruct (IH (Some arg, out, cf, sel)) as (l & s' & ->); [done|]. by do 2 eexists. }
  destruct (String.eqb_spec opt "-s") as [->|_].
  { mred.
    edestruct (IH (ef, out, cf, arg)) as (l & s' & ->); [done|]. by do 2 eexists. }
  destruct (String.eqb opt "-d").
  { rewrite bind_run, set_debug_stream_run by done. cbn.
    edestruct (IH (ef, out, cf, sel)) as (l & s' & ->); [done|]. by do 2 eexists. }
  destruct (String.eqb opt "-w").
  { mred. edestruct (IH (ef, Some arg, cf, sel)) as (l & s' & ->); [done|]. by do 2 eexists. }
  destruct (String.eqb opt "-c").
  { mred. edestruct (IH (ef, out, Some arg, sel)) as (l & s' & ->); [done|]. by do 2 eexists. }
  mred. edestruct (IH (ef, out, cf, sel)) as (l & s' & ->); [done|]. by do 2 eexists.
Qed.

(** An option that no branch of the loop handles leaves the locals as they
    are. *)
Lemma sample_gen_opts_skip_r l1 x l2 s :
  sample_gen_opts (l1 ++ ("-r", x) :: l2) s = sample_gen_opts (l1 ++ l2) s.
Proof.
  unfold sample_gen_opts. rewrite !foldM_app. apply bind_ext.
  intros [[n o] w] s'. cbn [foldM]. cbn -[mbind mret foldM]. by rewrite ret_bind.
Qed.

(** The option loop of [sample_gen] makes no call. *)
Lemma sample_gen_opts_pure opts : forall cur s,
  exists r, foldM sample_gen_opt cur opts s = ([], s, r).
Proof.
  induction opts as [|[opt arg] opts IH]; intros [[n o] w] s; [by eexists|].
  cbn [foldM sample_gen_opt].
  destruct (String.eqb opt "-n").
  { unfold int. destruct (py_int arg) as [z|].
    - rewrite bind_assoc, !ret_bind. apply IH.
    - eexists. reflexivity. }
  destruct (String.eqb opt "-o"); [rewrite ret_bind; apply IH|].
  destruct (String.eqb opt "-w"); rewrite ret_bind; apply IH.
Qed.

(** Without [-s] among the options, [eval_selector] keeps its value. *)
Lemma asearch_gen_opts_no_s opts :
  Forall (fun oa => String.eqb oa.1 "-s" = false) opts ->
  forall eval_file fname_ttrees_out cfg_file init s t s' ef out cf sel,
    foldM asearch_gen_opt (eval_file, fname_ttrees_out, cfg_file, init) opts s
    = (t, s', inr (ef, out, cf, sel)) -> sel = init.
Proof.
  induction 1 as [|[opt arg] opts Hs _ IH];
    intros eval_file out0 cfg_file init s t s' ef out cf sel H.
  - cbn in H. by inversion H.
  - cbn [foldM asearch_gen_opt] in H. rewrite bind_run in H. simpl in Hs.
    destruct (String.eqb opt "-e").
    { cbn in H. destruct (foldM _ _ opts s) as [[t2 s2] r2] eqn:E. inversion H; subst.
      by eapply IH. }
    rewrite Hs in H.
    destruct (String.eqb opt "-d").
    { unfold set_debug_stream, call_, call in H. rewrite bind_run in H.
      destruct (fails _ _); [done|]. cbn in H.
      destruct (foldM _ _ opts _) as [[t2 s2] r2] eqn:E. inversion H; subst.
      by eapply IH. }
    destruct (String.eqb opt "-w").
    { cbn in H. destruct (foldM _ _ opts s) as [[t2 s2] r2] eqn:E. inversion H; subst.
      by eapply IH. }
    destruct (String.eqb opt "-c").
    { cbn in H. destruct (foldM _ _ opts s) as [[t2 s2] r2] eqn:E. inversion H; subst.
      by eapply IH. }
    cbn in H. destruct (foldM _ _ opts s) as [[t2 s2] r2] eqn:E. inversion H; subst.
    by eapply IH.
Qed.

End OptionLoops.

(** ** Oracle evaluation in [sample_gen] *)

Section Oracle.
Context {D : Data} {W : World D}.

Lemma foldM_lift {A B} (f : A -> B -> exn + A) l : forall a s,
  foldM (fun a x => lift (f a x)) a l s = ([], s, fold_sum f a l).
Proof.
  induction l as [|x l IH]; intros a s; [done|].
  cbn [foldM fold_sum]. rewrite lift_bind. destruct (f a x) as [e|a']; [done|]. apply IH.
Qed.

Lemma max_from_choice {A} (key : A -> PyFloat) (Ho : float_order) l : forall pre b j,
  pre !! j = Some b ->
  (forall x, x ∈ pre -> float_gt (key x) (key b) = false) ->
  (forall j' y, (j' < j)%nat -> pre !! j' = Some y -> float_gt (key b) (key y) = true) ->
  max_choice key (pre ++ l) (max_from key b l).
Proof.
  induction l as [|x l IH]; intros pre b j Hj Hmax Hfirst.
  - cbn. rewrite app_nil_r. by exists j.
  - cbn [max_from]. replace (pre ++ x :: l) with ((pre ++ [x]) ++ l) by (by rewrite <- app_assoc).
    destruct (float_gt (key x) (key b)) eqn:E.
    + apply (IH (pre ++ [x]) x (List.length pre)).
      * by rewrite lookup_app_r, Nat.sub_diag by lia.
      * intros y [Hy|Hy]%elem_of_app.
        -- destruct (float_gt (key y) (key x)) eqn:Ey; [|done].
           rewrite <- (Hmax y Hy). symmetry. eapply gt_trans; eauto.
        -- apply list_elem_of_singleton in Hy as ->. by apply gt_irrefl.
      * intros j' y Hlt Hy. rewrite lookup_app_l in Hy by done.
        destruct (gt_cotrans Ho _ (key y) _ E) as [|Hyb]; [done|].
        rewrite Hmax in Hyb; [done|]. by eapply list_elem_of_lookup_2.
    + apply (IH (pre ++ [x]) b j).
      * rewrite lookup_app_l; [done|]. by eapply lookup_lt_Some.
      * intros y [Hy|Hy]%elem_of_app; [by apply Hmax|].
        by apply list_elem_of_singleton in Hy as ->.
      * intros j' y Hlt Hy. apply (Hfirst j' y Hlt).
        rewrite lookup_app_l in Hy; [done|]. apply lookup_lt_Some in Hj. lia.
Qed.

Lemma py_max_choice {A} (key : A -> PyFloat) (l : list A) :
  float_order -> l <> [] ->
  exists m, py_max key l = inr m /\ max_choice key l m.
Proof.
  intros Ho Hl. destruct l as [|x l]; [done|]. exists (max_from key x l). split; [done|].
  apply (max_from_choice key Ho l [x] x 0%nat); [done| |].
  - intros y Hy. apply list_elem_of_singleton in Hy as ->. by apply gt_irrefl.
  - intros j' y Hlt. lia.
Qed.

Lemma chunks_lookup {A} (n : nat) : forall fuel (l : list A) i,
  (0 < n)%nat -> (List.length l <= fuel)%nat ->
  chunks fuel n l !! i
  = if decide (i * n < List.length l)%nat then Some (take n (drop (i * n) l)) else None.
Proof.
  induction fuel as [|fuel IH]; intros l i Hn Hl.
  - destruct l; [|simpl in Hl; lia]. cbn. case_decide; [simpl in *; lia|done].
  - destruct l as [|x l]; [cbn; case_decide; [simpl in *; lia|done]|].
    cbn [chunks]. destruct i as [|i].
    + cbn [lookup list_lookup]. case_decide; [done|simpl in *; lia].
    + cbn [lookup list_lookup].
      change (chunks fuel n (drop n (x :: l)) !! i = 
              if decide (S i * n < List.length (x :: l))%nat
              then Some (take n (drop (S i * n) (x :: l))) else None).
      rewrite IH; [|done|rewrite length_drop; simpl in *; lia].
      rewrite length_drop, drop_drop.
      replace (n + i * n)%nat with (S i * n)%nat by lia.
      repeat case_decide; try done; lia.
Qed.

Lemma map_lookup {A B} (f : A -> B) (l : list A) i : map f l !! i = f <$> (l !! i).
Proof. revert i. induction l as [|x l IH]; intros [|i]; cbn; auto. Qed.

Lemma elem_of_map {A B} (f : A -> B) (l : list A) x : x ∈ l -> f x ∈ map f l.
Proof. induction 1; cbn; [left|by right]. Qed.

Lemma oracle_choice_of_max gold_tree samples best :
  max_choice score_key (scored_counts gold_tree samples) best ->
  oracle_choice gold_tree samples best.
Proof.
  unfold scored_counts. intros (j & Hj & Hmax & Hfirst).
  rewrite map_lookup in Hj. destruct (samples !! j) as [sample|] eqn:E; [|done].
  inversion Hj; subst. exists j, sample. repeat split; [done| |].
  - intros sample' Hin. apply Hmax. by apply elem_of_map.
  - intros j' sample' Hlt Hs. apply (Hfirst j'); [done|]. by rewrite map_lookup, Hs.
Qed.

Lemma oracle_fold_run (Ho : float_order) pairs : forall correct predicted gold,
  Forall (fun pair : TTree * list TTree => pair.2 <> []) pairs ->
  exists bests,
    fold_sum oracle_step (correct, predicted, gold) pairs
    = inr (correct + total count_c bests, predicted + total count_p bests,
           gold + total count_g bests)
    /\ Forall2 (fun pair best => oracle_choice pair.1 pair.2 best) pairs bests.
Proof.
  induction pairs as [|[gold_tree gen_trees] pairs IH]; intros c p g Hne.
  - exists []. cbn. split; [|constructor]. by rewrite !Z.add_0_r.
  - inversion Hne as [|? ? Hne1 Hne2]; subst. cbn [fold_sum oracle_step].
    destruct (py_max_choice score_key (scored_counts gold_tree gen_trees) Ho)
      as (best & -> & Hbest).
    { unfold scored_counts. cbn in Hne1. by destruct gen_trees. }
    destruct best as [[[f tc] tp] tg].
    destruct (IH (c + tc) (p + tp) (g + tg) Hne2) as (bests & -> & Hall).
    exists ((f, tc, tp, tg) :: bests). split.
    + cbn. by rewrite !Z.add_assoc.
    + constructor; [|done]. by apply oracle_choice_of_max.
Qed.

Lemma chunk_list_pos {A} (l : list A) (n : Z) :
  0 < n -> c_long n = true -> chunk_list l n = inr (chunks (List.length l) (Z.to_nat n) l).
Proof.
  intros Hn Hc. unfold chunk_list. rewrite Hc. cbn [negb].
  destruct (Z.eqb_spec n 0); [lia|]. destruct (Z.ltb_spec n 0); [lia|]. done.
Qed.

Lemma zip_gen_inr {A B} (l : list A) (l' : list B) : zip_gen l (inr l') = inr (zip l l').
Proof. by destruct l. Qed.

Lemma chunks_nonempty {A} (n : nat) : forall fuel (l : list A),
  (0 < n)%nat -> Forall (fun c => c <> []) (chunks fuel n l).
Proof.
  induction fuel as [|fuel IH]; intros l Hn; [constructor|].
  destruct l as [|x l]; [constructor|]. cbn [chunks]. constructor; [|by apply IH].
  destruct n; [lia|]. done.
Qed.

Lemma zip_snd_nonempty {A B} (l : list A) (cs : list (list B)) :
  Forall (fun c => c <> []) cs ->
  Forall (fun pair : A * list B => pair.2 <> []) (zip l cs).
Proof.
  intros H. revert l. induction H as [|c cs Hc _ IH]; intros [|x l]; cbn; constructor; auto.
Qed.

(** The oracle block on [num_to_generate] > 0 samples per gold tree. *)
Lemma sample_gen_oracle_run language selector gen_doc num_to_generate f s :
  reliable -> float_order -> 0 < num_to_generate -> c_long num_to_generate = true ->
  is_ascii f = true -> gen_doc <> st_next s ->
  let e1 := EvLogInfo "Evaluating oracle F1..." in
  let e2 := EvLogInfo ("Loading gold data from " +:+ f) in
  let gold_trees :=
    ttrees_from_doc (read_ttrees f (effect e2 (effect e1 (st_proc s)))) language selector in
  let gen_trees := ttrees_from_doc (doc_of s gen_doc) language selector in
  let n := Z.to_nat num_to_generate in
  exists bests s',
    sample_gen_oracle language selector gen_doc num_to_generate f s
    = ([e1; e2; EvReadTTrees f; EvLogInfo "Gold data loaded.";
        EvLogInfo (fmt3 "Oracle Precision: " "%.6f" ", Recall: " "%.6f" ", F1: " "%.6f"
                        (p_r_f1_from_counts (total count_c bests) (total count_p bests)
                                            (total count_g bests)))],
       s', inr tt)
    /\ (forall i, is_Some (bests !! i)
                  <-> is_Some (gold_trees !! i) /\ (i * n < List.length gen_trees)%nat)
    /\ (forall i gold_tree best,
          gold_trees !! i = Some gold_tree -> bests !! i = Some best ->
          oracle_choice gold_tree (take n (drop (i * n) gen_trees)) best).
Proof.
  intros Hr Ho Hn Hcl Hascii Hdoc e1 e2 gold_trees gen_trees n.
  unfold sample_gen_oracle, read_ttrees_, new_doc, log_info, py_unicode.
  rewrite Hascii, emit_bind, lift_bind. cbn beta iota.
  repeat (first
    [ rewrite bind_assoc | rewrite emit_bind | rewrite (call_bind _ _ _ _ Hr)
    | rewrite new_obj_bind | rewrite get_doc_bind | rewrite set_doc_bind
    | rewrite ret_bind ]; cbn beta iota; cbn [st_proc st_docs st_next with_proc]).
  rewrite doc_of_insert, doc_of_insert_ne by done.
  fold e1 e2 gold_trees. change (default Document_new (st_docs s !! gen_doc)) with (doc_of s gen_doc).
  fold gen_trees.
  rewrite chunk_list_pos, zip_gen_inr, lift_bind by done. fold n.
  set (cs := chunks (List.length gen_trees) n gen_trees).
  assert (Hn' : (0 < n)%nat) by lia.
  destruct (oracle_fold_run Ho (zip gold_trees cs) 0 0 0) as (bests & Hfold & Hall).
  { apply zip_snd_nonempty, chunks_nonempty; lia. }
  erewrite bind_known by (rewrite foldM_lift, Hfold; reflexivity).
  rewrite !Z.add_0_l. unfold emit. cbn.
  exists bests. eexists. split; [reflexivity|].
  assert (Hcs : forall i, cs !! i = if decide (i * n < List.length gen_trees)%nat
                                   then Some (take n (drop (i * n) gen_trees)) else None).
  { intros i. by apply chunks_lookup. }
  assert (Hpairs : forall i gold_tree c,
             zip gold_trees cs !! i = Some (gold_tree, c)
             <-> gold_trees !! i = Some gold_tree
                 /\ (i * n < List.length gen_trees)%nat
                 /\ c = take n (drop (i * n) gen_trees)).
  { intros i gold_tree c. split.
    - intros (x & y & Hxy & Hx & Hy)%lookup_zip_with_Some. inversion Hxy; subst.
      rewrite Hcs in Hy. case_decide; [|done]. inversion Hy. done.
    - intros (Hx & Hlt & ->). apply lookup_zip_with_Some.
      exists gold_tree, (take n (drop (i * n) gen_trees)).
      split; [done|]. split; [done|]. by rewrite Hcs, decide_True. }
  split.
  - intros i. split.
    + intros [best Hb]. destruct (Forall2_lookup_r _ _ _ _ _ Hall Hb) as ([g c] & Hp & _).
      apply Hpairs in Hp as (Hg & Hlt & _). eauto.
    + intros [[g Hg] Hlt].
      destruct (Forall2_lookup_l _ _ _ i (g, take n (drop (i * n) gen_trees)) Hall)
        as (best & Hb & _); [|eauto].
      by apply Hpairs.
  - intros i gold_tree best Hg Hb.
    destruct (Forall2_lookup_r _ _ _ _ _ Hall Hb) as ([g c] & Hp & Hchoice).
    apply Hpairs in Hp as (Hg' & Hlt & ->). rewrite Hg in Hg'. inversion Hg'; subst.
    exact Hchoice.
Qed.

End Oracle.

(** ** The generation loop of [sample_gen] *)

Section Sampling.
Context {D : Data} {W : World D}.

Lemma sampling_generate_tree_run tgen da gen_doc s :
  reliable ->
  sampling_generate_tree tgen da gen_doc s
  = ([EvGenerateTree tgen da gen_doc false],
     {| st_proc := effect (EvGenerateTree tgen da gen_doc false) (st_proc s);
        st_docs := <[gen_doc := sampling_generate tgen da (doc_of s gen_doc) (st_proc s)]>
                     (st_docs s);
        st_next := st_next s |},
     inr tt).
Proof.
  intros H. unfold sampling_generate_tree, get_doc, set_doc.
  rewrite bind_run. cbn. rewrite bind_run, call_run by done. reflexivity.
Qed.

Lemma sample_gen_inner tgen da gen_doc language selector n : forall k s,
  reliable ->
  exists s' group,
    for_ (seq k n) (fun _ => sampling_generate_tree tgen da gen_doc) s
    = (replicate n (EvGenerateTree tgen da gen_doc false), s', inr tt)
    /\ List.length group = n
    /\ Forall (fun t => exists p, t = sample_tree tgen da p) group
    /\ (planner_appends language selector ->
        ttrees_from_doc (doc_of s' gen_doc) language selector
        = ttrees_from_doc (doc_of s gen_doc) language selector ++ group)
    /\ st_proc s' = run_effects (replicate n (EvGenerateTree tgen da gen_doc false)) (st_proc s)
    /\ st_next s' = st_next s.
Proof.
  induction n as [|n IH]; intros k s Hr.
  - exists s, []. repeat split; [constructor|]. intros _. by rewrite app_nil_r.
  - unfold for_ in *. cbn [seq foldM]. rewrite bind_run, sampling_generate_tree_run by done.
    match goal with |- context [foldM _ _ _ ?s1] =>
      destruct (IH (S k) s1 Hr) as (s' & group & -> & Hlen & Hall & Happ & Hproc & Hnext) end.
    exists s', (sample_tree tgen da (st_proc s) :: group).
    split; [done|]. split; [simpl; lia|]. split; [constructor; eauto|].
    split; [|split; [exact Hproc|exact Hnext]].
    intros Hp. rewrite (Happ Hp), doc_of_insert, Hp. by rewrite <- app_assoc.
Qed.

(** The generation loop, for a number of samples that fits a C long. *)
Lemma sample_gen_generate_groups tgen gen_doc das num_to_generate language selector s :
  reliable -> c_long num_to_generate = true ->
  let t := List.concat (map (fun da => replicate (Z.to_nat num_to_generate)
                                         (EvGenerateTree tgen da gen_doc false)) das) in
  exists s' (groups : list (list TTree)),
    sample_gen_generate tgen gen_doc das num_to_generate s = (t, s', inr tt)
    /\ Forall2 (fun da group =>
                  List.length group = Z.to_nat num_to_generate
                  /\ Forall (fun t => exists p, t = sample_tree tgen da p) group)
               das groups
    /\ (planner_appends language selector ->
        ttrees_from_doc (doc_of s' gen_doc) language selector
        = ttrees_from_doc (doc_of s gen_doc) language selector ++ List.concat groups)
    /\ st_proc s' = run_effects t (st_proc s)
    /\ st_next s' = st_next s.
Proof.
  intros Hr Hc. cbn zeta. unfold sample_gen_generate, xrange. rewrite Hc. revert s.
  induction das as [|da das IH]; intros s.
  - exists s, []. repeat split; [constructor|]. intros _. by rewrite app_nil_r.
  - unfold for_ in *. cbn [foldM]. rewrite bind_assoc, lift_bind, bind_run.
    destruct (sample_gen_inner tgen da gen_doc language selector
                (Z.to_nat num_to_generate) 0%nat s Hr)
      as (s1 & group & Hrun & Hlen & Hall & Happ & Hproc & Hnext).
    unfold for_ in Hrun. rewrite Hrun.
    destruct (IH s1) as (s' & groups & -> & Hgroups & Happs & Hproc' & Hnext').
    exists s', (group :: groups). split; [done|]. split; [by constructor|].
    split; [|split].
    + intros Hp. rewrite (Happs Hp), (Happ Hp). cbn [List.concat]. by rewrite app_assoc.
    + cbn [map List.concat]. unfold run_effects in *. by rewrite foldl_app, <- Hproc.
    + by rewrite Hnext'.
Qed.

(** An argument of [xrange] that does not fit a C long raises at the first
    dialogue act, before anything is generated. *)
Lemma sample_gen_generate_overflow tgen gen_doc da das num_to_generate s :
  c_long num_to_generate = false ->
  sample_gen_generate tgen gen_doc (da :: das) num_to_generate s
  = ([], s, inl (OverflowError "Python int too large to convert to C long")).
Proof.
  intros Hc. unfold sample_gen_generate, for_, xrange. cbn [foldM]. rewrite Hc.
  rewrite bind_assoc, lift_bind. reflexivity.
Qed.

End Sampling.

(** ** What [sample_gen] builds *)

Section SampleSetup.
Context {D : Data} {W : World D}.

Lemma call_bind_cases {A B} e (r : proc -> A) (k : A -> M B) s :
  (call e r ≫= k) s
  = match fails e (st_proc s) with
    | Some x => ([e], s, inl x)
    | None => prepend [e] (k (r (st_proc s)) (with_proc s (effect e (st_proc s))))
    end.
Proof.
  rewrite bind_run. unfold call. destruct (fails e (st_proc s)); [done|].
  by destruct (k _ _) as [[t2 s2] r2].
Qed.

Lemma sample_gen_rest_no_model tgen cfg num_to_generate oracle_eval_file fname_ttrees_out
      fname_da_test :
  trace_all (fun e => is_model_event e = false)
    (log_info "Generating...";;
     gen_doc ← Document_;
     das ← call (EvReadDas fname_da_test) (read_das fname_da_test);
     sample_gen_generate tgen gen_doc das num_to_generate;;
     match oracle_eval_file with
     | Some f => sample_gen_oracle (planner_language cfg) (planner_selector cfg)
                                   gen_doc num_to_generate f
     | None => mret tt
     end;;
     match fname_ttrees_out with
     | Some f => log_info "Writing output...";; write_yaml f gen_doc
     | None => mret tt
     end).
Proof.
  unfold log_info, Document_, new_doc, sample_gen_generate, for_, sampling_generate_tree,
    sample_gen_oracle, read_ttrees_, new_doc, write_yaml, call_, log_info.
  trace_all_tac.
Qed.

Lemma filter_no_model (t : list event) :
  Forall (fun e => is_model_event e = false) t -> List.filter is_model_event t = [].
Proof. induction 1 as [|e t He _ IH]; cbn; [done|]. by rewrite He. Qed.

Lemma sample_gen_setup_prefix args opts files s :
  Getopt.getopt args "r:n:o:w:" = inr (opts, files) ->
  List.filter is_model_event (sample_gen args s).1.1
    `prefix_of` sampling_setup (st_next s) (nth 0 files "")
  /\ (reliable -> values_convert ["-n"] [] opts = true -> List.length files = 2%nat ->
      List.filter is_model_event (sample_gen args s).1.1
      = sampling_setup (st_next s) (nth 0 files "")).
Proof.
  intros Hg. unfold sample_gen, getopt. rewrite lift_bind, Hg.
  unfold sample_gen_opts.
  destruct (sample_gen_opts_pure opts (1, None, None) s) as [[e|[[n o] w]] Hopts].
  { erewrite bind_failed by exact Hopts. cbn. split; [apply prefix_nil|].
    intros _ Hc _. destruct (sample_gen_opts_run opts (1, None, None) s Hc) as [l Hl].
    rewrite Hl in Hopts. done. }
  erewrite bind_known by exact Hopts. rewrite prepend_nil.
  destruct files as [|f1 [|f2 [|f3 files]]]; cbn [List.length Nat.eqb negb];
    try (cbn; split; [apply prefix_nil|intros _ _ Hlen; done]).
  unfold unpack2. rewrite ret_bind. cbn [nth].
  unfold log_info, RandomCandidateGenerator, SamplingPlanner, call_.
  rewrite emit_bind, !bind_assoc, new_obj_bind, !bind_assoc.
  cbn [st_proc st_docs st_next with_proc].
  rewrite call_bind_cases.
  destruct (fails (EvNewCandgen _ _) _) eqn:E1.
  { cbn. split; [by eexists|]. intros Hr. by rewrite Hr in E1. }
  rewrite ret_bind, call_bind_cases. cbn [st_proc st_docs st_next with_proc].
  destruct (fails (EvCandgenLoad _ _) _) eqn:E2.
  { cbn. split; [by eexists|]. intros Hr. by rewrite Hr in E2. }
  cbn zeta. rewrite !bind_assoc, new_obj_bind, !bind_assoc, call_bind_cases.
  cbn [st_proc st_docs st_next with_proc].
  destruct (fails (EvNewSamplingPlanner _ _) _) eqn:E3.
  { cbn. split; [by eexists|]. intros Hr. by rewrite Hr in E3. }
  rewrite ret_bind.
  match goal with |- context [prepend _ (prepend _ (prepend _ (prepend _ (?m ?s1))))] =>
    assert (Hrest : Forall (fun e => is_model_event e = false) (m s1).1.1)
      by apply (sample_gen_rest_no_model (S (st_next s))
                  (<["ranker" := VObj (st_next s)]> (<["candgen" := VObj (st_next s)]> ∅))
                  n o w f2 s1);
    destruct (m s1) as [[t2 s2] r2]
  end.
  cbn in Hrest. cbn.
  rewrite (filter_no_model _ Hrest). split; [done|]. done.
Qed.

(** C3: [sample_gen] never builds, loads, trains or saves a perceptron
    ranker; the only models it touches are one candidate generator, loaded
    from the first file argument, and a sampling planner that gets this one
    object both as its candidate generator and as its ranker. *)
Theorem sample_gen_uses_candgen_only args s :
  let t := (sample_gen args s).1.1 in
  Forall (fun e => is_ranker_event e = false) t
  /\ (forall opts files,
        Getopt.getopt args "r:n:o:w:" = inr (opts, files) ->
        List.filter is_model_event t `prefix_of` sampling_setup (st_next s) (nth 0 files "")
        /\ (reliable -> values_convert ["-n"] [] opts = true -> List.length files = 2%nat ->
            List.filter is_model_event t = sampling_setup (st_next s) (nth 0 files ""))).
Proof.
  intros t. split; [|intros opts files Hg; by apply sample_gen_setup_prefix].
  subst t. destruct (Getopt.getopt args "r:n:o:w:") as [e|[opts files]] eqn:Hg.
  - unfold sample_gen, getopt. rewrite lift_bind, Hg. constructor.
  - destruct (sample_gen_setup_prefix args opts files s Hg) as [Hp _].
    apply Forall_forall. intros e He.
    destruct (is_ranker_event e) eqn:Er; [|done]. exfalso.
    assert (Hm : is_model_event e = true) by (by destruct e).
    assert (Hin : e ∈ List.filter is_model_event (sample_gen args s).1.1).
    { apply list_elem_of_In, filter_In. split; [by apply list_elem_of_In|done]. }
    destruct Hp as [k Hk]. 
    assert (Hin' : e ∈ sampling_setup (st_next s) (nth 0 files "")).
    { rewrite Hk. apply elem_of_app. by left. }
    unfold sampling_setup in Hin'.
    repeat (apply elem_of_cons in Hin' as [->|Hin']; [done|]).
    by apply elem_of_nil in Hin'.
Qed.

End SampleSetup.

(** ** The entry point *)

Section Main.
Context {D : Data} {W : World D}.

(** C8: the action name that runs sampling generation is [random_gen]; the
    name [sample_gen], which the usage text documents, falls through to the
    last branch of the dispatch and exits with the unknown-action message,
    after the seeding and the version line and nothing else. *)
Theorem dispatch_random_gen_not_sample_gen prog a rest s :
  main (prog :: "random_gen" :: a :: rest) s
  = (random_seed 1206;;
     log_info ("Running on " +:+ python_implementation +:+ " version " +:+ python_version);;
     sample_gen (a :: rest);;
     log_info "Done.") s
  /\ main (prog :: "sample_gen" :: a :: rest) s
     = (let e_log := EvLogInfo ("Running on " +:+ python_implementation +:+ " version "
                                 +:+ python_version) in
        ([EvRandomSeed 1206; e_log],
         with_proc s (effect e_log {| rng := rng_of_seed 1206; store := store (st_proc s) |}),
         inl (SystemExit (nl +:+ "ERROR: Unknown Tgen action: sample_gen" +:+ nl +:+ nl +:+ "---"
                             +:+ __doc__))))
  /\ contains "sample_gen -- generate using the given candidate generator" __doc__ = true
  /\ contains "random_gen" __doc__ = false.
Proof.
  repeat split; reflexivity.
Qed.

End Main.

(** ** Wrong number of file arguments *)

Section FileCount.
Context {D : Data} {W : World D}.

(** C5, amended: when [getopt] accepts the options, the values of the
    numeric options convert and the debug stream of [-d] opens, an action
    given a wrong number of file arguments exits through [sys.exit] with the
    usage text (after the line "Invalid arguments." for [asearch_gen]),
    having made no call but those that open the debug stream. *)
Theorem wrong_file_count_exits :
  (forall args opts files s,
      Getopt.getopt args "p:" = inr (opts, files) ->
      List.length files <> 3%nat ->
      values_convert ["-p"] [] opts = true ->
      candgen_train args s = ([], s, inl (SystemExit __doc__)))
  /\ (forall args opts files s,
         Getopt.getopt args "c:d:s:j:w:" = inr (opts, files) ->
         List.length files <> 4%nat ->
         values_convert ["-j"] ["-s"] opts = true ->
         debug_stream_opens ->
         exists s', percrank_train args s = (debug_events opts, s', inl (SystemExit __doc__)))
  /\ (forall args opts files s,
         Getopt.getopt args "r:n:o:w:" = inr (opts, files) ->
         List.length files <> 2%nat ->
         values_convert ["-n"] [] opts = true ->
         sample_gen args s = ([], s, inl (SystemExit __doc__)))
  /\ (forall args opts files s,
         Getopt.getopt args "e:d:w:c:" = inr (opts, files) ->
         List.length files <> 3%nat ->
         debug_stream_opens ->
         exists s', asearch_gen args s
                    = (debug_events opts, s',
                       inl (SystemExit ("Invalid arguments." +:+ nl +:+ __doc__)))).
Proof.
  repeat split.
  - intros args opts files s Hg Hn Hc. unfold candgen_train, getopt.
    rewrite lift_bind, Hg, bind_run. unfold candgen_train_opts.
    edestruct candgen_train_opts_run as (v & -> & _); [done|].
    apply Nat.eqb_neq in Hn. by rewrite Hn.
  - intros args opts files s Hg Hn Hc Hd. unfold percrank_train, getopt.
    rewrite lift_bind, Hg, bind_run. unfold percrank_train_opts.
    edestruct percrank_train_opts_run as ([[[[cm ts] par] jobs] wd] & s' & ->); [done..|].
    apply Nat.eqb_neq in Hn. rewrite Hn. mred. rewrite app_nil_r. by eexists.
  - intros args opts files s Hg Hn Hc. unfold sample_gen, getopt.
    rewrite lift_bind, Hg, bind_run. unfold sample_gen_opts.
    edestruct sample_gen_opts_run as ([[n o] w] & ->); [done|].
    apply Nat.eqb_neq in Hn. by rewrite Hn.
  - intros args opts files s Hg Hn Hd. unfold asearch_gen, getopt.
    rewrite lift_bind, Hg, bind_run. unfold asearch_gen_opts.
    edestruct asearch_gen_opts_run as ([[[ef out] cf] sel] & s' & ->); [done|].
    apply Nat.eqb_neq in Hn. rewrite Hn. mred. rewrite app_nil_r. by eexists.
Qed.

End FileCount.

(** ** [candgen_train] *)

Section CandgenTrain.
Context {D : Data} {W : World D}.

(** C6: with three file arguments, [candgen_train] builds the generator with
    [prune_threshold] set to the integer of the last [-p] (1 without [-p]),
    then trains on the first two files, then saves to the third: its calls
    are a prefix of that sequence, the whole sequence when training
    succeeds, and nothing else. *)
Theorem candgen_train_trains_then_saves args opts f1 f2 f3 s :
  Getopt.getopt args "p:" = inr (opts, [f1; f2; f3]) ->
  values_convert ["-p"] [] opts = true ->
  exists prune_threshold,
    match last_value "-p" opts None with
    | Some arg => py_int arg = Some prune_threshold
    | None => prune_threshold = 1
    end
    /\ let candgen := st_next s in
       let e_log := EvLogInfo "Training candidate generator..." in
       let e_new := EvNewCandgen candgen {["prune_threshold" := VInt prune_threshold]} in
       let e_train := EvCandgenTrain candgen f1 f2 in
       let e_save := EvCandgenSave candgen f3 in
       let full := [e_log; e_new; e_train; e_save] in
       let p1 := effect e_log (st_proc s) in
       let p2 := effect e_new p1 in
       let t := (candgen_train args s).1.1 in
       let r := (candgen_train args s).2 in
       t `prefix_of` full
       /\ (r = inr tt -> t = full)
       /\ (fails e_new p1 = None -> fails e_train p2 = None -> t = full)
       /\ (reliable -> t = full /\ r = inr tt).
Proof.
  intros Hg Hc. unfold candgen_train, getopt. rewrite lift_bind, Hg, bind_run.
  unfold candgen_train_opts.
  destruct (candgen_train_opts_run opts 1 s Hc) as (v & -> & Hv).
  exists v. split; [exact Hv|].
  unfold RandomCandidateGenerator, new_obj, log_info, emit, call_, call, unpack3.
  mred.
  destruct (fails (EvNewCandgen _ _) _) eqn:E1; cbn.
  { split; [by exists [EvCandgenTrain (st_next s) f1 f2; EvCandgenSave (st_next s) f3]|].
    split; [done|]. split; [done|]. intros Hr. by rewrite Hr in E1. }
  destruct (fails (EvCandgenTrain _ _ _) _) eqn:E2; cbn.
  { split; [by exists [EvCandgenSave (st_next s) f3]|].
    split; [done|]. split; [done|]. intros Hr. by rewrite Hr in E2. }
  destruct (fails (EvCandgenSave _ _) _) eqn:E3; cbn.
  { split; [done|]. split; [done|]. split; [done|]. intros Hr. by rewrite Hr in E3. }
  repeat split; done.
Qed.

End CandgenTrain.

(** ** The list analysis of [asearch_gen] *)

Section Asearch.
Context {D : Data} {W : World D}.

Lemma asearch_generate_tree_run tgen da gen_doc return_lists s :
  reliable ->
  let e := EvGenerateTree tgen da gen_doc return_lists in
  let r := asearch_generate tgen da (doc_of s gen_doc) return_lists (st_proc s) in
  asearch_generate_tree tgen da gen_doc return_lists s
  = ([e], {| st_proc := effect e (st_proc s); st_docs := <[gen_doc := r.1]> (st_docs s);
             st_next := st_next s |}, inr r.2).
Proof.
  intros Hr e r. unfold asearch_generate_tree.
  rewrite get_doc_bind, call_bind, set_doc_bind by done. reflexivity.
Qed.

Lemma asearch_gen_fscores_ok language selector eval_selector eval_doc gen_doc :
  reliable ->
  runs_ok (fun e => is_generate e = false)
          (asearch_gen_fscores language selector eval_selector eval_doc gen_doc).
Proof.
  intros Hr. unfold asearch_gen_fscores, add_bundle_text_, log_info, call_.
  runs_ok_tac Hr.
Qed.

Lemma asearch_gen_analyze_run tgen gen_doc (Hr : reliable) pairs : forall k lists_analyzer s,
  exists news s',
    foldM (asearch_gen_analyze_step tgen gen_doc) lists_analyzer
          (imap (fun i x => ((k + i)%nat, x)) pairs) s
    = (analysis_events tgen gen_doc k pairs, s', inr (lists_analyzer ++ news))
    /\ st_next s' = st_next s
    /\ (forall o, o <> gen_doc -> doc_of s' o = doc_of s o)
    /\ List.length news = List.length pairs
    /\ (forall i da gold_tree, pairs !! i = Some (da, gold_tree) ->
          exists d p, news !! i = Some (gold_tree,
                                        (asearch_generate tgen da d true p).2.1,
                                        (asearch_generate tgen da d true p).2.2)).
Proof.
  induction pairs as [|[da gold_tree] pairs IH]; intros k acc s.
  - exists [], s. cbn. rewrite app_nil_r. repeat split; done.
  - cbn [imap foldM asearch_gen_analyze_step]. unfold log_debug.
    rewrite bind_assoc, emit_bind.
    rewrite !bind_assoc.
    erewrite bind_known by (by apply asearch_generate_tree_run).
    cbn [st_proc with_proc st_docs st_next].
    match goal with |- context [asearch_generate ?a ?b ?c ?d ?e] =>
      set (r := asearch_generate a b c d e) end.
    destruct r as [d' [open_list close_list]] eqn:Er. cbn [fst snd].
    rewrite ret_bind. unfold lists_analyzer_append.
    match goal with |- context [foldM _ ?a _ ?s1] =>
      destruct (IH (S k) a s1) as (news & s' & Hrun & Hnext & Hdocs & Hlen & Hnews) end.
    rewrite (imap_ext _ (fun i x => ((S k + i)%nat, x))) by (intros; cbn; f_equal; lia).
    rewrite Hrun. cbn [prepend fst snd app].
    exists ((gold_tree, open_list, close_list) :: news), s'.
    split.
    { unfold analysis_events, prepend. cbn [imap List.concat fst snd app].
      rewrite Nat.add_0_r, <- app_assoc. cbn [app]. do 5 f_equal.
      apply imap_ext. intros. cbn. by rewrite Nat.add_succ_r. }
    split; [done|]. split.
    { intros o Ho. rewrite Hdocs by done. unfold doc_of. cbn.
      by rewrite lookup_insert_ne. }
    split; [simpl; lia|].
    intros [|i] da' gold' Hi.
    + inversion Hi; subst. subst r.
      match type of Er with asearch_generate _ _ ?d _ ?p = _ => exists d, p end.
      cbn. by rewrite Er.
    + cbn. by apply Hnews.
Qed.

(** C9: [-s] is not in the option string of [asearch_gen]: a word starting
    with [-s] in option position makes [getopt] raise before anything is
    done, and [main] lets the error through; the options that [getopt]
    returns never contain [-s], and the option loop always leaves
    [eval_selector] empty. *)
Theorem asearch_gen_rejects_s :
  (forall pre popts x rest s,
      option_words "e:d:w:c:" pre popts ->
      asearch_gen (pre ++ ("-s" +:+ x) :: rest) s
      = ([], s, inl (GetoptError "option -s not recognized" "s")))
  /\ (forall prog pre popts x rest s,
         option_words "e:d:w:c:" pre popts ->
         let e_log := EvLogInfo ("Running on " +:+ python_implementation +:+ " version "
                                  +:+ python_version) in
         main (prog :: "asearch_gen" :: pre ++ ("-s" +:+ x) :: rest) s
         = ([EvRandomSeed 1206; e_log],
            with_proc s (effect e_log {| rng := rng_of_seed 1206; store := store (st_proc s) |}),
            inl (GetoptError "option -s not recognized" "s")))
  /\ (forall args opts files,
         Getopt.getopt args "e:d:w:c:" = inr (opts, files) ->
         Forall (fun oa => oa.1 <> "-s") opts
         /\ forall s t s' eval_file fname_ttrees_out cfg_file eval_selector,
             asearch_gen_opts opts s
             = (t, s', inr (eval_file, fname_ttrees_out, cfg_file, eval_selector)) ->
             eval_selector = "").
Proof.
  assert (Hrej : forall pre popts x rest s,
             option_words "e:d:w:c:" pre popts ->
             asearch_gen (pre ++ ("-s" +:+ x) :: rest) s
             = ([], s, inl (GetoptError "option -s not recognized" "s"))).
  { intros pre popts x rest s Hw. unfold asearch_gen, getopt, Getopt.getopt.
    rewrite (getopt_loop_words _ _ _ _ _ Hw), getopt_s_rejected. reflexivity. }
  split; [exact Hrej|]. split.
  - intros prog pre popts x rest s Hw e_log. unfold main.
    assert (Hlen : (List.length (prog :: "asearch_gen" :: pre ++ ("-s" +:+ x) :: rest) <? 3)%nat
                   = false).
    { apply Nat.ltb_ge. cbn [List.length]. rewrite length_app. cbn [List.length]. lia. }
    rewrite Hlen. cbn [nth drop].
    erewrite bind_known by reflexivity. unfold log_info. rewrite emit_bind.
    change (String.eqb "asearch_gen" "candgen_train") with false.
    change (String.eqb "asearch_gen" "percrank_train") with false.
    change (String.eqb "asearch_gen" "random_gen") with false.
    change (String.eqb "asearch_gen" "asearch_gen") with true. cbn iota.
    erewrite bind_failed by (by apply (Hrej pre popts)).
    reflexivity.
  - intros args opts files H. apply getopt_known in H.
    assert (Hs : Forall (fun oa => String.eqb oa.1 "-s" = false) opts).
    { eapply Forall_impl; [exact H|]. apply asearch_known_not_s. }
    split.
    + eapply Forall_impl; [exact Hs|]. intros oa Ho Heq. simpl in Ho.
      rewrite Heq in Ho. discriminate.
    + intros s t s' ef out cf sel Hrun. unfold asearch_gen_opts in Hrun.
      eapply asearch_gen_opts_no_s; eauto.
Qed.

End Asearch.

(** ** The [-r] option of [sample_gen] *)

Section OptionR.
Context {D : Data} {W : World D}.

Lemma sample_gen_getopt_error args e s :
  Getopt.getopt args "r:n:o:w:" = inl e -> sample_gen args s = ([], s, inl e).
Proof. intros H. unfold sample_gen, getopt. by rewrite lift_bind, H. Qed.

(** After [getopt], [sample_gen] depends on the options only through the
    locals that its option loop computes. *)
Lemma sample_gen_opts_cong args1 args2 o1 o2 files s :
  Getopt.getopt args1 "r:n:o:w:" = inr (o1, files) ->
  Getopt.getopt args2 "r:n:o:w:" = inr (o2, files) ->
  sample_gen_opts o1 s = sample_gen_opts o2 s ->
  sample_gen args1 s = sample_gen args2 s.
Proof.
  intros H1 H2 Ho. unfold sample_gen, getopt. rewrite !lift_bind, H1, H2.
  by apply bind_cong.
Qed.

(** C10: [getopt] accepts [-r] with an argument in [sample_gen], and nothing
    reads it: putting [-r x] (as two words, or as one word when [x] is not
    empty) at any place where an option can start gives the same locals
    after the option loop and the same run. *)
Theorem sample_gen_ignores_r pre popts x rest s :
  option_words "r:n:o:w:" pre popts ->
  sample_gen (pre ++ "-r" :: x :: rest) s = sample_gen (pre ++ rest) s
  /\ (x <> "" -> sample_gen (pre ++ ("-r" +:+ x) :: rest) s = sample_gen (pre ++ rest) s)
  /\ (forall opts files,
        Getopt.getopt (pre ++ rest) "r:n:o:w:" = inr (opts, files) ->
        exists opts',
          Getopt.getopt (pre ++ "-r" :: x :: rest) "r:n:o:w:" = inr (opts', files)
          /\ sample_gen_opts opts' s = sample_gen_opts opts s).
Proof.
  intros Hw. destruct (getopt_insert_r pre popts x rest Hw) as (H1 & H2 & H3).
  destruct (Getopt.getopt rest "r:n:o:w:") as [e|[o f]]; cbn [shift_opts] in *.
  - rewrite !(sample_gen_getopt_error _ e) by auto. split; [done|]. split.
    + intros Hx. by rewrite (sample_gen_getopt_error _ e) by auto.
    + intros opts files Hg. rewrite Hg in H3. done.
  - assert (Ho : sample_gen_opts ((popts ++ [("-r", x)]) ++ o) s
                 = sample_gen_opts (popts ++ o) s).
    { rewrite <- app_assoc. cbn [app]. apply sample_gen_opts_skip_r. }
    split; [|split].
    + eapply sample_gen_opts_cong; eauto.
    + intros Hx. eapply sample_gen_opts_cong; eauto.
    + intros opts files Hg. rewrite Hg in H3. inversion H3; subst. eauto.
Qed.

End OptionR.

(** * Further properties *)

(** ** Words that [getopt] refuses or leaves alone *)

Section GetoptEdges.

Lemma short_has_arg_unknown c so :
  opt_letter c so = false ->
  Getopt.short_has_arg c so
  = inl (GetoptError ("option -" +:+ String c "" +:+ " not recognized") (String c "")).
Proof.
  induction so as [|x so IH]; intros H; [done|]. cbn in *.
  apply orb_false_elim in H as [H1 H2]. rewrite H1. by apply IH.
Qed.

Lemma getopt_loop_unknown so c cl acc rest :
  Ascii.eqb c "-" = false -> opt_letter c so = false ->
  Getopt.getopt_loop so acc (String "-" (String c cl) :: rest)
  = inl (GetoptError ("option -" +:+ String c "" +:+ " not recognized") (String c "")).
Proof.
  intros Hc Hu. cbn [Getopt.getopt_loop].
  change (negb (Ascii.eqb "-" "-")) with false. cbn iota.
  assert (String.eqb (String "-" (String c cl)) "--" = false) as ->.
  { apply String.eqb_neq. intros Heq. inversion Heq; subst. by rewrite Ascii.eqb_refl in Hc. }
  rewrite Hc. cbn [Getopt.do_shorts]. by rewrite (short_has_arg_unknown _ _ Hu).
Qed.

Lemma getopt_loop_missing so c acc :
  Ascii.eqb c "-" = false -> Getopt.short_has_arg c so = inr true ->
  Getopt.getopt_loop so acc [String "-" (String c "")]
  = inl (GetoptError ("option -" +:+ String c "" +:+ " requires argument") (String c "")).
Proof.
  intros Hc Hk. cbn [Getopt.getopt_loop].
  change (negb (Ascii.eqb "-" "-")) with false. cbn iota.
  assert (String.eqb (String "-" (String c "")) "--" = false) as ->.
  { apply String.eqb_neq. intros Heq. inversion Heq; subst. by rewrite Ascii.eqb_refl in Hc. }
  rewrite Hc. cbn [Getopt.do_shorts head]. by rewrite Hk.
Qed.

Lemma getopt_loop_non_option so acc w rest :
  non_option w = true -> Getopt.getopt_loop so acc (w :: rest) = inr (acc, w :: rest).
Proof.
  intros Hw. cbn [Getopt.getopt_loop]. destruct w as [|d [|c cl]]; try done.
  cbn in Hw. by rewrite Hw.
Qed.

End GetoptEdges.

Section ActionErrors.
Context {D : Data} {W : World D}.

Lemma candgen_train_getopt_error args e s :
  Getopt.getopt args "p:" = inl e -> candgen_train args s = ([], s, inl e).
Proof. intros H. unfold candgen_train, getopt. by rewrite lift_bind, H. Qed.

Lemma percrank_train_getopt_error args e s :
  Getopt.getopt args "c:d:s:j:w:" = inl e -> percrank_train args s = ([], s, inl e).
Proof. intros H. unfold percrank_train, getopt. by rewrite lift_bind, H. Qed.

Lemma asearch_gen_getopt_error args e s :
  Getopt.getopt args "e:d:w:c:" = inl e -> asearch_gen args s = ([], s, inl e).
Proof. intros H. unfold asearch_gen, getopt. by rewrite lift_bind, H. Qed.

(** X13: an option letter that is not in the option string of the action
    makes the action raise GetoptError ("option -x not recognized") before
    it does anything, wherever an option can start. *)
Theorem unknown_option_rejected pre popts c cl rest s :
  Ascii.eqb c "-" = false ->
  let word := String "-" (String c cl) in
  let err := GetoptError ("option -" +:+ String c "" +:+ " not recognized") (String c "") in
  (option_words "p:" pre popts -> opt_letter c "p:" = false ->
   candgen_train (pre ++ word :: rest) s = ([], s, inl err))
  /\ (option_words "c:d:s:j:w:" pre popts -> opt_letter c "c:d:s:j:w:" = false ->
      percrank_train (pre ++ word :: rest) s = ([], s, inl err))
  /\ (option_words "r:n:o:w:" pre popts -> opt_letter c "r:n:o:w:" = false ->
      sample_gen (pre ++ word :: rest) s = ([], s, inl err))
  /\ (option_words "e:d:w:c:" pre popts -> opt_letter c "e:d:w:c:" = false ->
      asearch_gen (pre ++ word :: rest) s = ([], s, inl err)).
Proof.
  intros Hc word err.
  assert (Hg : forall so, option_words so pre popts -> opt_letter c so = false ->
                          Getopt.getopt (pre ++ word :: rest) so = inl err).
  { intros so Hw Hu. unfold Getopt.getopt.
    rewrite (getopt_loop_words _ _ _ _ _ Hw). by apply getopt_loop_unknown. }
  repeat split; intros Hw Hu.
  - apply candgen_train_getopt_error; auto.
  - apply percrank_train_getopt_error; auto.
  - apply sample_gen_getopt_error; auto.
  - apply asearch_gen_getopt_error; auto.
Qed.

(** X14: every option of the four actions takes an argument: an option
    letter as the last word makes the action raise GetoptError ("option -x
    requires argument") before it does anything. *)
Theorem missing_option_argument pre popts c s :
  let word := String "-" (String c "") in
  let err := GetoptError ("option -" +:+ String c "" +:+ " requires argument") (String c "") in
  (option_words "p:" pre popts -> opt_letter c "p:" = true ->
   candgen_train (pre ++ [word]) s = ([], s, inl err))
  /\ (option_words "c:d:s:j:w:" pre popts -> opt_letter c "c:d:s:j:w:" = true ->
      percrank_train (pre ++ [word]) s = ([], s, inl err))
  /\ (option_words "r:n:o:w:" pre popts -> opt_letter c "r:n:o:w:" = true ->
      sample_gen (pre ++ [word]) s = ([], s, inl err))
  /\ (option_words "e:d:w:c:" pre popts -> opt_letter c "e:d:w:c:" = true ->
      asearch_gen (pre ++ [word]) s = ([], s, inl err)).
Proof.
  intros word err.
  assert (Hg : forall so, option_words so pre popts ->
                          Ascii.eqb c "-" = false -> Getopt.short_has_arg c so = inr true ->
                          Getopt.getopt (pre ++ [word]) so = inl err).
  { intros so Hw Hc Hk. unfold Getopt.getopt.
    rewrite (getopt_loop_words _ _ _ _ _ Hw). by apply getopt_loop_missing. }
  assert (Hk : forall so, opt_letter c so = true ->
                          so = "p:" \/ so = "c:d:s:j:w:" \/ so = "r:n:o:w:" \/ so = "e:d:w:c:" ->
                          Ascii.eqb c "-" = false /\ Getopt.short_has_arg c so = inr true).
  { intros so Hl Hso. destruct Hso as [-> | [-> | [-> | ->]]]; cbn in Hl |- *;
      repeat match type of Hl with
             | context [Ascii.eqb c ?x] => destruct (Ascii.eqb_spec c x) as [->|]
             end; done. }
  repeat split; intros Hw Hl.
  - apply candgen_train_getopt_error, Hg; [done|apply (Hk "p:")..]; auto.
  - apply percrank_train_getopt_error, Hg; [done|apply (Hk "c:d:s:j:w:")..]; auto.
  - apply sample_gen_getopt_error, Hg; [done|apply (Hk "r:n:o:w:")..]; auto 6.
  - apply asearch_gen_getopt_error, Hg; [done|apply (Hk "e:d:w:c:")..]; auto 6.
Qed.

(** X15: options have to come before the file arguments.  Scanning stops at
    the first word that is not an option, and after the terminator: all
    words from there on are file arguments, also those that start with a
    dash; so [sample_gen] with anything after its two files exits with the
    usage text. *)
Theorem options_after_files_are_files so pre popts w rest :
  option_words so pre popts ->
  (non_option w = true ->
   Getopt.getopt (pre ++ w :: rest) so = inr (popts, w :: rest))
  /\ Getopt.getopt (pre ++ "--" :: rest) so = inr (popts, rest)
  /\ (forall f2 s,
        so = "r:n:o:w:" -> non_option w = true -> values_convert ["-n"] [] popts = true ->
        rest <> [] ->
        sample_gen (pre ++ w :: f2 :: rest) s = ([], s, inl (SystemExit __doc__))).
Proof.
  intros Hw.
  assert (H1 : forall tl, non_option w = true ->
                          Getopt.getopt (pre ++ w :: tl) so = inr (popts, w :: tl)).
  { intros tl Hn. unfold Getopt.getopt.
    rewrite (getopt_loop_words _ _ _ _ _ Hw), getopt_loop_non_option by done. done. }
  split; [apply H1|]. split.
  - unfold Getopt.getopt. rewrite (getopt_loop_words _ _ _ _ _ Hw). done.
  - intros f2 s -> Hn Hc Hrest. specialize (H1 (f2 :: rest) Hn).
    unfold sample_gen, getopt. rewrite lift_bind, H1, bind_run. unfold sample_gen_opts.
    destruct (sample_gen_opts_run popts (1, None, None) s Hc) as [[[n o] wo] ->].
    destruct rest; [done|]. reflexivity.
Qed.

End ActionErrors.

(** ** Edges of the entry point *)

Section MainEdges.
Context {D : Data} {W : World D}.

(** X1: with fewer than two words after the program name, [main] exits with
    the usage text right after seeding: nothing is logged, no action runs. *)
Theorem main_too_few_arguments argv s :
  (List.length argv < 3)%nat ->
  main argv s
  = ([EvRandomSeed 1206],
     with_proc s {| rng := rng_of_seed 1206; store := store (st_proc s) |},
     inl (SystemExit __doc__)).
Proof.
  intros H. unfold main. apply Nat.ltb_lt in H. rewrite H. reflexivity.
Qed.

(** X2: an action name other than the four that [main] compares with makes
    it exit with the unknown-action message, which quotes the name and ends
    with the usage text; a name that is not ASCII cannot be put into the
    message and raises UnicodeDecodeError instead.  In both cases nothing
    but the seeding and the version line happens. *)
Theorem main_unknown_action prog action a rest s :
  String.eqb action "candgen_train" = false ->
  String.eqb action "percrank_train" = false ->
  String.eqb action "random_gen" = false ->
  String.eqb action "asearch_gen" = false ->
  let e_log := EvLogInfo ("Running on " +:+ python_implementation +:+ " version "
                           +:+ python_version) in
  main (prog :: action :: a :: rest) s
  = ([EvRandomSeed 1206; e_log],
     with_proc s (effect e_log {| rng := rng_of_seed 1206; store := store (st_proc s) |}),
     inl (if is_ascii action
          then SystemExit ((nl +:+ "ERROR: Unknown Tgen action: " +:+ action +:+ nl +:+ nl
                            +:+ "---") +:+ __doc__)
          else UnicodeDecodeError action)).
Proof.
  intros H1 H2 H3 H4 e_log. unfold main. cbn [List.length Nat.ltb Nat.leb nth drop].
  rewrite H1, H2, H3, H4. unfold py_unicode. destruct (is_ascii action); reflexivity.
Qed.

End MainEdges.

(** ** What the option loops compute *)

Section OptionValues.
Context {D : Data} {W : World D}.

Lemma run_effects_app t1 t2 p :
  run_effects (t1 ++ t2) p = run_effects t2 (run_effects t1 p).
Proof. apply foldl_app. Qed.

Lemma with_proc_id s : with_proc s (st_proc s) = s.
Proof. by destruct s. Qed.

Lemma has_opt_cons o opt arg opts :
  has_opt o ((opt, arg) :: opts) = (String.eqb opt o || has_opt o opts).
Proof.
  unfold has_opt. cbn [last_value]. rewrite last_value_cur.
  destruct (last_value o opts None); [by rewrite orb_true_r|].
  by destruct (String.eqb opt o).
Qed.

Lemma reliable_debug_stream : reliable -> debug_stream_opens.
Proof. intros H f p. apply H. Qed.

Lemma sample_gen_opts_value opts : forall n0 o0 w0 s,
  values_convert ["-n"] [] opts = true ->
  exists n,
    foldM sample_gen_opt (n0, o0, w0) opts s
    = ([], s, inr (n, last_value "-o" opts o0, last_value "-w" opts w0))
    /\ match last_value "-n" opts None with
       | Some a => py_int a = Some n
       | None => n = n0
       end.
Proof.
  induction opts as [|[opt arg] opts IH]; intros n0 o0 w0 s Hc; [by eexists|].
  cbn [values_convert forallb] in Hc. apply andb_prop in Hc as [Hc Hcs].
  apply andb_prop in Hc as [Hc _]. cbn [foldM sample_gen_opt last_value].
  rewrite (last_value_cur "-n").
  destruct (String.eqb_spec opt "-n") as [->|_].
  { cbn in Hc. unfold int. destruct (py_int arg) as [z|] eqn:Hz; [|done].
    rewrite bind_assoc, !ret_bind. cbn.
    destruct (IH z o0 w0 s Hcs) as (n & -> & Hn). exists n. split; [done|].
    destruct (last_value "-n" opts None); congruence. }
  destruct (String.eqb_spec opt "-o") as [->|_].
  { rewrite ret_bind. cbn.
    destruct (IH n0 (Some arg) w0 s Hcs) as (n & -> & Hn). exists n. split; [done|].
    by destruct (last_value "-n" opts None). }
  destruct (String.eqb_spec opt "-w") as [->|_].
  { rewrite ret_bind. cbn.
    destruct (IH n0 o0 (Some arg) s Hcs) as (n & -> & Hn). exists n. split; [done|].
    by destruct (last_value "-n" opts None). }
  rewrite ret_bind.
  destruct (IH n0 o0 w0 s Hcs) as (n & -> & Hn). exists n. split; [done|].
  by destruct (last_value "-n" opts None).
Qed.

(** X5: the option loop of [sample_gen] makes no call; after it,
    [num_to_generate] is the integer of the last [-n] (1 without [-n]),
    and [oracle_eval_file] and the output file are the arguments of the
    last [-o] and of the last [-w] ([None] without them). *)
Theorem sample_gen_opts_last_wins opts s :
  values_convert ["-n"] [] opts = true ->
  exists num_to_generate,
    sample_gen_opts opts s
    = ([], s, inr (num_to_generate, last_value "-o" opts None, last_value "-w" opts None))
    /\ match last_value "-n" opts None with
       | Some a => py_int a = Some num_to_generate
       | None => num_to_generate = 1
       end.
Proof. intros Hc. by apply sample_gen_opts_value. Qed.

Lemma sample_gen_opts_bad_n opts1 a opts2 : forall cur s,
  values_convert ["-n"] [] opts1 = true -> py_int a = None ->
  foldM sample_gen_opt cur (opts1 ++ ("-n", a) :: opts2) s
  = ([], s, inl (ValueError "invalid literal for int() with base 10" a)).
Proof.
  intros [[n0 o0] w0] s Hc Ha. rewrite foldM_app.
  destruct (sample_gen_opts_value opts1 n0 o0 w0 s Hc) as (n & Hrun & _).
  erewrite bind_known by exact Hrun. rewrite prepend_nil.
  cbn [foldM sample_gen_opt]. change (String.eqb "-n" "-n") with true. cbn iota.
  unfold int. rewrite Ha. reflexivity.
Qed.

Lemma candgen_train_opts_bad_p opts1 a opts2 : forall cur s,
  values_convert ["-p"] [] opts1 = true -> py_int a = None ->
  foldM candgen_train_opt cur (opts1 ++ ("-p", a) :: opts2) s
  = ([], s, inl (ValueError "invalid literal for int() with base 10" a)).
Proof.
  intros cur s Hc Ha. rewrite foldM_app.
  destruct (candgen_train_opts_run opts1 cur s Hc) as (v & Hrun & _).
  erewrite bind_known by exact Hrun. rewrite prepend_nil.
  cbn [foldM candgen_train_opt]. change (String.eqb "-p" "-p") with true. cbn iota.
  unfold int. rewrite Ha. reflexivity.
Qed.

(** X6: the first [-n] value that [int] rejects makes [sample_gen] raise
    ValueError for that literal before it does anything, whatever follows
    it and whatever the file arguments are; the same holds for [-p] in
    [candgen_train]. *)
Theorem bad_integer_option_raises args opts1 a opts2 files s :
  py_int a = None ->
  let err := ValueError "invalid literal for int() with base 10" a in
  (Getopt.getopt args "r:n:o:w:" = inr (opts1 ++ ("-n", a) :: opts2, files) ->
   values_convert ["-n"] [] opts1 = true ->
   sample_gen args s = ([], s, inl err))
  /\ (Getopt.getopt args "p:" = inr (opts1 ++ ("-p", a) :: opts2, files) ->
      values_convert ["-p"] [] opts1 = true ->
      candgen_train args s = ([], s, inl err)).
Proof.
  intros Ha err. split; intros Hg Hc.
  - unfold sample_gen, getopt. rewrite lift_bind, Hg. unfold sample_gen_opts.
    erewrite bind_failed; [reflexivity|]. by apply sample_gen_opts_bad_n.
  - unfold candgen_train, getopt. rewrite lift_bind, Hg. unfold candgen_train_opts.
    erewrite bind_failed; [reflexivity|]. by apply candgen_train_opts_bad_p.
Qed.

Lemma percrank_train_opts_value opts : forall cm0 ts0 par0 j0 wd0 s,
  debug_stream_opens ->
  values_convert ["-j"] ["-s"] opts = true ->
  exists train_size jobs_number,
    foldM percrank_train_opt (cm0, ts0, par0, j0, wd0) opts s
    = (debug_events opts,
       with_proc s (run_effects (debug_events opts) (st_proc s)),
       inr (last_value "-c" opts cm0, train_size, par0 || has_opt "-j" opts, jobs_number,
            last_value "-w" opts wd0))
    /\ match last_value "-s" opts None with
       | Some a => py_float a = Some train_size
       | None => train_size = ts0
       end
    /\ match last_value "-j" opts None with
       | Some a => py_int a = Some jobs_number
       | None => jobs_number = j0
       end.
Proof.
  induction opts as [|[opt arg] opts IH]; intros cm0 ts0 par0 j0 wd0 s Hd Hc.
  { exists ts0, j0. cbn. rewrite with_proc_id, orb_false_r. done. }
  cbn [values_convert forallb] in Hc. apply andb_prop in Hc as [Hc Hcs].
  apply andb_prop in Hc as [Hci Hcf]. cbn [foldM percrank_train_opt last_value].
  rewrite has_opt_cons, debug_events_cons, (last_value_cur "-s"), (last_value_cur "-j").
  destruct (String.eqb_spec opt "-d") as [->|_].
  { rewrite bind_assoc. unfold set_debug_stream, call_.
    rewrite call_bind_cases, Hd, ret_bind. cbn [st_proc with_proc].
    destruct (IH cm0 ts0 par0 j0 wd0
                 (with_proc s (effect (EvSetDebugStream arg "w") (st_proc s))) Hd Hcs)
      as (ts & jobs & -> & Hts & Hj).
    exists ts, jobs. split; [done|]. split.
    - by destruct (last_value "-s" opts None).
    - by destruct (last_value "-j" opts None). }
  destruct (String.eqb_spec opt "-s") as [->|_].
  { cbn in Hcf. unfold float. destruct (py_float arg) as [x|] eqn:Hx; [|done].
    rewrite bind_assoc, !ret_bind. cbn.
    destruct (IH cm0 x par0 j0 wd0 s Hd Hcs) as (ts & jobs & -> & Hts & Hj).
    exists ts, jobs. split; [done|]. split.
    - destruct (last_value "-s" opts None); congruence.
    - by destruct (last_value "-j" opts None). }
  destruct (String.eqb_spec opt "-c") as [->|_].
  { rewrite ret_bind. cbn.
    destruct (IH (Some arg) ts0 par0 j0 wd0 s Hd Hcs) as (ts & jobs & -> & Hts & Hj).
    exists ts, jobs. split; [done|]. split.
    - by destruct (last_value "-s" opts None).
    - by destruct (last_value "-j" opts None). }
  destruct (String.eqb_spec opt "-j") as [->|_].
  { cbn in Hci. unfold int. destruct (py_int arg) as [z|] eqn:Hz; [|done].
    rewrite bind_assoc, !ret_bind. cbn.
    destruct (IH cm0 ts0 true z wd0 s Hd Hcs) as (ts & jobs & -> & Hts & Hj).
    exists ts, jobs. rewrite orb_true_r. split; [done|]. split.
    - by destruct (last_value "-s" opts None).
    - destruct (last_value "-j" opts None); congruence. }
  destruct (String.eqb_spec opt "-w") as [->|_].
  { rewrite ret_bind. cbn.
    destruct (IH cm0 ts0 par0 j0 (Some arg) s Hd Hcs) as (ts & jobs & -> & Hts & Hj).
    exists ts, jobs. split; [done|]. split.
    - by destruct (last_value "-s" opts None).
    - by destruct (last_value "-j" opts None). }
  rewrite ret_bind.
  destruct (IH cm0 ts0 par0 j0 wd0 s Hd Hcs) as (ts & jobs & -> & Hts & Hj).
  exists ts, jobs.
  split; [done|]. split.
  - by destruct (last_value "-s" opts None).
  - by destruct (last_value "-j" opts None).
Qed.

Lemma asearch_gen_opts_value opts : forall ef0 out0 cf0 sel0 s,
  debug_stream_opens ->
  Forall (fun oa => String.eqb oa.1 "-s" = false) opts ->
  foldM asearch_gen_opt (ef0, out0, cf0, sel0) opts s
  = (debug_events opts,
     with_proc s (run_effects (debug_events opts) (st_proc s)),
     inr (last_value "-e" opts ef0, last_value "-w" opts out0, last_value "-c" opts cf0,
          sel0)).
Proof.
  induction opts as [|[opt arg] opts IH]; intros ef0 out0 cf0 sel0 s Hd Hs.
  { cbn. by rewrite with_proc_id. }
  inversion Hs as [|? ? Hs1 Hs2]; subst. cbn in Hs1.
  cbn [foldM asearch_gen_opt last_value]. rewrite debug_events_cons, Hs1.
  destruct (String.eqb_spec opt "-e") as [->|_].
  { rewrite ret_bind. cbn. by rewrite IH. }
  destruct (String.eqb_spec opt "-d") as [->|_].
  { rewrite bind_assoc. unfold set_debug_stream, call_.
    rewrite call_bind_cases, Hd, ret_bind. cbn [st_proc with_proc].
    by rewrite IH. }
  destruct (String.eqb_spec opt "-w") as [->|_].
  { rewrite ret_bind. cbn. by rewrite IH. }
  destruct (String.eqb_spec opt "-c") as [->|_].
  { rewrite ret_bind. cbn. by rewrite IH. }
  rewrite ret_bind, IH by done.
  done.
Qed.

End OptionValues.

(** ** Whole runs of the training actions *)

Section TrainingRuns.
Context {D : Data} {W : World D}.

(** X4: with four file arguments and convertible [-s] and [-j] values,
    [percrank_train] opens the debug streams, loads the configuration from
    the first file, sets [candgen_model] in it only when the last [-c] is a
    non-empty string, builds a plain ranker without [-j] and a parallel one
    with [jobs_number] set otherwise (its working directory is the last
    [-w], else the directory of the configuration file), trains it on the
    second and third file with the data portion of the last [-s] (1.0 by
    default) and saves it to the fourth. *)
Theorem percrank_train_builds_ranker args opts f_cfg f_das f_ttrees f_model s :
  reliable ->
  Getopt.getopt args "c:d:s:j:w:" = inr (opts, [f_cfg; f_das; f_ttrees; f_model]) ->
  values_convert ["-j"] ["-s"] opts = true ->
  let p0 := run_effects (debug_events opts ++ [EvLogInfo "Training perceptron ranker..."])
                        (st_proc s) in
  let file_cfg := Config_load f_cfg p0 in
  let candgen_model := last_value "-c" opts None in
  let rank_config :=
    if truthy candgen_model
    then <["candgen_model" := VStr (default "" candgen_model)]> file_cfg
    else file_cfg in
  let ranker := st_next s in
  exists train_size jobs_number s',
    percrank_train args s
    = (debug_events opts
       ++ [EvLogInfo "Training perceptron ranker...";
           EvConfig f_cfg;
           (if has_opt "-j" opts
            then EvNewParallelRanker ranker (<["jobs_number" := VInt jobs_number]> rank_config)
                   (default (os_path_split f_cfg).1 (last_value "-w" opts None))
            else EvNewRanker ranker rank_config);
           EvRankerTrain ranker f_das f_ttrees train_size;
           EvRankerSave ranker f_model],
       s', inr tt)
    /\ match last_value "-s" opts None with
       | Some a => py_float a = Some train_size
       | None => train_size = float_one
       end
    /\ match last_value "-j" opts None with
       | Some a => py_int a = Some jobs_number
       | None => jobs_number = 0
       end.
Proof.
  intros Hr Hg Hc p0 file_cfg candgen_model rank_config ranker.
  destruct (percrank_train_opts_value opts None float_one false 0 None s
              (reliable_debug_stream Hr) Hc) as (ts & jobs & Hopts & Hts & Hj).
  exists ts, jobs.
  destruct (has_opt "-j" opts) eqn:Hpar;
    destruct (last_value "-w" opts None) as [work_dir|] eqn:Hw;
    (eexists; split; [|done]).
  all: unfold percrank_train, getopt; rewrite lift_bind, Hg; unfold percrank_train_opts.
  all: erewrite bind_known by exact Hopts.
  all: cbn [List.length Nat.eqb negb orb]; unfold unpack4, log_info, Config.
  all: rewrite ret_bind, emit_bind, (call_bind _ _ _ _ Hr).
  all: cbn [st_proc st_docs st_next with_proc].
  all: fold candgen_model.
  all: assert (Hp0 : effect (EvLogInfo "Training perceptron ranker...")
                  (run_effects (debug_events opts) (st_proc s)) = p0)
    by (unfold p0; by rewrite run_effects_app).
  all: rewrite Hp0; fold file_cfg; cbn zeta; fold rank_config.
  all: unfold PerceptronRanker, ParallelPerceptronRanker, call_.
  all: rewrite !bind_assoc, new_obj_bind, !bind_assoc, (call_bind _ _ _ _ Hr), ret_bind,
      (call_bind _ _ _ _ Hr), (call_run _ _ _ Hr).
  all: unfold prepend; cbn; rewrite <- ?app_assoc; reflexivity.
Qed.

End TrainingRuns.

(** ** What the traces never contain *)

Section TraceFacts.
Context {D : Data} {W : World D}.

Lemma trace_all_bind_post {A B} (P : event -> Prop) (Q : A -> Prop) (m : M A) (k : A -> M B) :
  trace_all P m ->
  (forall s a, (m s).2 = inr a -> Q a) ->
  (forall a, Q a -> trace_all P (k a)) ->
  trace_all P (m ≫= k).
Proof.
  intros Hm Hq Hk s. rewrite bind_run. specialize (Hm s). specialize (Hq s).
  destruct (m s) as [[t1 s1] [e|a]]; [done|]. specialize (Hk a (Hq a eq_refl) s1).
  destruct (k a s1) as [[t2 s2] r]. by apply Forall_app.
Qed.

Lemma has_opt_false o opts : has_opt o opts = false -> last_value o opts None = None.
Proof. unfold has_opt. by destruct (last_value o opts None). Qed.

Lemma sample_gen_opts_out opts : forall n0 o0 w0 s n o w,
  (foldM sample_gen_opt (n0, o0, w0) opts s).2 = inr (n, o, w) ->
  o = last_value "-o" opts o0 /\ w = last_value "-w" opts w0.
Proof.
  induction opts as [|[opt arg] opts IH]; intros n0 o0 w0 s n o w H.
  { cbn in H. by inversion H. }
  cbn [foldM sample_gen_opt last_value] in *.
  destruct (String.eqb_spec opt "-n") as [->|_].
  { unfold int in H. destruct (py_int arg) as [z|]; [|done].
    rewrite bind_assoc, !ret_bind in H. by apply IH in H. }
  destruct (String.eqb_spec opt "-o") as [->|_].
  { rewrite ret_bind in H. by apply IH in H. }
  destruct (String.eqb_spec opt "-w") as [->|_].
  { rewrite ret_bind in H. by apply IH in H. }
  rewrite ret_bind in H. by apply IH in H.
Qed.

Lemma asearch_gen_opts_out opts : forall ef0 out0 cf0 sel0 s ef out cf sel,
  (foldM asearch_gen_opt (ef0, out0, cf0, sel0) opts s).2 = inr (ef, out, cf, sel) ->
  ef = last_value "-e" opts ef0 /\ out = last_value "-w" opts out0
  /\ cf = last_value "-c" opts cf0.
Proof.
  induction opts as [|[opt arg] opts IH]; intros ef0 out0 cf0 sel0 s ef out cf sel H.
  { cbn in H. by inversion H. }
  cbn [foldM asearch_gen_opt last_value] in *.
  destruct (String.eqb_spec opt "-e") as [->|_].
  { rewrite ret_bind in H. by apply IH in H. }
  destruct (String.eqb_spec opt "-s") as [->|_].
  { rewrite ret_bind in H. by apply IH in H. }
  destruct (String.eqb_spec opt "-d") as [->|_].
  { rewrite bind_assoc in H. unfold set_debug_stream, call_ in H.
    rewrite call_bind_cases in H. destruct (fails _ _); [done|].
    rewrite ret_bind in H. unfold prepend in H. cbn [snd] in H. by apply IH in H. }
  destruct (String.eqb_spec opt "-w") as [->|_].
  { rewrite ret_bind in H. by apply IH in H. }
  destruct (String.eqb_spec opt "-c") as [->|_].
  { rewrite ret_bind in H. by apply IH in H. }
  rewrite ret_bind in H. by apply IH in H.
Qed.

(** X11: the training actions never write a document, and the generation
    actions write none when no [-w] option is given, whatever else happens
    during the run. *)
Theorem no_output_without_w args s :
  let quiet (t : list event) := Forall (fun e => is_write e = false) t in
  quiet (candgen_train args s).1.1
  /\ quiet (percrank_train args s).1.1
  /\ (forall opts files,
        Getopt.getopt args "r:n:o:w:" = inr (opts, files) -> has_opt "-w" opts = false ->
        quiet (sample_gen args s).1.1)
  /\ (forall opts files,
        Getopt.getopt args "e:d:w:c:" = inr (opts, files) -> has_opt "-w" opts = false ->
        quiet (asearch_gen args s).1.1).
Proof.
  intros quiet. subst quiet. cbn beta. split; [|split; [|split]].
  - revert s.
    change (trace_all (fun e => is_write e = false) (candgen_train args)).
    unfold candgen_train, getopt, candgen_train_opts, candgen_train_opt, int, unpack3,
      log_info, RandomCandidateGenerator, call_, sys_exit.
    trace_all_tac.
  - revert s.
    change (trace_all (fun e => is_write e = false) (percrank_train args)).
    unfold percrank_train, getopt, percrank_train_opts, percrank_train_opt, int, float,
      set_debug_stream, unpack4, log_info, Config, PerceptronRanker,
      ParallelPerceptronRanker, call_, sys_exit.
    trace_all_tac.
  - intros opts files Hg Hw. apply has_opt_false in Hw.
    unfold sample_gen, getopt. rewrite lift_bind, Hg. revert s.
    apply (trace_all_bind_post _ (fun x => x.2 = None)).
    + unfold sample_gen_opts, sample_gen_opt, int. trace_all_tac.
    + intros s [[n o] w] H. apply sample_gen_opts_out in H as [_ ->]. exact Hw.
    + intros [[n o] w] Hq. cbn in Hq. subst w.
      unfold unpack2, log_info, RandomCandidateGenerator, SamplingPlanner, Document_, new_doc,
        sample_gen_generate, for_, sampling_generate_tree, sample_gen_oracle, read_ttrees_,
        new_doc, call_, log_info, sys_exit.
      trace_all_tac.
  - intros opts files Hg Hw. apply has_opt_false in Hw.
    unfold asearch_gen, getopt. rewrite lift_bind, Hg. revert s.
    apply (trace_all_bind_post _ (fun x => x.1.1.2 = None)).
    + unfold asearch_gen_opts, asearch_gen_opt, set_debug_stream, call_. trace_all_tac.
    + intros s [[[ef out] cf] sel] H. apply asearch_gen_opts_out in H as (_ & -> & _).
      exact Hw.
    + intros [[[ef out] cf] sel] Hq. cbn in Hq. subst out.
      unfold unpack3, log_info, RandomCandidateGenerator, PerceptronRanker_load_from_file,
        Config, ASearchPlanner, asearch_gen_eval, read_ttrees_, Document_, new_doc,
        asearch_gen_analyze, asearch_gen_analyze_step, log_debug, asearch_generate_tree,
        asearch_gen_fscores, add_bundle_text_, for_, call_, log_info, sys_exit.
      trace_all_tac.
Qed.

Ltac not_done_tac :=
  trace_all_tac;
  try (cbn;
       match goal with
       | |- context [fmt3 _ _ _ _ _ _ ?x] => destruct x as [[? ?] ?]
       | _ => idtac
       end; reflexivity).

Lemma candgen_train_not_done args :
  trace_all (fun e => is_done e = false) (candgen_train args).
Proof.
  unfold candgen_train, getopt, candgen_train_opts, candgen_train_opt, int, unpack3,
    log_info, RandomCandidateGenerator, call_, sys_exit.
  not_done_tac.
Qed.

Lemma percrank_train_not_done args :
  trace_all (fun e => is_done e = false) (percrank_train args).
Proof.
  unfold percrank_train, getopt, percrank_train_opts, percrank_train_opt, int, float,
    set_debug_stream, unpack4, log_info, Config, PerceptronRanker,
    ParallelPerceptronRanker, call_, sys_exit.
  not_done_tac.
Qed.

Lemma sample_gen_not_done args :
  trace_all (fun e => is_done e = false) (sample_gen args).
Proof.
  unfold sample_gen, getopt, sample_gen_opts, sample_gen_opt, int, unpack2, log_info,
    RandomCandidateGenerator, SamplingPlanner, Document_, new_doc,
    sample_gen_generate, for_, sampling_generate_tree, sample_gen_oracle, read_ttrees_,
    new_doc, write_yaml, call_, log_info, sys_exit.
  not_done_tac.
Qed.

Lemma asearch_gen_not_done args :
  trace_all (fun e => is_done e = false) (asearch_gen args).
Proof.
  unfold asearch_gen, getopt, asearch_gen_opts, asearch_gen_opt, set_debug_stream,
    unpack3, log_info, RandomCandidateGenerator, PerceptronRanker_load_from_file,
    Config, ASearchPlanner, asearch_gen_eval, read_ttrees_, Document_, new_doc,
    asearch_gen_analyze, asearch_gen_analyze_step, log_debug, asearch_generate_tree,
    asearch_gen_fscores, add_bundle_text_, for_, write_yaml, call_, log_info, sys_exit.
  not_done_tac.
Qed.

Lemma dispatch_not_done action args :
  trace_all (fun e => is_done e = false)
    (if String.eqb action "candgen_train" then candgen_train args
     else if String.eqb action "percrank_train" then percrank_train args
     else if String.eqb action "random_gen" then sample_gen args
     else if String.eqb action "asearch_gen" then asearch_gen args
     else
       action_u ← lift (py_unicode action);
       sys_exit ((nl +:+ "ERROR: Unknown Tgen action: " +:+ action_u +:+ nl +:+ nl +:+ "---")
                 +:+ __doc__)).
Proof.
  destruct (String.eqb action "candgen_train"); [apply candgen_train_not_done|].
  destruct (String.eqb action "percrank_train"); [apply percrank_train_not_done|].
  destruct (String.eqb action "random_gen"); [apply sample_gen_not_done|].
  destruct (String.eqb action "asearch_gen"); [apply asearch_gen_not_done|].
  unfold sys_exit. trace_all_tac.
Qed.

Lemma main_run argv s :
  main argv s
  = prepend [EvRandomSeed 1206]
      ((if (List.length argv <? 3)%nat then sys_exit __doc__ else
        let action := nth 1 argv "" in
        let args := drop 2 argv in
        log_info ("Running on " +:+ python_implementation +:+ " version "
                  +:+ python_version);;
        (if String.eqb action "candgen_train" then candgen_train args
         else if String.eqb action "percrank_train" then percrank_train args
         else if String.eqb action "random_gen" then sample_gen args
         else if String.eqb action "asearch_gen" then asearch_gen args
         else
           action_u ← lift (py_unicode action);
           sys_exit ((nl +:+ "ERROR: Unknown Tgen action: " +:+ action_u +:+ nl +:+ nl
                      +:+ "---") +:+ __doc__));;
        log_info "Done.")
         (with_proc s {| rng := rng_of_seed 1206; store := store (st_proc s) |})).
Proof. unfold main. erewrite bind_known by reflexivity. reflexivity. Qed.

(** X3: a run of [main] logs "Done." only as its very last event, and
    exactly when the action returned normally: after an exit or an
    exception of any kind the message does not occur in the trace. *)
Theorem done_is_logged_last argv s :
  match (main argv s).2 with
  | inr _ => exists t, (main argv s).1.1 = t ++ [EvLogInfo "Done."]
                       /\ Forall (fun e => is_done e = false) t
  | inl _ => Forall (fun e => is_done e = false) (main argv s).1.1
  end.
Proof.
  rewrite main_run.
  destruct (List.length argv <? 3)%nat.
  { cbn. by apply List.Forall_cons. }
  cbn zeta. unfold log_info. rewrite emit_bind, bind_run.
  pose proof (dispatch_not_done (nth 1 argv "") (drop 2 argv)
                (with_proc
                   (with_proc s {| rng := rng_of_seed 1206; store := store (st_proc s) |})
                   (effect (EvLogInfo ("Running on " +:+ python_implementation
                                       +:+ " version " +:+ python_version))
                      (st_proc (with_proc s {| rng := rng_of_seed 1206;
                                               store := store (st_proc s) |})))))
    as Ha.
  match type of Ha with Forall _ (?m ?s1).1.1 => destruct (m s1) as [[t1 s2] [e|[]]] end.
  - unfold prepend. cbn [fst snd app] in *.
    apply List.Forall_cons; [done|]. by apply List.Forall_cons.
  - unfold prepend, log_info, emit. cbn [fst snd app] in *.
    eexists (_ :: _ :: t1). split; [reflexivity|].
    apply List.Forall_cons; [done|]. by apply List.Forall_cons.
Qed.

End TraceFacts.

(** ** Whole runs of the generation actions *)

Section GenerationRuns.
Context {D : Data} {W : World D}.

Lemma log_info_bind {B} msg (k : unit -> M B) s :
  (log_info msg ≫= k) s
  = prepend [EvLogInfo msg] (k tt (with_proc s (effect (EvLogInfo msg) (st_proc s)))).
Proof. apply emit_bind. Qed.

Lemma write_run (fname_ttrees_out : option string) gen_doc s :
  reliable ->
  exists s',
    match fname_ttrees_out with
    | Some f => log_info "Writing output...";; write_yaml f gen_doc
    | None => mret tt
    end s
    = (write_events fname_ttrees_out (doc_of s gen_doc), s', inr tt)
    /\ st_docs s' = st_docs s /\ st_next s' = st_next s.
Proof.
  intros Hr. destruct fname_ttrees_out as [f|]; [|by exists s].
  unfold log_info, write_yaml, call_.
  rewrite emit_bind, get_doc_bind, (call_run _ _ _ Hr). by eexists.
Qed.

Lemma prepend_prepend {A} t1 t2 (r : list event * st * (exn + A)) :
  prepend t1 (prepend t2 r) = prepend (t1 ++ t2) r.
Proof. unfold prepend. cbn. by rewrite app_assoc. Qed.

(** The part of [sample_gen] before the generation loop. *)
Lemma sample_gen_start args opts f_cand f_das num_to_generate s :
  reliable ->
  Getopt.getopt args "r:n:o:w:" = inr (opts, [f_cand; f_das]) ->
  values_convert ["-n"] [] opts = true ->
  match last_value "-n" opts None with
  | Some a => py_int a = Some num_to_generate
  | None => num_to_generate = 1
  end ->
  let candgen := st_next s in
  let tgen := S candgen in
  let gen_doc := S tgen in
  let cfg : gmap string cfg_value :=
    <["ranker" := VObj candgen]> (<["candgen" := VObj candgen]> ∅) in
  let t0 := EvLogInfo "Initializing..." :: sampling_setup candgen f_cand
            ++ [EvLogInfo "Generating..."] in
  let das := read_das f_das (run_effects t0 (st_proc s)) in
  sample_gen args s
  = prepend (t0 ++ [EvReadDas f_das])
      ((sample_gen_generate tgen gen_doc das num_to_generate;;
        match last_value "-o" opts None with
        | Some f => sample_gen_oracle (planner_language cfg) (planner_selector cfg)
                                      gen_doc num_to_generate f
        | None => mret tt
        end;;
        match last_value "-w" opts None with
        | Some f => log_info "Writing output...";; write_yaml f gen_doc
        | None => mret tt
        end)
         {| st_proc := run_effects (t0 ++ [EvReadDas f_das]) (st_proc s);
            st_docs := <[gen_doc := Document_new]> (st_docs s);
            st_next := S gen_doc |}).
Proof.
  intros Hr Hg Hc Hn candgen tgen gen_doc cfg t0 das.
  destruct (sample_gen_opts_value opts 1 None None s Hc) as (n & Hopts & Hn').
  assert (n = num_to_generate) as ->.
  { destruct (last_value "-n" opts None); congruence. }
  unfold sample_gen, getopt. rewrite lift_bind, Hg. unfold sample_gen_opts.
  erewrite bind_known by exact Hopts. rewrite prepend_nil.
  cbn [List.length Nat.eqb negb]. unfold unpack2, RandomCandidateGenerator,
    SamplingPlanner, Document_, new_doc, call_.
  repeat (first [rewrite bind_assoc | rewrite log_info_bind | rewrite (call_bind _ _ _ _ Hr)
                 | rewrite new_obj_bind | rewrite set_doc_bind | rewrite ret_bind];
          cbn beta iota zeta; cbn [st_proc st_docs st_next with_proc]).
  rewrite !prepend_prepend. reflexivity.
Qed.

(** X10: without [-o], a run of [sample_gen] on two files, with a number
    of samples that fits a C long, consists of the set-up, the reading of
    the dialogue acts from the second file, the generation calls (as many
    per act as the last [-n] says, 1 by default) into one new document,
    and, only with [-w], the writing of that document after the last
    generation; nothing is evaluated. *)
Theorem sample_gen_plain_run args opts f_cand f_das num_to_generate s :
  reliable ->
  Getopt.getopt args "r:n:o:w:" = inr (opts, [f_cand; f_das]) ->
  values_convert ["-n"] [] opts = true ->
  last_value "-o" opts None = None ->
  match last_value "-n" opts None with
  | Some a => py_int a = Some num_to_generate
  | None => num_to_generate = 1
  end ->
  c_long num_to_generate = true ->
  let candgen := st_next s in
  let tgen := S candgen in
  let gen_doc := S tgen in
  let cfg : gmap string cfg_value :=
    <["ranker" := VObj candgen]> (<["candgen" := VObj candgen]> ∅) in
  let t0 := EvLogInfo "Initializing..." :: sampling_setup candgen f_cand
            ++ [EvLogInfo "Generating..."] in
  let das := read_das f_das (run_effects t0 (st_proc s)) in
  exists groups d s',
    sample_gen args s
    = (t0 ++ EvReadDas f_das
          :: List.concat (map (fun da => replicate (Z.to_nat num_to_generate)
                                           (EvGenerateTree tgen da gen_doc false)) das)
          ++ write_events (last_value "-w" opts None) d,
       s', inr tt)
    /\ Forall2 (fun da group =>
                  List.length group = Z.to_nat num_to_generate
                  /\ Forall (fun t => exists p, t = sample_tree tgen da p) group)
               das groups
    /\ doc_of s' gen_doc = d
    /\ (planner_appends (planner_language cfg) (planner_selector cfg) ->
        ttrees_from_doc d (planner_language cfg) (planner_selector cfg)
        = ttrees_from_doc Document_new (planner_language cfg) (planner_selector cfg)
          ++ List.concat groups).
Proof.
  intros Hr Hg Hc Ho Hn Hcl candgen tgen gen_doc cfg t0 das.
  rewrite (sample_gen_start _ _ _ _ _ _ Hr Hg Hc Hn). cbn zeta.
  fold candgen. fold tgen. fold gen_doc. fold cfg. fold t0. fold das. rewrite Ho.
  match goal with |- context [(sample_gen_generate tgen gen_doc das _ ≫= _) ?s1] =>
    destruct (sample_gen_generate_groups tgen gen_doc das num_to_generate
                (planner_language cfg) (planner_selector cfg) s1 Hr Hcl)
      as (s2 & groups & Hrun & Hgroups & Happ & _)
  end.
  erewrite bind_known by exact Hrun. rewrite ret_bind.
  destruct (write_run (last_value "-w" opts None) gen_doc s2 Hr) as (s3 & Hw & Hdocs & _).
  rewrite Hw.
  exists groups, (doc_of s2 gen_doc), s3. split.
  { unfold prepend. cbn [fst snd]. rewrite <- !app_assoc. reflexivity. }
  split; [done|]. split.
  { unfold doc_of. by rewrite Hdocs. }
  intros Hp. rewrite (Happ Hp). unfold doc_of. cbn [st_docs].
  by rewrite lookup_insert_eq.
Qed.

(** X16: a number of samples that does not fit a C long makes [sample_gen]
    raise OverflowError at the first dialogue act, right after the acts are
    read: nothing is generated, evaluated or written.  Without any act the
    number is never looked at. *)
Theorem sample_gen_overflow args opts f_cand f_das num_to_generate s :
  reliable ->
  Getopt.getopt args "r:n:o:w:" = inr (opts, [f_cand; f_das]) ->
  values_convert ["-n"] [] opts = true ->
  match last_value "-n" opts None with
  | Some a => py_int a = Some num_to_generate
  | None => num_to_generate = 1
  end ->
  c_long num_to_generate = false ->
  let candgen := st_next s in
  let t0 := EvLogInfo "Initializing..." :: sampling_setup candgen f_cand
            ++ [EvLogInfo "Generating..."] in
  read_das f_das (run_effects t0 (st_proc s)) <> [] ->
  exists s',
    sample_gen args s
    = (t0 ++ [EvReadDas f_das], s',
       inl (OverflowError "Python int too large to convert to C long")).
Proof.
  intros Hr Hg Hc Hn Hcl candgen t0 Hdas.
  rewrite (sample_gen_start _ _ _ _ _ _ Hr Hg Hc Hn). cbn zeta.
  fold candgen. fold t0.
  destruct (read_das f_das (run_effects t0 (st_proc s))) as [|da das]; [done|].
  erewrite bind_failed by (by apply sample_gen_generate_overflow).
  eexists. unfold prepend. cbn [fst snd]. by rewrite app_nil_r.
Qed.

(** X17: a [-o] file name that is not ASCII cannot be joined with the log
    text: after the generation and the first line of the oracle block,
    [sample_gen] raises UnicodeDecodeError; the gold file is not read and
    nothing is written. *)
Theorem sample_gen_oracle_file_not_ascii args opts f_cand f_das f num_to_generate s :
  reliable ->
  Getopt.getopt args "r:n:o:w:" = inr (opts, [f_cand; f_das]) ->
  values_convert ["-n"] [] opts = true ->
  match last_value "-n" opts None with
  | Some a => py_int a = Some num_to_generate
  | None => num_to_generate = 1
  end ->
  c_long num_to_generate = true ->
  last_value "-o" opts None = Some f ->
  is_ascii f = false ->
  let candgen := st_next s in
  let tgen := S candgen in
  let gen_doc := S tgen in
  let t0 := EvLogInfo "Initializing..." :: sampling_setup candgen f_cand
            ++ [EvLogInfo "Generating..."] in
  let das := read_das f_das (run_effects t0 (st_proc s)) in
  exists s',
    sample_gen args s
    = (t0 ++ EvReadDas f_das
          :: List.concat (map (fun da => replicate (Z.to_nat num_to_generate)
                                           (EvGenerateTree tgen da gen_doc false)) das)
          ++ [EvLogInfo "Evaluating oracle F1..."],
       s', inl (UnicodeDecodeError f)).
Proof.
  intros Hr Hg Hc Hn Hcl Hof Hascii candgen tgen gen_doc t0 das.
  rewrite (sample_gen_start _ _ _ _ _ _ Hr Hg Hc Hn). cbn zeta.
  fold candgen. fold tgen. fold gen_doc. fold t0. fold das. rewrite Hof.
  match goal with |- context [(sample_gen_generate tgen gen_doc das _ ≫= _) ?s1] =>
    destruct (sample_gen_generate_groups tgen gen_doc das num_to_generate "" "" s1 Hr Hcl)
      as (s2 & groups & Hrun & _)
  end.
  erewrite bind_known by exact Hrun. cbn iota.
  unfold sample_gen_oracle, py_unicode. rewrite Hascii.
  rewrite bind_assoc, log_info_bind, bind_assoc, lift_bind.
  eexists. unfold prepend. cbn [fst snd]. rewrite <- !app_assoc. cbn [app].
  reflexivity.
Qed.

Lemma asearch_plain_loop tgen gen_doc das : forall s,
  reliable ->
  exists s',
    for_ das (fun da => asearch_generate_tree tgen da gen_doc false;; mret tt) s
    = (map (fun da => EvGenerateTree tgen da gen_doc false) das, s', inr tt)
    /\ st_next s' = st_next s
    /\ (forall o, o <> gen_doc -> doc_of s' o = doc_of s o).
Proof.
  induction das as [|da das IH]; intros s Hr; [by exists s|].
  unfold for_ in *. cbn [foldM]. rewrite bind_assoc.
  erewrite bind_known by (by apply asearch_generate_tree_run).
  rewrite !ret_bind.
  match goal with |- context [foldM _ _ _ ?s1] =>
    destruct (IH s1 Hr) as (s' & -> & Hnext & Hdocs) end.
  exists s'. split; [done|]. split; [done|].
  intros o Ho. rewrite Hdocs by done. unfold doc_of. cbn. by rewrite lookup_insert_ne.
Qed.

(** The set-up of [asearch_gen], followed by any continuation [K]. *)
Lemma asearch_gen_body_run {B} (K : gmap string cfg_value -> obj -> list DA -> M B)
      cfg_file f_cand f_rank f_das s :
  reliable ->
  let candgen := st_next s in
  let tgen := S (S candgen) in
  let t0 := asearch_load_events candgen f_cand f_rank in
  let cfg := asearch_planner_cfg candgen
               (asearch_loaded_cfg cfg_file (run_effects t0 (st_proc s))) in
  let t1 := t0 ++ asearch_cfg_events cfg_file
            ++ [EvNewASearchPlanner tgen cfg; EvLogInfo "Generating..."] in
  let das := read_das f_das (run_effects t1 (st_proc s)) in
  (log_info "Initializing...";;
   candgen ← RandomCandidateGenerator ∅;
   call_ (EvCandgenLoad candgen f_cand);;
   ranker ← PerceptronRanker_load_from_file f_rank;
   cfg ← (if truthy cfg_file then Config (default "" cfg_file) else mret ∅);
   let cfg := <["ranker" := VObj ranker]> (<["candgen" := VObj candgen]> cfg) in
   tgen ← ASearchPlanner cfg;
   log_info "Generating...";;
   das ← call (EvReadDas f_das) (read_das f_das);
   K cfg tgen das) s
  = prepend (t1 ++ [EvReadDas f_das])
      (K cfg tgen das
         {| st_proc := run_effects (t1 ++ [EvReadDas f_das]) (st_proc s);
            st_docs := st_docs s; st_next := S tgen |}).
Proof.
  intros Hr candgen tgen t0 cfg t1 das.
  unfold RandomCandidateGenerator, PerceptronRanker_load_from_file, ASearchPlanner,
    Config, call_.
  repeat (first [rewrite bind_assoc | rewrite log_info_bind | rewrite (call_bind _ _ _ _ Hr)
                 | rewrite new_obj_bind | rewrite ret_bind];
          cbn beta iota zeta; cbn [st_proc st_docs st_next with_proc]).
  fold candgen. fold tgen.
  change (effect (EvRankerLoad (S candgen) f_rank)
            (effect (EvCandgenLoad candgen f_cand)
               (effect (EvNewCandgen candgen ∅)
                  (effect (EvLogInfo "Initializing...") (st_proc s)))))
    with (run_effects t0 (st_proc s)).
  subst das t1 cfg. unfold asearch_loaded_cfg, asearch_cfg_events.
  destruct (truthy cfg_file).
  - repeat (first [rewrite bind_assoc | rewrite log_info_bind
                   | rewrite (call_bind _ _ _ _ Hr)
                   | rewrite new_obj_bind | rewrite ret_bind];
            cbn beta iota zeta; cbn [st_proc st_docs st_next with_proc]).
    rewrite !prepend_prepend. reflexivity.
  - repeat (first [rewrite bind_assoc | rewrite log_info_bind
                   | rewrite (call_bind _ _ _ _ Hr)
                   | rewrite new_obj_bind | rewrite ret_bind];
            cbn beta iota zeta; cbn [st_proc st_docs st_next with_proc]).
    rewrite !prepend_prepend. reflexivity.
Qed.

Lemma asearch_gen_start args opts f_cand f_rank f_das s :
  reliable ->
  Getopt.getopt args "e:d:w:c:" = inr (opts, [f_cand; f_rank; f_das]) ->
  let p0 := run_effects (debug_events opts) (st_proc s) in
  let candgen := st_next s in
  let tgen := S (S candgen) in
  let cfg_file := last_value "-c" opts None in
  let t0 := asearch_load_events candgen f_cand f_rank in
  let cfg := asearch_planner_cfg candgen (asearch_loaded_cfg cfg_file (run_effects t0 p0)) in
  let t1 := t0 ++ asearch_cfg_events cfg_file
            ++ [EvNewASearchPlanner tgen cfg; EvLogInfo "Generating..."] in
  let das := read_das f_das (run_effects t1 p0) in
  asearch_gen args s
  = prepend (debug_events opts ++ t1 ++ [EvReadDas f_das])
      ((gen_doc ← match last_value "-e" opts None with
                  | Some f => asearch_gen_eval cfg tgen das f ""
                  | None =>
                      gen_doc ← Document_;
                      for_ das (fun da =>
                        asearch_generate_tree tgen da gen_doc false;; mret tt);;
                      mret gen_doc
                  end;
        match last_value "-w" opts None with
        | Some f => log_info "Writing output...";; write_yaml f gen_doc
        | None => mret tt
        end)
         {| st_proc := run_effects (t1 ++ [EvReadDas f_das]) p0;
            st_docs := st_docs s; st_next := S tgen |}).
Proof.
  intros Hr Hg p0 candgen tgen cfg_file t0 cfg t1 das.
  assert (Hs : Forall (fun oa => String.eqb oa.1 "-s" = false) opts).
  { eapply Forall_impl; [exact (getopt_known _ _ _ _ Hg)|]. apply asearch_known_not_s. }
  unfold asearch_gen, getopt. rewrite lift_bind, Hg. unfold asearch_gen_opts.
  erewrite bind_known
    by exact (asearch_gen_opts_value opts None None None "" s (reliable_debug_stream Hr) Hs).
  cbn [List.length Nat.eqb negb]. unfold unpack3. rewrite ret_bind.
  rewrite <- prepend_prepend. f_equal.
  exact (asearch_gen_body_run
           (fun cfg tgen das =>
              gen_doc ← match last_value "-e" opts None with
                        | Some f => asearch_gen_eval cfg tgen das f ""
                        | None =>
                            gen_doc ← Document_;
                            for_ das (fun da =>
                              asearch_generate_tree tgen da gen_doc false;; mret tt);;
                            mret gen_doc
                        end;
              match last_value "-w" opts None with
              | Some f => log_info "Writing output...";; write_yaml f gen_doc
              | None => mret tt
              end)
           (last_value "-c" opts None) f_cand f_rank f_das _ Hr).
Qed.

Lemma filter_debug_events opts : List.filter is_model_event (debug_events opts) = [].
Proof.
  induction opts as [|[opt arg] opts IH]; [done|]. rewrite debug_events_cons.
  destruct (String.eqb opt "-d"); [cbn|]; exact IH.
Qed.

Lemma asearch_gen_rest_no_model cfg tgen das (eval_file fname_ttrees_out : option string) :
  trace_all (fun e => is_model_event e = false)
    (gen_doc ← match eval_file with
               | Some f => asearch_gen_eval cfg tgen das f ""
               | None =>
                   gen_doc ← Document_;
                   for_ das (fun da =>
                     asearch_generate_tree tgen da gen_doc false;; mret tt);;
                   mret gen_doc
               end;
     match fname_ttrees_out with
     | Some f => log_info "Writing output...";; write_yaml f gen_doc
     | None => mret tt
     end).
Proof.
  unfold asearch_gen_eval, read_ttrees_, Document_, new_doc,
    asearch_gen_analyze, asearch_gen_analyze_step, log_debug, asearch_generate_tree,
    asearch_gen_fscores, add_bundle_text_, for_, write_yaml, call_, log_info.
  trace_all_tac.
Qed.

(** X8: in every run of [asearch_gen] on three files the model events are
    exactly: one candidate generator loaded from the first file, one ranker
    loaded (never trained) from the second, and one A* planner; the planner's
    configuration is the file of a non-empty [-c], or the empty dictionary,
    with the keys [candgen] and [ranker] set to the two objects and every
    other key as loaded. *)
Theorem asearch_gen_loads_models args opts f_cand f_rank f_das s :
  reliable ->
  Getopt.getopt args "e:d:w:c:" = inr (opts, [f_cand; f_rank; f_das]) ->
  let p0 := run_effects (debug_events opts) (st_proc s) in
  let candgen := st_next s in
  let file_cfg := asearch_loaded_cfg (last_value "-c" opts None)
                    (run_effects (asearch_load_events candgen f_cand f_rank) p0) in
  let cfg := asearch_planner_cfg candgen file_cfg in
  List.filter is_model_event (asearch_gen args s).1.1
  = asearch_setup candgen f_cand f_rank file_cfg
  /\ cfg !! "candgen" = Some (VObj candgen)
  /\ cfg !! "ranker" = Some (VObj (S candgen))
  /\ (forall k, k <> "candgen" -> k <> "ranker" -> cfg !! k = file_cfg !! k)
  /\ (truthy (last_value "-c" opts None) = false -> file_cfg = ∅).
Proof.
  intros Hr Hg p0 candgen file_cfg cfg. split.
  - rewrite (asearch_gen_start _ _ _ _ _ _ Hr Hg). cbn zeta.
    fold p0. fold candgen. fold file_cfg.
    match goal with |- context [prepend _ (?m ?s1)] =>
      pose proof (asearch_gen_rest_no_model (asearch_planner_cfg candgen file_cfg)
                    (S (S candgen))
                    (read_das f_das
                       (run_effects
                          (asearch_load_events candgen f_cand f_rank
                           ++ asearch_cfg_events (last_value "-c" opts None)
                           ++ [EvNewASearchPlanner (S (S candgen))
                                 (asearch_planner_cfg candgen file_cfg);
                               EvLogInfo "Generating..."]) p0))
                    (last_value "-e" opts None) (last_value "-w" opts None) s1) as Hrest;
      destruct (m s1) as [[t2 s2] r2]
    end.
    unfold prepend. cbn [fst snd] in *.
    rewrite !List.filter_app, filter_debug_events, (filter_no_model _ Hrest).
    unfold asearch_cfg_events. destruct (truthy _); reflexivity.
  - unfold cfg, asearch_planner_cfg. split; [|split; [|split]].
    + rewrite lookup_insert_ne by done. by rewrite lookup_insert_eq.
    + by rewrite lookup_insert_eq.
    + intros k H1 H2. by rewrite !lookup_insert_ne.
    + intros Ht. unfold file_cfg, asearch_loaded_cfg. by rewrite Ht.
Qed.

(** X7: without [-e], a run of [asearch_gen] on three files opens the debug
    streams, builds the models, reads the dialogue acts from the third
    file, calls [generate_tree] once per act, in order and without asking
    for the lists, always on one new document, and, only with [-w],
    writes that document after the last call. *)
Theorem asearch_gen_plain_run args opts f_cand f_rank f_das s :
  reliable ->
  Getopt.getopt args "e:d:w:c:" = inr (opts, [f_cand; f_rank; f_das]) ->
  last_value "-e" opts None = None ->
  let p0 := run_effects (debug_events opts) (st_proc s) in
  let candgen := st_next s in
  let tgen := S (S candgen) in
  let gen_doc := S tgen in
  let cfg_file := last_value "-c" opts None in
  let t0 := asearch_load_events candgen f_cand f_rank in
  let cfg := asearch_planner_cfg candgen (asearch_loaded_cfg cfg_file (run_effects t0 p0)) in
  let t1 := t0 ++ asearch_cfg_events cfg_file
            ++ [EvNewASearchPlanner tgen cfg; EvLogInfo "Generating..."] in
  let das := read_das f_das (run_effects t1 p0) in
  exists d s',
    asearch_gen args s
    = (debug_events opts ++ t1
       ++ EvReadDas f_das :: map (fun da => EvGenerateTree tgen da gen_doc false) das
       ++ write_events (last_value "-w" opts None) d,
       s', inr tt)
    /\ doc_of s' gen_doc = d
    /\ st_next s' = S gen_doc.
Proof.
  intros Hr Hg He p0 candgen tgen gen_doc cfg_file t0 cfg t1 das.
  rewrite (asearch_gen_start _ _ _ _ _ _ Hr Hg). cbn zeta.
  fold p0. fold candgen. fold tgen. fold cfg_file. fold t0. fold cfg. fold t1. fold das.
  rewrite He. unfold Document_, new_doc.
  rewrite !bind_assoc, new_obj_bind, !bind_assoc, set_doc_bind, ret_bind, bind_assoc.
  cbn [st_proc st_docs st_next]. fold gen_doc.
  match goal with |- context [(for_ das _ ≫= _) ?s1] =>
    destruct (asearch_plain_loop tgen gen_doc das s1 Hr) as (s2 & Hrun & Hnext & _)
  end.
  erewrite bind_known by exact Hrun. rewrite ret_bind.
  destruct (write_run (last_value "-w" opts None) gen_doc s2 Hr) as (s3 & Hw & Hdocs & Hn3).
  rewrite Hw. exists (doc_of s2 gen_doc), s3. split.
  { unfold prepend. cbn [fst snd]. rewrite <- !app_assoc. reflexivity. }
  split.
  { unfold doc_of. by rewrite Hdocs. }
  rewrite Hn3, Hnext. reflexivity.
Qed.

End GenerationRuns.

(** ** The evaluation block of [asearch_gen] *)

Section Evaluation.
Context {D : Data} {W : World D}.

Lemma zip_seq_take {A} (l : list A) : forall k n,
  zip (seq k n) l = imap (fun i x => ((k + i)%nat, x)) (take n l).
Proof.
  induction l as [|x l IH]; intros k [|n]; cbn; try done.
  rewrite IH, Nat.add_0_r. f_equal. apply imap_ext. intros i y _. cbn.
  by rewrite Nat.add_succ_r.
Qed.

Lemma add_bundle_text_run doc bundle language selector text s :
  reliable ->
  add_bundle_text_ doc bundle language selector text s
  = ([EvAddBundleText doc bundle language selector text],
     {| st_proc := effect (EvAddBundleText doc bundle language selector text) (st_proc s);
        st_docs := <[doc := add_bundle_text (doc_of s doc) bundle language selector text]>
                     (st_docs s);
        st_next := st_next s |},
     inr tt).
Proof.
  intros Hr. unfold add_bundle_text_, call_.
  rewrite get_doc_bind, (call_bind _ _ _ _ Hr). reflexivity.
Qed.

Lemma score_loop_run language selector eval_doc (Hr : reliable) pairs : forall k evaler s,
  exists s',
    foldM (fun evaler '(eval_bundle, (eval_ttree, gen_ttree)) =>
             let '(c, p, g) := corr_pred_gold eval_ttree gen_ttree in
             add_bundle_text_ eval_doc eval_bundle language (selector +:+ "Xscore")
               (fmt3 "P: " "%.4f" " R: " "%.4f" " F1: " "%.4f"
                     (p_r_f1_from_counts c p g));;
             mret (evaler_append evaler eval_ttree gen_ttree))
          evaler (imap (fun i x => ((k + i)%nat, x)) pairs) s
    = (imap (fun i (pair : TTree * TTree) =>
               EvAddBundleText eval_doc (k + i) language (selector +:+ "Xscore")
                 (score_text pair.1 pair.2)) pairs,
       s', inr (evaler ++ pairs))
    /\ st_next s' = st_next s
    /\ (forall o, o <> eval_doc -> doc_of s' o = doc_of s o).
Proof.
  induction pairs as [|[eval_ttree gen_ttree] pairs IH]; intros k evaler s.
  { exists s. cbn. by rewrite app_nil_r. }
  cbn [imap foldM]. unfold score_text at 1. cbn [fst snd].
  destruct (corr_pred_gold eval_ttree gen_ttree) as [[c p] g].
  rewrite bind_assoc.
  erewrite bind_known by (by apply add_bundle_text_run).
  rewrite ret_bind.
  rewrite (imap_ext _ (fun i x => ((S k + i)%nat, x))) by (intros; cbn; f_equal; lia).
  match goal with |- context [foldM _ ?a _ ?s1] =>
    destruct (IH (S k) a s1) as (s' & Hrun & Hnext & Hdocs) end.
  rewrite Hrun. exists s'. split.
  { unfold prepend, evaler_append. cbn [fst snd app].
    rewrite Nat.add_0_r, <- app_assoc. cbn [app].
    do 3 f_equal. apply imap_ext. intros i y _. cbn. by rewrite Nat.add_succ_r. }
  split; [done|].
  intros o Ho. rewrite Hdocs by done. unfold doc_of. cbn. by rewrite lookup_insert_ne.
Qed.

(** X12: the F-score block reads the trees of both documents before it
    scores; it scores bundle [i] of the evaluation document against the
    [i]-th pair of trees, for as many bundles as the shortest of the three
    sequences has, attaching each score text under the selector with
    [Xscore] appended, and then logs node and dependency scores computed
    over exactly those pairs, in that order. *)
Theorem asearch_gen_fscores_scores_pairs language selector eval_selector eval_doc gen_doc s :
  reliable ->
  let eval_ttrees := ttrees_from_doc (doc_of s eval_doc) language eval_selector in
  let gen_ttrees := ttrees_from_doc (doc_of s gen_doc) language selector in
  let pairs := take (doc_bundles (doc_of s eval_doc)) (zip eval_ttrees gen_ttrees) in
  exists s',
    asearch_gen_fscores language selector eval_selector eval_doc gen_doc s
    = (EvLogInfo "Evaluating..."
       :: imap (fun i (pair : TTree * TTree) =>
                  EvAddBundleText eval_doc i language (selector +:+ "Xscore")
                    (score_text pair.1 pair.2)) pairs
       ++ [EvLogInfo (fmt3 "NODE precision: " "%.4f" ", Recall: " "%.4f" ", F1: " "%.4f"
                           (evaluator_p_r_f1 pairs None));
           EvLogInfo (fmt3 "DEP  precision: " "%.4f" ", Recall: " "%.4f" ", F1: " "%.4f"
                           (evaluator_p_r_f1 pairs (Some DEP)))],
       s', inr tt)
    /\ List.length pairs
       = (doc_bundles (doc_of s eval_doc)
          `min` (List.length eval_ttrees `min` List.length gen_ttrees))%nat
    /\ st_next s' = st_next s
    /\ (forall o, o <> eval_doc -> doc_of s' o = doc_of s o).
Proof.
  intros Hr eval_ttrees gen_ttrees pairs. unfold asearch_gen_fscores.
  rewrite !get_doc_bind. fold eval_ttrees. fold gen_ttrees.
  rewrite log_info_bind, zip_seq_take. fold pairs.
  match goal with |- context [(foldM _ _ _ ≫= _) ?s1] =>
    destruct (score_loop_run language selector eval_doc Hr pairs 0%nat Evaluator s1)
      as (s2 & Hrun & Hnext & Hdocs)
  end.
  erewrite bind_known by exact Hrun. unfold Evaluator. cbn [app].
  rewrite log_info_bind. unfold log_info, emit.
  eexists. split; [|split; [|split]].
  - unfold prepend. cbn [fst snd app]. reflexivity.
  - unfold pairs. rewrite length_take, length_zip. reflexivity.
  - cbn. exact Hnext.
  - intros o Ho. unfold doc_of at 1. cbn [st_docs with_proc]. by apply Hdocs.
Qed.

Lemma asearch_gen_analyze_targets tgen gen_doc eval_doc pairs :
  reliable ->
  runs_ok (targets tgen gen_doc eval_doc) (asearch_gen_analyze tgen gen_doc pairs).
Proof.
  intros Hr. unfold asearch_gen_analyze, asearch_gen_analyze_step, asearch_generate_tree,
    log_debug.
  runs_ok_tac Hr.
Qed.

Lemma asearch_gen_fscores_targets tgen language selector eval_selector eval_doc gen_doc :
  reliable ->
  runs_ok (targets tgen gen_doc eval_doc)
          (asearch_gen_fscores language selector eval_selector eval_doc gen_doc).
Proof.
  intros Hr. unfold asearch_gen_fscores, add_bundle_text_, log_info, call_.
  runs_ok_tac Hr.
Qed.

Lemma asearch_gen_eval_doc cfg tgen das eval_file eval_selector s :
  reliable ->
  let eval_doc := st_next s in
  let gen_doc := if String.eqb eval_selector (planner_selector cfg)
                 then S eval_doc else eval_doc in
  exists t s',
    asearch_gen_eval cfg tgen das eval_file eval_selector s = (t, s', inr gen_doc)
    /\ Forall (targets tgen gen_doc eval_doc) t
    /\ head t = Some (EvReadTTrees eval_file).
Proof.
  intros Hr eval_doc gen_doc.
  unfold asearch_gen_eval, read_ttrees_, new_doc, Document_, new_doc.
  rewrite !bind_assoc, (call_bind _ _ _ _ Hr).
  rewrite !bind_assoc, new_obj_bind, !bind_assoc, set_doc_bind, ret_bind.
  cbn [st_proc st_docs st_next with_proc]. fold eval_doc.
  assert (Htail : forall g s1, exists t s',
    (eval_d ← get_doc eval_doc;
     lists_analyzer ←
       asearch_gen_analyze tgen g
         (zip das (trees_from_doc eval_d (planner_language cfg) eval_selector));
     log_info (fmt3 "Gold tree BEST: " "%.4f" ", on CLOSE: " "%.4f" ", on ANY list: " "%4f"
                    (lists_analyzer_stats lists_analyzer));;
     asearch_gen_fscores (planner_language cfg) (planner_selector cfg) eval_selector
                         eval_doc g;;
     mret g) s1 = (t, s', inr g) /\ Forall (targets tgen g eval_doc) t).
  { intros g s1. rewrite get_doc_bind.
    match goal with |- context [(asearch_gen_analyze tgen g ?pairs ≫= _) s1] =>
      destruct (asearch_gen_analyze_targets tgen g eval_doc pairs Hr s1)
        as (t1 & s2 & la & E1 & H1)
    end.
    erewrite bind_known by exact E1. rewrite log_info_bind.
    match goal with |- context [(asearch_gen_fscores ?l ?sel ?es eval_doc g ≫= _) ?s3] =>
      destruct (asearch_gen_fscores_targets tgen l sel es eval_doc g Hr s3)
        as (t3 & s4 & [] & E3 & H3)
    end.
    erewrite bind_known by exact E3.
    do 2 eexists. split; [unfold prepend; cbn; reflexivity|].
    rewrite app_nil_r. apply Forall_app. split; [done|].
    apply List.Forall_cons; [done|]. done. }
  subst gen_doc. destruct (String.eqb eval_selector (planner_selector cfg)).
  - rewrite !bind_assoc, new_obj_bind, !bind_assoc, set_doc_bind, ret_bind.
    cbn [st_proc st_docs st_next].
    match goal with |- context [prepend _ (_ ?s1)] =>
      destruct (Htail (S eval_doc) s1) as (t & s' & -> & Ht) end.
    exists (EvReadTTrees eval_file :: t), s'. split; [done|]. split; [|done].
    by apply List.Forall_cons.
  - rewrite ret_bind.
    match goal with |- context [prepend _ (_ ?s1)] =>
      destruct (Htail eval_doc s1) as (t & s' & -> & Ht) end.
    exists (EvReadTTrees eval_file :: t), s'. split; [done|]. split; [|done].
    by apply List.Forall_cons.
Qed.

(** X9: with [-e], a run of [asearch_gen] on three files reads the
    evaluation file after the dialogue acts and generates with the lists
    requested.  As [eval_selector] is always the empty string, it generates
    into a new document only when the planner's selector is empty;
    otherwise it generates into the evaluation document itself.  Every
    score text goes to the evaluation document, and with [-w] the document
    generated into is written last. *)
Theorem asearch_gen_eval_run args opts f_cand f_rank f_das eval_file s :
  reliable ->
  Getopt.getopt args "e:d:w:c:" = inr (opts, [f_cand; f_rank; f_das]) ->
  last_value "-e" opts None = Some eval_file ->
  let p0 := run_effects (debug_events opts) (st_proc s) in
  let candgen := st_next s in
  let tgen := S (S candgen) in
  let cfg_file := last_value "-c" opts None in
  let t0 := asearch_load_events candgen f_cand f_rank in
  let cfg := asearch_planner_cfg candgen (asearch_loaded_cfg cfg_file (run_effects t0 p0)) in
  let t1 := t0 ++ asearch_cfg_events cfg_file
            ++ [EvNewASearchPlanner tgen cfg; EvLogInfo "Generating..."] in
  let eval_doc := S tgen in
  let gen_doc := if String.eqb "" (planner_selector cfg) then S eval_doc else eval_doc in
  exists t d s',
    asearch_gen args s
    = (debug_events opts ++ t1 ++ EvReadDas f_das :: t
       ++ write_events (last_value "-w" opts None) d,
       s', inr tt)
    /\ head t = Some (EvReadTTrees eval_file)
    /\ Forall (targets tgen gen_doc eval_doc) t
    /\ doc_of s' gen_doc = d.
Proof.
  intros Hr Hg He p0 candgen tgen cfg_file t0 cfg t1 eval_doc gen_doc.
  rewrite (asearch_gen_start _ _ _ _ _ _ Hr Hg). cbn zeta.
  fold p0. fold candgen. fold tgen. fold cfg_file. fold t0. fold cfg. fold t1.
  rewrite He.
  match goal with |- context [(asearch_gen_eval cfg tgen ?das eval_file "" ≫= _) ?s1] =>
    destruct (asearch_gen_eval_doc cfg tgen das eval_file "" s1 Hr)
      as (t & s2 & Hrun & Ht & Hhead)
  end.
  cbn [st_next] in Hrun, Ht. fold eval_doc in Hrun, Ht. fold gen_doc in Hrun, Ht.
  erewrite bind_known by exact Hrun.
  destruct (write_run (last_value "-w" opts None) gen_doc s2 Hr) as (s3 & Hw & Hdocs & _).
  rewrite Hw. exists t, (doc_of s2 gen_doc), s3. split.
  { unfold prepend. cbn [fst snd]. rewrite <- !app_assoc. reflexivity. }
  split; [done|]. split; [done|].
  unfold doc_of. by rewrite Hdocs.
Qed.

End Evaluation.

(** * Whole runs of sampling generation *)

Section KeepsDocs.
Context {D : Data} {W : World D}.

Lemma keeps_docs_ret {A} (a : A) : keeps_docs (mret a).
Proof. intros s o Ho. by split. Qed.

Lemma keeps_docs_lift {A} (r : exn + A) : keeps_docs (lift r).
Proof. intros s o Ho. by split. Qed.

Lemma keeps_docs_emit e : keeps_docs (emit e).
Proof. intros s o Ho. by split. Qed.

Lemma keeps_docs_call {A} e (r : proc -> A) : keeps_docs (call e r).
Proof. intros s o Ho. unfold call. destruct (fails e (st_proc s)); by split. Qed.

Lemma keeps_docs_get_doc o : keeps_docs (get_doc o).
Proof. intros s o' Ho. by split. Qed.

Lemma keeps_docs_new_doc d : keeps_docs (new_doc d).
Proof.
  intros s o Ho. unfold new_doc. rewrite new_obj_bind, set_doc_bind. cbn. split; [|lia].
  unfold doc_of. cbn. rewrite lookup_insert_ne; [done|lia].
Qed.

Lemma keeps_docs_bind {A B} (m : M A) (k : A -> M B) :
  keeps_docs m -> (forall a, keeps_docs (k a)) -> keeps_docs (m ≫= k).
Proof.
  intros Hm Hk s o Ho. rewrite bind_run. specialize (Hm s o Ho).
  destruct (m s) as [[t1 s1] [e|a]]; [done|]. cbn [fst snd] in Hm. destruct Hm as [Hd Hn].
  assert (Ho1 : (o < st_next s1)%nat) by lia. specialize (Hk a s1 o Ho1).
  destruct (k a s1) as [[t2 s2] r]. cbn [fst snd] in *. destruct Hk as [Hd2 Hn2].
  split; [congruence|lia].
Qed.

Lemma keeps_docs_foldM {A B} (f : A -> B -> M A) l :
  (forall a x, keeps_docs (f a x)) -> forall a, keeps_docs (foldM f a l).
Proof.
  intros Hf. induction l as [|x l IH]; intros a; cbn [foldM].
  - apply keeps_docs_ret.
  - apply keeps_docs_bind; [apply Hf|apply IH].
Qed.

End KeepsDocs.

Ltac keeps_docs_tac :=
  repeat first
    [ apply keeps_docs_ret
    | apply keeps_docs_lift
    | apply keeps_docs_emit
    | apply keeps_docs_call
    | apply keeps_docs_get_doc
    | apply keeps_docs_new_doc
    | apply keeps_docs_foldM; intros
    | apply keeps_docs_bind; [|intros]
    | match goal with
      | |- keeps_docs (let '(_, _) := ?x in _) => destruct x
      | |- keeps_docs (match ?x with _ => _ end) => destruct x
      end ].

Section SamplingRuns.
Context {D : Data} {W : World D}.

Lemma sample_gen_oracle_keeps language selector gen_doc num_to_generate
      (oracle_eval_file : option string) :
  keeps_docs
    match oracle_eval_file with
    | Some f => sample_gen_oracle language selector gen_doc num_to_generate f
    | None => mret tt
    end.
Proof.
  unfold sample_gen_oracle, read_ttrees_, log_info. keeps_docs_tac.
Qed.

Lemma sample_gen_oracle_quiet language selector gen_doc num_to_generate
      (oracle_eval_file : option string) :
  trace_all (fun e => is_generate e = false /\ is_write e = false)
    match oracle_eval_file with
    | Some f => sample_gen_oracle language selector gen_doc num_to_generate f
    | None => mret tt
    end.
Proof.
  unfold sample_gen_oracle, read_ttrees_, new_doc, log_info. trace_all_tac.
Qed.

(** C2: in every run of [sample_gen] on two files, with a number N of
    samples that fits a C long, the planner is called exactly N times for
    each dialogue act read from the second file, act after act in input
    order and always on the same new document; nothing else of the run
    generates.  The trees of one act form a group of N trees, the document
    receives the groups one after the other, and it is this document that
    [-w] writes. *)
Theorem sample_gen_generates_in_order args opts f_cand f_das num_to_generate s :
  reliable ->
  Getopt.getopt args "r:n:o:w:" = inr (opts, [f_cand; f_das]) ->
  values_convert ["-n"] [] opts = true ->
  match last_value "-n" opts None with
  | Some a => py_int a = Some num_to_generate
  | None => num_to_generate = 1
  end ->
  c_long num_to_generate = true ->
  let candgen := st_next s in
  let tgen := S candgen in
  let gen_doc := S tgen in
  let cfg : gmap string cfg_value :=
    <["ranker" := VObj candgen]> (<["candgen" := VObj candgen]> ∅) in
  let language := planner_language cfg in
  let selector := planner_selector cfg in
  let t0 := EvLogInfo "Initializing..." :: sampling_setup candgen f_cand
            ++ [EvLogInfo "Generating..."] in
  let das := read_das f_das (run_effects t0 (st_proc s)) in
  exists (groups : list (list TTree)) t_rest s' r,
    sample_gen args s
    = (t0 ++ EvReadDas f_das
          :: List.concat (map (fun da => replicate (Z.to_nat num_to_generate)
                                           (EvGenerateTree tgen da gen_doc false)) das)
          ++ t_rest,
       s', r)
    /\ Forall (fun e => is_generate e = false) t_rest
    /\ Forall2 (fun da group =>
                  List.length group = Z.to_nat num_to_generate
                  /\ (0 <= num_to_generate ->
                      Z.of_nat (List.length group) = num_to_generate)
                  /\ Forall (fun t => exists p, t = sample_tree tgen da p) group)
               das groups
    /\ (planner_appends language selector ->
        ttrees_from_doc (doc_of s' gen_doc) language selector
        = ttrees_from_doc Document_new language selector ++ List.concat groups)
    /\ (forall out d, EvWriteYAML out d ∈ t_rest -> d = doc_of s' gen_doc).
Proof.
  intros Hr Hg Hc Hn Hcl candgen tgen gen_doc cfg language selector t0 das.
  rewrite (sample_gen_start _ _ _ _ _ _ Hr Hg Hc Hn). cbn zeta.
  fold candgen. fold tgen. fold gen_doc. fold cfg. fold language. fold selector.
  fold t0. fold das.
  match goal with |- context [(sample_gen_generate tgen gen_doc das _ ≫= _) ?s1] =>
    destruct (sample_gen_generate_groups tgen gen_doc das num_to_generate
                language selector s1 Hr Hcl)
      as (s2 & groups & Hrun & Hgroups & Happ & _ & Hnext)
  end.
  erewrite bind_known by exact Hrun. cbn [st_next] in Hnext.
  assert (Hdoc2 : planner_appends language selector ->
                  ttrees_from_doc (doc_of s2 gen_doc) language selector
                  = ttrees_from_doc Document_new language selector ++ List.concat groups).
  { intros Hp. rewrite (Happ Hp). unfold doc_of. cbn [st_docs].
    by rewrite lookup_insert_eq. }
  assert (Hgroups' : Forall2 (fun da group =>
                  List.length group = Z.to_nat num_to_generate
                  /\ (0 <= num_to_generate ->
                      Z.of_nat (List.length group) = num_to_generate)
                  /\ Forall (fun t => exists p, t = sample_tree tgen da p) group)
               das groups).
  { eapply Forall2_impl; [exact Hgroups|]. intros da group [Hl Ha].
    split; [done|]. split; [lia|done]. }
  rewrite bind_run.
  pose proof (sample_gen_oracle_quiet language selector gen_doc num_to_generate
                (last_value "-o" opts None) s2) as Hquiet.
  assert (Hlt : (gen_doc < st_next s2)%nat) by lia.
  pose proof (sample_gen_oracle_keeps language selector gen_doc num_to_generate
                (last_value "-o" opts None) s2 gen_doc Hlt) as [Hkeep _].
  destruct (match last_value "-o" opts None with
            | Some f => sample_gen_oracle language selector gen_doc num_to_generate f
            | None => mret tt
            end s2) as [[tA sA] [e|[]]].
  - cbn [fst snd] in *. exists groups, tA, sA, (inl e). split.
    { unfold prepend. cbn [fst snd]. rewrite <- !app_assoc. reflexivity. }
    split; [eapply Forall_impl; [exact Hquiet|]; by intros ? [? ?]|].
    split; [done|]. split; [by rewrite Hkeep|].
    intros out d Hin. rewrite Forall_forall in Hquiet.
    by destruct (Hquiet _ Hin) as [_ ?].
  - cbn [fst snd] in *.
    destruct (write_run (last_value "-w" opts None) gen_doc sA Hr) as (s3 & Hw & Hdocs & _).
    rewrite Hw.
    assert (Hd3 : doc_of s3 gen_doc = doc_of sA gen_doc) by (unfold doc_of; by rewrite Hdocs).
    exists groups, (tA ++ write_events (last_value "-w" opts None) (doc_of sA gen_doc)),
      s3, (inr tt). split.
    { unfold prepend. cbn [fst snd]. rewrite <- !app_assoc. reflexivity. }
    split.
    { apply Forall_app. split; [eapply Forall_impl; [exact Hquiet|]; by intros ? [? ?]|].
      unfold write_events. destruct (last_value "-w" opts None); repeat constructor. }
    split; [done|]. split; [by rewrite Hd3, Hkeep|].
    intros out d [Hin|Hin]%elem_of_app.
    + rewrite Forall_forall in Hquiet. by destruct (Hquiet _ Hin) as [_ ?].
    + rewrite Hd3. unfold write_events in Hin. destruct (last_value "-w" opts None); [|inversion Hin].
      apply elem_of_cons in Hin as [Hin|Hin]; [done|].
      apply list_elem_of_singleton in Hin. by inversion Hin.
Qed.

End SamplingRuns.

(** * Oracle evaluation in a run of [sample_gen] *)

Section OracleRuns.
Context {D : Data} {W : World D}.

Lemma concat_uniform_length {A} (n : nat) (groups : list (list A)) :
  Forall (fun g => List.length g = n) groups ->
  List.length (List.concat groups) = (List.length groups * n)%nat.
Proof.
  induction 1 as [|g groups Hg _ IH]; [done|].
  cbn [List.concat]. rewrite length_app, IH, Hg. simpl. lia.
Qed.

Lemma concat_uniform_chunk {A} (n : nat) (groups : list (list A)) :
  Forall (fun g => List.length g = n) groups ->
  forall i group, groups !! i = Some group ->
    take n (drop (i * n) (List.concat groups)) = group.
Proof.
  induction 1 as [|g groups Hg _ IH]; intros i group Hi; [done|].
  cbn [List.concat]. destruct i as [|i].
  - inversion Hi; subst. rewrite Nat.mul_0_l, drop_0. by rewrite take_app_length.
  - cbn [lookup list_lookup] in Hi. subst n.
    replace (S i * List.length g)%nat with (List.length g + i * List.length g)%nat by lia.
    rewrite <- drop_drop, drop_app_length. by apply IH.
Qed.

Lemma score_key_scored gold_tree sample :
  score_key (scored gold_tree sample) = f1_of gold_tree sample.
Proof. unfold score_key, scored, f1_of. by destruct (corr_pred_gold _ _) as [[c p] g]. Qed.

Lemma oracle_best_of_choice gold_tree samples best :
  oracle_choice gold_tree samples best -> oracle_best gold_tree samples (counts_of best).
Proof.
  intros (j & sample & Hj & -> & Hmax & Hfirst). exists j, sample.
  split; [done|]. split.
  { unfold counts_of, scored. by destruct (corr_pred_gold _ _) as [[c p] g]. }
  split.
  - intros sample' Hin. specialize (Hmax sample' Hin). by rewrite !score_key_scored in Hmax.
  - intros j' sample' Hlt Hs. specialize (Hfirst j' sample' Hlt Hs).
    by rewrite !score_key_scored in Hfirst.
Qed.

Lemma sum_counts_total (bests : list (PyFloat * Z * Z * Z)) :
  sum_counts (map counts_of bests)
  = (total count_c bests, total count_p bests, total count_g bests).
Proof.
  induction bests as [|[[[f c] p] g] bests IH]; [done|].
  cbn [map sum_counts foldr]. unfold sum_counts in IH. rewrite IH. reflexivity.
Qed.

(** C1: in a run of [sample_gen] with [-o] and N > 0 samples per dialogue
    act, the oracle block compares the i-th gold tree of the [-o] file with
    the N trees generated for the i-th act, takes the counts that
    [corr_pred_gold] gives for the tree whose [f1_from_counts] no other of
    the N exceeds (the first such), adds these counts over all acts, and
    logs precision, recall and F1 computed once, from the three sums. *)
Theorem oracle_picks_best_and_sums args opts f_cand f_das f num_to_generate s :
  reliable -> float_order ->
  Getopt.getopt args "r:n:o:w:" = inr (opts, [f_cand; f_das]) ->
  values_convert ["-n"] [] opts = true ->
  match last_value "-n" opts None with
  | Some a => py_int a = Some num_to_generate
  | None => num_to_generate = 1
  end ->
  last_value "-o" opts None = Some f ->
  0 < num_to_generate -> c_long num_to_generate = true -> is_ascii f = true ->
  let candgen := st_next s in
  let tgen := S candgen in
  let gen_doc := S tgen in
  let cfg : gmap string cfg_value :=
    <["ranker" := VObj candgen]> (<["candgen" := VObj candgen]> ∅) in
  let language := planner_language cfg in
  let selector := planner_selector cfg in
  planner_appends language selector ->
  ttrees_from_doc Document_new language selector = [] ->
  let t0 := EvLogInfo "Initializing..." :: sampling_setup candgen f_cand
            ++ [EvLogInfo "Generating..."] in
  let das := read_das f_das (run_effects t0 (st_proc s)) in
  let t_gen := List.concat (map (fun da => replicate (Z.to_nat num_to_generate)
                                             (EvGenerateTree tgen da gen_doc false)) das) in
  let e1 := EvLogInfo "Evaluating oracle F1..." in
  let e2 := EvLogInfo ("Loading gold data from " +:+ f) in
  let gold_trees :=
    ttrees_from_doc
      (read_ttrees f (run_effects (t0 ++ EvReadDas f_das :: t_gen ++ [e1; e2]) (st_proc s)))
      language selector in
  exists (groups : list (list TTree)) (bests : list (Z * Z * Z)) d s',
    sample_gen args s
    = (t0 ++ EvReadDas f_das :: t_gen
       ++ [e1; e2; EvReadTTrees f; EvLogInfo "Gold data loaded.";
           EvLogInfo (fmt3 "Oracle Precision: " "%.6f" ", Recall: " "%.6f" ", F1: " "%.6f"
                           (let '(correct, predicted, gold) := sum_counts bests in
                            p_r_f1_from_counts correct predicted gold))]
       ++ write_events (last_value "-w" opts None) d,
       s', inr tt)
    /\ Forall2 (fun da group =>
                  List.length group = Z.to_nat num_to_generate
                  /\ Forall (fun t => exists p, t = sample_tree tgen da p) group)
               das groups
    /\ ttrees_from_doc d language selector = List.concat groups
    /\ List.length bests = (List.length gold_trees `min` List.length groups)%nat
    /\ (forall i gold_tree group,
          gold_trees !! i = Some gold_tree -> groups !! i = Some group ->
          exists counts, bests !! i = Some counts /\ oracle_best gold_tree group counts).
Proof.
  intros Hr Ho Hg Hc Hn Hof Hpos Hcl Hascii candgen tgen gen_doc cfg language selector
    Hp Hnew t0 das t_gen e1 e2 gold_trees.
  rewrite (sample_gen_start _ _ _ _ _ _ Hr Hg Hc Hn). cbn zeta.
  fold candgen. fold tgen. fold gen_doc. fold cfg. fold language. fold selector.
  fold t0. fold das. rewrite Hof.
  match goal with |- context [(sample_gen_generate tgen gen_doc das _ ≫= _) ?s1] =>
    destruct (sample_gen_generate_groups tgen gen_doc das num_to_generate
                language selector s1 Hr Hcl)
      as (s2 & groups & Hrun & Hgroups & Happ & Hproc & Hnext)
  end.
  cbn zeta in Hrun, Hproc. fold t_gen in Hrun, Hproc.
  cbn [st_next st_proc] in Hnext, Hproc.
  erewrite bind_known by exact Hrun.
  assert (Htrees : ttrees_from_doc (doc_of s2 gen_doc) language selector = List.concat groups).
  { rewrite (Happ Hp). unfold doc_of. cbn [st_docs]. rewrite lookup_insert_eq.
    cbn [default from_option id]. by rewrite Hnew. }
  assert (Hlens : Forall (fun g : list TTree => List.length g = Z.to_nat num_to_generate)
                         groups).
  { clear -Hgroups. induction Hgroups as [|? ? ? ? [? _]]; by constructor. }
  assert (Hne : gen_doc <> st_next s2) by lia.
  destruct (sample_gen_oracle_run language selector gen_doc num_to_generate f s2
              Hr Ho Hpos Hcl Hascii Hne) as (bests & s3 & Horacle & Hsome & Hchoice).
  cbn zeta in Horacle, Hsome, Hchoice. rewrite Htrees in Hsome, Hchoice.
  assert (Hpg : effect e2 (effect e1 (st_proc s2))
                = run_effects (t0 ++ EvReadDas f_das :: t_gen ++ [e1; e2]) (st_proc s)).
  { rewrite Hproc. unfold run_effects.
    replace (t0 ++ EvReadDas f_das :: t_gen ++ [e1; e2])
      with ((t0 ++ [EvReadDas f_das]) ++ t_gen ++ [e1; e2])
      by (by rewrite <- app_assoc).
    by rewrite !foldl_app. }
  fold e1 e2 in Horacle, Hsome, Hchoice. rewrite Hpg in Hsome, Hchoice.
  fold gold_trees in Hsome, Hchoice.
  cbn iota. erewrite bind_known by exact Horacle.
  pose proof (sample_gen_oracle_keeps language selector gen_doc num_to_generate (Some f)
                s2 gen_doc ltac:(lia)) as [Hkeep _].
  rewrite Horacle in Hkeep. cbn [fst snd] in Hkeep.
  destruct (write_run (last_value "-w" opts None) gen_doc s3 Hr) as (s4 & Hw & Hdocs & _).
  rewrite Hw.
  exists groups, (map counts_of bests), (doc_of s3 gen_doc), s4.
  assert (Hlen : forall i, (i * Z.to_nat num_to_generate
                            < List.length (List.concat groups))%nat
                           <-> (i < List.length groups)%nat).
  { intros i. rewrite (concat_uniform_length _ _ Hlens). split; [nia|].
    intros Hi. apply Nat.mul_lt_mono_pos_r; lia. }
  split.
  { rewrite sum_counts_total. unfold prepend. cbn [fst snd].
    rewrite <- !app_assoc. cbn [app]. rewrite <- ?app_assoc. reflexivity. }
  split; [exact Hgroups|]. split; [by rewrite Hkeep|]. split.
  - rewrite length_map. apply Nat.le_antisymm.
    + destruct bests as [|b0 bests'] eqn:Eb using rev_ind; [simpl; lia|]. clear IHbests'.
      assert (Hlast : is_Some ((bests' ++ [b0]) !! List.length bests')).
      { rewrite lookup_app_r, Nat.sub_diag by lia. by eexists. }
      apply Hsome in Hlast as [Hgold Hlt]. apply Hlen in Hlt.
      apply lookup_lt_is_Some in Hgold. rewrite length_app. simpl. lia.
    + destruct (decide (List.length gold_trees `min` List.length groups
                        <= List.length bests)%nat) as [|Hgt]; [done|].
      assert (Hi : is_Some (bests !! List.length bests)).
      { apply Hsome. split; [apply lookup_lt_is_Some; lia|apply Hlen; lia]. }
      apply lookup_lt_is_Some in Hi. lia.
  - intros i gold_tree group Hgold Hgroup.
    assert (Hb : is_Some (bests !! i)).
    { apply Hsome. split; [by eexists|]. apply Hlen. by eapply lookup_lt_Some. }
    destruct Hb as [best Hb]. exists (counts_of best). split.
    { by rewrite list_lookup_fmap, Hb. }
    apply oracle_best_of_choice. specialize (Hchoice i gold_tree best Hgold Hb).
    by rewrite (concat_uniform_chunk _ _ Hlens i group Hgroup) in Hchoice.
Qed.

End OracleRuns.

(** * The list analysis in a run of [asearch_gen] *)

Section AnalysisRuns.
Context {D : Data} {W : World D}.

Lemma analysis_events_cons tgen gen_doc k (pair : DA * TreeData) pairs :
  analysis_events tgen gen_doc k (pair :: pairs)
  = [EvLogDebug (nl +:+ nl +:+ "TREE No. " +:+ fmt_03d k);
     EvGenerateTree tgen pair.1 gen_doc true]
    ++ analysis_events tgen gen_doc (S k) pairs.
Proof.
  unfold analysis_events. cbn [imap List.concat]. rewrite Nat.add_0_r. f_equal. f_equal.
  apply imap_ext. intros i x _. cbn. by rewrite Nat.add_succ_r.
Qed.

(** The analysis loop call by call: [docs] holds the content of the
    document generated into before each call and after the last one. *)
Lemma asearch_gen_analyze_calls tgen gen_doc (Hr : reliable) pairs :
  forall k lists_analyzer s,
  exists news (docs : list Document) s',
    foldM (asearch_gen_analyze_step tgen gen_doc) lists_analyzer
          (imap (fun i x => ((k + i)%nat, x)) pairs) s
    = (analysis_events tgen gen_doc k pairs, s', inr (lists_analyzer ++ news))
    /\ st_proc s' = run_effects (analysis_events tgen gen_doc k pairs) (st_proc s)
    /\ st_next s' = st_next s
    /\ (forall o, o <> gen_doc -> doc_of s' o = doc_of s o)
    /\ List.length news = List.length pairs
    /\ docs !! 0%nat = Some (doc_of s gen_doc)
    /\ docs !! List.length pairs = Some (doc_of s' gen_doc)
    /\ (forall i da gold_tree d,
          pairs !! i = Some (da, gold_tree) -> docs !! i = Some d ->
          let p := run_effects
                     (analysis_events tgen gen_doc k (take i pairs)
                      ++ [EvLogDebug (nl +:+ nl +:+ "TREE No. " +:+ fmt_03d (k + i))])
                     (st_proc s) in
          let r := asearch_generate tgen da d true p in
          news !! i = Some (gold_tree, r.2.1, r.2.2) /\ docs !! S i = Some r.1).
Proof.
  induction pairs as [|[da gold_tree] pairs IH]; intros k acc s.
  - exists [], [doc_of s gen_doc], s. cbn. rewrite app_nil_r. repeat split; done.
  - cbn [imap foldM asearch_gen_analyze_step]. unfold log_debug.
    rewrite bind_assoc, emit_bind, !bind_assoc.
    erewrite bind_known by (by apply asearch_generate_tree_run).
    cbn [st_proc with_proc st_docs st_next].
    set (e := EvLogDebug (nl +:+ nl +:+ "TREE No. " +:+ fmt_03d (k + 0))).
    set (p1 := effect e (st_proc s)).
    change (doc_of (with_proc s p1) gen_doc) with (doc_of s gen_doc).
    destruct (asearch_generate tgen da (doc_of s gen_doc) true p1)
      as [d' [open_list close_list]] eqn:Er.
    cbn [fst snd]. rewrite ret_bind.
    rewrite (imap_ext _ (fun i x => ((S k + i)%nat, x))) by (intros; cbn; f_equal; lia).
    match goal with |- context [foldM _ ?a _ ?s1] =>
      destruct (IH (S k) a s1)
        as (news & docs & s' & Hrun & Hproc & Hnext & Hdocs & Hlen & Hd0 & Hdl & Hcalls) end.
    rewrite Hrun. cbn [st_proc st_next] in Hproc, Hnext.
    unfold doc_of in Hd0 at 1. cbn [st_docs] in Hd0. rewrite lookup_insert_eq in Hd0.
    cbn [default from_option id] in Hd0.
    exists ((gold_tree, open_list, close_list) :: news), (doc_of s gen_doc :: docs), s'.
    split.
    { rewrite analysis_events_cons. unfold prepend, lists_analyzer_append.
      cbn [fst snd app]. subst e. rewrite Nat.add_0_r, <- app_assoc. reflexivity. }
    split.
    { rewrite Hproc, analysis_events_cons. unfold run_effects. rewrite foldl_app.
      subst p1 e. cbn [foldl fst]. by rewrite Nat.add_0_r. }
    split; [done|]. split.
    { intros o Hne. rewrite Hdocs by done. unfold doc_of. cbn [st_docs].
      by rewrite lookup_insert_ne. }
    split; [simpl; lia|]. split; [done|]. split; [exact Hdl|].
    intros [|i] da' gold' d Hi Hd.
    + cbn [lookup list_lookup] in Hi, Hd. inversion Hi; inversion Hd; subst.
      assert (Hp0 : run_effects
                      (analysis_events tgen gen_doc k (take 0 ((da', gold') :: pairs))
                       ++ [EvLogDebug (nl +:+ nl +:+ "TREE No. " +:+ fmt_03d (k + 0))])
                      (st_proc s) = p1) by reflexivity.
      cbn zeta. rewrite Hp0, Er. split; [done|]. exact Hd0.
    + cbn [lookup list_lookup] in Hi, Hd.
      destruct (Hcalls i da' gold' d Hi Hd) as [Hn Hs]. cbn zeta in Hn, Hs.
      cbn zeta. cbn [take]. rewrite analysis_events_cons.
      assert (Hp : run_effects
                     (([EvLogDebug (nl +:+ nl +:+ "TREE No. " +:+ fmt_03d k);
                        EvGenerateTree tgen (da, gold_tree).1 gen_doc true]
                       ++ analysis_events tgen gen_doc (S k) (take i pairs))
                      ++ [EvLogDebug (nl +:+ nl +:+ "TREE No. " +:+ fmt_03d (k + S i))])
                     (st_proc s)
                   = run_effects
                       (analysis_events tgen gen_doc (S k) (take i pairs)
                        ++ [EvLogDebug (nl +:+ nl +:+ "TREE No. " +:+ fmt_03d (S k + i))])
                       (effect (EvGenerateTree tgen da gen_doc true) p1)).
      { unfold run_effects. rewrite <- !app_assoc, foldl_app. subst p1 e.
        cbn [foldl fst]. by rewrite Nat.add_0_r, Nat.add_succ_r. }
      rewrite Hp. split; [exact Hn|exact Hs].
Qed.

(** The evaluation block up to the statistics line, call by call. *)
Lemma asearch_gen_eval_calls cfg tgen das eval_file eval_selector s :
  reliable ->
  let eval_d := read_ttrees eval_file (st_proc s) in
  let eval_doc := st_next s in
  let fresh := String.eqb eval_selector (planner_selector cfg) in
  let gen_doc := if fresh then S eval_doc else eval_doc in
  let pairs := zip das (trees_from_doc eval_d (planner_language cfg) eval_selector) in
  let p_loop := effect (EvReadTTrees eval_file) (st_proc s) in
  exists lists_analyzer (docs : list Document) t_rest s',
    asearch_gen_eval cfg tgen das eval_file eval_selector s
    = (EvReadTTrees eval_file
         :: analysis_events tgen gen_doc 0 pairs
         ++ EvLogInfo (fmt3 "Gold tree BEST: " "%.4f" ", on CLOSE: " "%.4f"
                            ", on ANY list: " "%4f"
                            (lists_analyzer_stats lists_analyzer))
         :: t_rest,
       s', inr gen_doc)
    /\ List.length lists_analyzer = List.length pairs
    /\ docs !! 0%nat = Some (if fresh then Document_new else eval_d)
    /\ (forall i da gold_tree d,
          pairs !! i = Some (da, gold_tree) -> docs !! i = Some d ->
          let p := run_effects
                     (analysis_events tgen gen_doc 0 (take i pairs)
                      ++ [EvLogDebug (nl +:+ nl +:+ "TREE No. " +:+ fmt_03d i)])
                     p_loop in
          let r := asearch_generate tgen da d true p in
          lists_analyzer !! i = Some (gold_tree, r.2.1, r.2.2) /\ docs !! S i = Some r.1)
    /\ Forall (fun e => is_generate e = false) t_rest.
Proof.
  intros Hr eval_d eval_doc fresh gen_doc pairs p_loop.
  unfold asearch_gen_eval, read_ttrees_, new_doc, Document_, new_doc.
  rewrite !bind_assoc, (call_bind _ _ _ _ Hr). fold eval_d.
  rewrite !bind_assoc, new_obj_bind, !bind_assoc, set_doc_bind, ret_bind.
  cbn [st_proc st_docs st_next with_proc]. fold eval_doc. fold p_loop.
  assert (Htail : forall g s1,
    st_proc s1 = p_loop -> doc_of s1 eval_doc = eval_d ->
    exists lists_analyzer (docs : list Document) t_rest s',
      (eval_d ← get_doc eval_doc;
       lists_analyzer ←
         asearch_gen_analyze tgen g
           (zip das (trees_from_doc eval_d (planner_language cfg) eval_selector));
       log_info (fmt3 "Gold tree BEST: " "%.4f" ", on CLOSE: " "%.4f" ", on ANY list: " "%4f"
                      (lists_analyzer_stats lists_analyzer));;
       asearch_gen_fscores (planner_language cfg) (planner_selector cfg) eval_selector
                           eval_doc g;;
       mret g) s1
      = (analysis_events tgen g 0 pairs
         ++ EvLogInfo (fmt3 "Gold tree BEST: " "%.4f" ", on CLOSE: " "%.4f"
                            ", on ANY list: " "%4f"
                            (lists_analyzer_stats lists_analyzer))
         :: t_rest, s', inr g)
      /\ List.length lists_analyzer = List.length pairs
      /\ docs !! 0%nat = Some (doc_of s1 g)
      /\ (forall i da gold_tree d,
            pairs !! i = Some (da, gold_tree) -> docs !! i = Some d ->
            let p := run_effects
                       (analysis_events tgen g 0 (take i pairs)
                        ++ [EvLogDebug (nl +:+ nl +:+ "TREE No. " +:+ fmt_03d i)])
                       p_loop in
            let r := asearch_generate tgen da d true p in
            lists_analyzer !! i = Some (gold_tree, r.2.1, r.2.2) /\ docs !! S i = Some r.1)
      /\ Forall (fun e => is_generate e = false) t_rest).
  { intros g s1 Hp1 Hd1. rewrite get_doc_bind, Hd1. fold pairs.
    destruct (asearch_gen_analyze_calls tgen g Hr pairs 0%nat [] s1)
      as (news & docs & s2 & Hrun & _ & _ & _ & Hlen & Hd0 & _ & Hcalls).
    unfold asearch_gen_analyze, enumerate, ASearchListsAnalyzer.
    erewrite bind_known by exact Hrun. cbn [app]. unfold log_info. rewrite emit_bind.
    match goal with |- context [(asearch_gen_fscores ?l ?sel ?es eval_doc g ≫= _) ?s3] =>
      destruct (asearch_gen_fscores_ok l sel es eval_doc g Hr s3)
        as (t3 & s4 & [] & Hrun3 & Hall3)
    end.
    erewrite bind_known by exact Hrun3.
    exists news, docs, t3, s4. split.
    { unfold prepend, mret, M_ret. cbn. by rewrite app_nil_r. }
    split; [done|]. split; [done|]. split; [|done].
    intros i da gold_tree d Hi Hd. rewrite <- Hp1. exact (Hcalls i da gold_tree d Hi Hd). }
  subst gen_doc fresh. destruct (String.eqb eval_selector (planner_selector cfg)).
  - rewrite !bind_assoc, new_obj_bind, !bind_assoc, set_doc_bind, ret_bind.
    cbn [st_proc st_docs st_next].
    match goal with |- context [prepend _ (_ ?s1)] =>
      destruct (Htail (S eval_doc) s1) as (la & docs & t & s' & -> & Hlen & Hd0 & Hc & Ht) end.
    { reflexivity. }
    { unfold doc_of. cbn [st_docs]. rewrite lookup_insert_ne by lia.
      by rewrite lookup_insert_eq. }
    exists la, docs, t, s'. split; [done|]. split; [done|]. split; [|done].
    rewrite Hd0. unfold doc_of. cbn [st_docs]. by rewrite lookup_insert_eq.
  - rewrite ret_bind.
    match goal with |- context [prepend _ (_ ?s1)] =>
      destruct (Htail eval_doc s1) as (la & docs & t & s' & -> & Hlen & Hd0 & Hc & Ht) end.
    { reflexivity. }
    { unfold doc_of. cbn [st_docs]. by rewrite lookup_insert_eq. }
    exists la, docs, t, s'. split; [done|]. split; [done|]. split; [|done].
    rewrite Hd0. unfold doc_of. cbn [st_docs]. by rewrite lookup_insert_eq.
Qed.

(** C7: in a run of [asearch_gen] with [-e], the dialogue acts are paired
    with the gold trees of the evaluation file in input order; for every
    pair, in that order, [generate_tree] is called once with
    [return_lists=True] on the document generated into, and the analyzer
    receives the gold tree together with the open and the close list that
    this very call returned; after the last pair the three statistics of
    the analyzer are logged in one line, and nothing generates
    afterwards. *)
Theorem asearch_gen_eval_analyzes args opts f_cand f_rank f_das eval_file s :
  reliable ->
  Getopt.getopt args "e:d:w:c:" = inr (opts, [f_cand; f_rank; f_das]) ->
  last_value "-e" opts None = Some eval_file ->
  let p0 := run_effects (debug_events opts) (st_proc s) in
  let candgen := st_next s in
  let tgen := S (S candgen) in
  let cfg_file := last_value "-c" opts None in
  let t0 := asearch_load_events candgen f_cand f_rank in
  let cfg := asearch_planner_cfg candgen (asearch_loaded_cfg cfg_file (run_effects t0 p0)) in
  let t1 := t0 ++ asearch_cfg_events cfg_file
            ++ [EvNewASearchPlanner tgen cfg; EvLogInfo "Generating..."] in
  let das := read_das f_das (run_effects t1 p0) in
  let eval_d := read_ttrees eval_file (run_effects (t1 ++ [EvReadDas f_das]) p0) in
  let pairs := zip das (trees_from_doc eval_d (planner_language cfg) "") in
  let eval_doc := S tgen in
  let fresh := String.eqb "" (planner_selector cfg) in
  let gen_doc := if fresh then S eval_doc else eval_doc in
  let p_loop := run_effects (t1 ++ [EvReadDas f_das; EvReadTTrees eval_file]) p0 in
  exists lists_analyzer (docs : list Document) t_rest s',
    asearch_gen args s
    = (debug_events opts ++ t1
       ++ EvReadDas f_das :: EvReadTTrees eval_file
       :: analysis_events tgen gen_doc 0 pairs
       ++ EvLogInfo (fmt3 "Gold tree BEST: " "%.4f" ", on CLOSE: " "%.4f"
                          ", on ANY list: " "%4f"
                          (lists_analyzer_stats lists_analyzer))
       :: t_rest,
       s', inr tt)
    /\ List.length lists_analyzer = List.length pairs
    /\ docs !! 0%nat = Some (if fresh then Document_new else eval_d)
    /\ (forall i da gold_tree d,
          pairs !! i = Some (da, gold_tree) -> docs !! i = Some d ->
          let p := run_effects
                     (analysis_events tgen gen_doc 0 (take i pairs)
                      ++ [EvLogDebug (nl +:+ nl +:+ "TREE No. " +:+ fmt_03d i)])
                     p_loop in
          let r := asearch_generate tgen da d true p in
          lists_analyzer !! i = Some (gold_tree, r.2.1, r.2.2) /\ docs !! S i = Some r.1)
    /\ Forall (fun e => is_generate e = false) t_rest.
Proof.
  intros Hr Hg He p0 candgen tgen cfg_file t0 cfg t1 das eval_d pairs eval_doc fresh
    gen_doc p_loop.
  rewrite (asearch_gen_start _ _ _ _ _ _ Hr Hg). cbn zeta.
  fold p0. fold candgen. fold tgen. fold cfg_file. fold t0. fold cfg. fold t1. fold das.
  rewrite He.
  match goal with |- context [(asearch_gen_eval cfg tgen das eval_file "" ≫= _) ?s1] =>
    destruct (asearch_gen_eval_calls cfg tgen das eval_file "" s1 Hr)
      as (la & docs & t & s2 & Hrun & Hlen & Hd0 & Hcalls & Ht)
  end.
  cbn zeta in Hrun, Hlen, Hd0, Hcalls. cbn [st_next st_proc] in Hrun, Hlen, Hd0, Hcalls.
  fold eval_d in Hrun, Hlen, Hd0, Hcalls. fold pairs in Hrun, Hlen, Hcalls.
  fold eval_doc in Hrun, Hcalls. fold fresh in Hrun, Hd0, Hcalls.
  fold gen_doc in Hrun, Hcalls.
  assert (Hpl : effect (EvReadTTrees eval_file) (run_effects (t1 ++ [EvReadDas f_das]) p0)
                = p_loop).
  { unfold p_loop, run_effects.
    replace (t1 ++ [EvReadDas f_das; EvReadTTrees eval_file])
      with ((t1 ++ [EvReadDas f_das]) ++ [EvReadTTrees eval_file])
      by (by rewrite <- app_assoc).
    by rewrite (foldl_app _ (t1 ++ [EvReadDas f_das])). }
  rewrite Hpl in Hcalls.
  erewrite bind_known by exact Hrun.
  destruct (write_run (last_value "-w" opts None) gen_doc s2 Hr) as (s3 & Hw & _ & _).
  rewrite Hw.
  exists la, docs,
    (t ++ write_events (last_value "-w" opts None) (doc_of s2 gen_doc)), s3.
  split.
  { unfold prepend. cbn [fst snd]. rewrite <- !app_assoc. cbn [app].
    rewrite <- ?app_assoc. reflexivity. }
  split; [done|]. split; [done|]. split; [exact Hcalls|].
  apply Forall_app. split; [done|].
  unfold write_events. destruct (last_value "-w" opts None); repeat constructor.
Qed.

End AnalysisRuns.

(** * Seeding *)

Section Seeding.
Context {D : Data} {W : World D}.



End Seeding.

(** ** Worked examples in the small world *)

#[local] Existing Instance example_world.

Lemma example_reliable : reliable (W := example_world).
Proof. intros e p. reflexivity. Qed.

Lemma example_float_order : float_order (W := example_world).
Proof.
  split; cbn; intros.
  - rewrite Z.gtb_ltb. apply Z.ltb_irrefl.
  - rewrite Z.gtb_ltb in *. apply Z.ltb_lt. apply Z.ltb_lt in H, H0. lia.
  - rewrite !Z.gtb_ltb in *. apply Z.ltb_lt in H.
    destruct (Z.ltb_spec y x); [by left|right]. apply Z.ltb_lt. lia.
Qed.

Lemma example_planner_appends : planner_appends (W := example_world) "en" "".
Proof. intros tgen da d p. reflexivity. Qed.

Example getopt_options_then_files :
  Getopt.getopt ["-n"; "5"; "-omodel"; "a"; "-w"; "b"] "r:n:o:w:"
  = inr ([("-n", "5"); ("-o", "model")], ["a"; "-w"; "b"]).
Proof. reflexivity. Qed.

Example getopt_terminator :
  Getopt.getopt ["-w"; "out"; "--"; "-x"] "e:d:w:c:" = inr ([("-w", "out")], ["-x"]).
Proof. reflexivity. Qed.

Example getopt_single_dash :
  Getopt.getopt ["-"; "-n"] "r:n:o:w:" = inr ([], ["-"; "-n"]).
Proof. reflexivity. Qed.

Example getopt_missing_argument :
  Getopt.getopt ["-n"] "r:n:o:w:" = inl (GetoptError "option -n requires argument" "n").
Proof. reflexivity. Qed.

Example getopt_long_option :
  Getopt.getopt ["--help=1"] "p:" = inl (GetoptError "option --help not recognized" "help").
Proof. reflexivity. Qed.

Example os_path_split_examples :
  os_path_split "/a/b/cfg.py" = ("/a/b", "cfg.py")
  /\ os_path_split "cfg.py" = ("", "cfg.py")
  /\ os_path_split "//x" = ("//", "x")
  /\ os_path_split "a//" = ("a", "").
Proof. repeat split; reflexivity. Qed.

Example fmt_03d_examples :
  fmt_03d 7 = "007" /\ fmt_03d 42 = "042" /\ fmt_03d 1234 = "1234" /\ fmt_03d 0 = "000".
Proof. repeat split; reflexivity. Qed.

Example chunk_list_examples :
  chunk_list [1; 2; 3; 4; 5] 2 = inr [[1; 2]; [3; 4]; [5]]
  /\ chunk_list [1; 2] (-1) = inr []
  /\ chunk_list [1; 2] 0 = inl (ValueError "xrange() arg 3 must not be zero" "").
Proof. repeat split; reflexivity. Qed.

(** A run of sampling generation with oracle evaluation and output. *)
Example run_random_gen :
  (main (W := example_world)
        ["tgen.py"; "random_gen"; "-n"; "2"; "-o"; "gold"; "-w"; "out"; "model"; "das"]
        example_start).1.1
  = [EvRandomSeed 1206;
     EvLogInfo "Running on CPython version 2.7.18";
     EvLogInfo "Initializing...";
     EvNewCandgen 0%nat ∅;
     EvCandgenLoad 0%nat "model";
     EvNewSamplingPlanner 1%nat (<["ranker" := VObj 0%nat]> (<["candgen" := VObj 0%nat]> ∅));
     EvLogInfo "Generating...";
     EvReadDas "das";
     EvGenerateTree 1%nat "ab" 2%nat false;
     EvGenerateTree 1%nat "ab" 2%nat false;
     EvGenerateTree 1%nat "cd" 2%nat false;
     EvGenerateTree 1%nat "cd" 2%nat false;
     EvLogInfo "Evaluating oracle F1...";
     EvLogInfo "Loading gold data from gold";
     EvReadTTrees "gold";
     EvLogInfo "Gold data loaded.";
     EvLogInfo "Oracle Precision: 416, Recall: 833, F1: 555";
     EvLogInfo "Writing output...";
     EvWriteYAML "out" ["ab1206"; "ab1207"; "cd1208"; "cd1209"];
     EvLogInfo "Done."].
Proof. vm_compute. reflexivity. Qed.

(** A run of A* generation with an evaluation file. *)
Example run_asearch_gen :
  (main (W := example_world)
        ["tgen.py"; "asearch_gen"; "-e"; "gold"; "model"; "rank"; "das"]
        example_start).1.1
  = [EvRandomSeed 1206;
     EvLogInfo "Running on CPython version 2.7.18";
     EvLogInfo "Initializing...";
     EvNewCandgen 0%nat ∅;
     EvCandgenLoad 0%nat "model";
     EvRankerLoad 1%nat "rank";
     EvNewASearchPlanner 2%nat (<["ranker" := VObj 1%nat]> (<["candgen" := VObj 0%nat]> ∅));
     EvLogInfo "Generating...";
     EvReadDas "das";
     EvReadTTrees "gold";
     EvLogDebug (nl +:+ nl +:+ "TREE No. 000");
     EvGenerateTree 2%nat "ab" 4%nat true;
     EvLogDebug (nl +:+ nl +:+ "TREE No. 001");
     EvGenerateTree 2%nat "cd" 4%nat true;
     EvLogInfo "Gold tree BEST: 2, on CLOSE: 0, on ANY list: 0";
     EvLogInfo "Evaluating...";
     EvAddBundleText 3%nat 0 "en" "Xscore" "P: 1000 R: 666 F1: 800";
     EvAddBundleText 3%nat 1 "en" "Xscore" "P: 1000 R: 666 F1: 800";
     EvLogInfo "NODE precision: 2, Recall: 0, F1: 0";
     EvLogInfo "DEP  precision: 2, Recall: 0, F1: 0";
     EvLogInfo "Done."].
Proof. vm_compute. reflexivity. Qed.

(** C5, as stated, fails: with [-p x] and no file argument, [candgen_train]
    leaves through the ValueError of [int], not through [sys.exit]. *)
Lemma wrong_file_count_counterexample :
  Getopt.getopt ["-p"; "x"] "p:" = inr ([("-p", "x")], [])
  /\ candgen_train (W := example_world) ["-p"; "x"] example_start
     = ([], example_start, inl (ValueError "invalid literal for int() with base 10" "x"))
  /\ (candgen_train (W := example_world) ["-p"; "x"] example_start).2
     <> inl (SystemExit __doc__).
Proof. split; [reflexivity|]. split; [reflexivity|]. discriminate. Qed.

(** Oracle evaluation of two samples for each of two acts. *)
Lemma oracle_picks_best_and_sums_witness :
  reliable (W := example_world) /\ float_order (W := example_world)
  /\ 0 < 2 /\ c_long (W := example_world) 2 = true /\ is_ascii "gold" = true
  /\ exists (groups : list (list string)) (bests : list (Z * Z * Z)) (d : list string),
      (sample_gen (W := example_world) ["-n"; "2"; "-o"; "gold"; "-w"; "out"; "model"; "das"]
                  example_start).1.1
      = [EvLogInfo "Initializing...";
         EvNewCandgen 0%nat ∅;
         EvCandgenLoad 0%nat "model";
         EvNewSamplingPlanner 1%nat
           (<["ranker" := VObj 0%nat]> (<["candgen" := VObj 0%nat]> ∅));
         EvLogInfo "Generating...";
         EvReadDas "das";
         EvGenerateTree 1%nat "ab" 2%nat false; EvGenerateTree 1%nat "ab" 2%nat false;
         EvGenerateTree 1%nat "cd" 2%nat false; EvGenerateTree 1%nat "cd" 2%nat false;
         EvLogInfo "Evaluating oracle F1...";
         EvLogInfo "Loading gold data from gold";
         EvReadTTrees "gold";
         EvLogInfo "Gold data loaded.";
         EvLogInfo (fmt3 (W := example_world)
                      "Oracle Precision: " "%.6f" ", Recall: " "%.6f" ", F1: " "%.6f"
                      (let '(correct, predicted, gold) := sum_counts bests in
                       p_r_f1_from_counts correct predicted gold));
         EvLogInfo "Writing output...";
         EvWriteYAML "out" d]
      /\ d = List.concat groups
      /\ List.length bests = (2 `min` List.length groups)%nat
      /\ forall i (gold_tree : string) group,
           ["ab1"; "cd3"] !! i = Some gold_tree -> groups !! i = Some group ->
           exists counts, bests !! i = Some counts
                          /\ oracle_best (W := example_world) gold_tree group counts.
Proof.
  split; [exact example_reliable|]. split; [exact example_float_order|].
  split; [lia|]. split; [reflexivity|]. split; [reflexivity|].
  destruct (oracle_picks_best_and_sums (W := example_world)
              ["-n"; "2"; "-o"; "gold"; "-w"; "out"; "model"; "das"]
              [("-n", "2"); ("-o", "gold"); ("-w", "out")] "model" "das" "gold" 2
              example_start example_reliable example_float_order eq_refl eq_refl eq_refl
              eq_refl eq_refl eq_refl eq_refl example_planner_appends eq_refl)
    as (groups & bests & d & s' & Hrun & _ & Hd & Hlen & Hbest).
  exists groups, bests, d. rewrite Hrun.
  split; [reflexivity|]. split; [exact Hd|]. split; [exact Hlen|exact Hbest].
Defined.

(** Two samples for each of two acts, written to [out]. *)
Lemma sample_gen_generates_in_order_witness :
  reliable (W := example_world) /\ c_long (W := example_world) 2 = true
  /\ exists (groups : list (list string)) t_rest,
      (sample_gen (W := example_world) ["-n"; "2"; "-w"; "out"; "model"; "das"]
                  example_start).1.1
      = [EvLogInfo "Initializing...";
         EvNewCandgen 0%nat ∅;
         EvCandgenLoad 0%nat "model";
         EvNewSamplingPlanner 1%nat
           (<["ranker" := VObj 0%nat]> (<["candgen" := VObj 0%nat]> ∅));
         EvLogInfo "Generating...";
         EvReadDas "das";
         EvGenerateTree 1%nat "ab" 2%nat false; EvGenerateTree 1%nat "ab" 2%nat false;
         EvGenerateTree 1%nat "cd" 2%nat false; EvGenerateTree 1%nat "cd" 2%nat false]
        ++ t_rest
      /\ Forall (fun e => is_generate e = false) t_rest
      /\ List.length groups = 2%nat
      /\ doc_of (W := example_world)
           (sample_gen (W := example_world) ["-n"; "2"; "-w"; "out"; "model"; "das"]
                       example_start).1.2 2%nat
         = List.concat groups.
Proof.
  split; [exact example_reliable|]. split; [reflexivity|].
  destruct (sample_gen_generates_in_order (W := example_world)
              ["-n"; "2"; "-w"; "out"; "model"; "das"] [("-n", "2"); ("-w", "out")]
              "model" "das" 2 example_start example_reliable eq_refl eq_refl eq_refl eq_refl)
    as (groups & t_rest & s' & r & Hrun & Hrest & Hgroups & Happ & _).
  exists groups, t_rest. rewrite Hrun. split; [reflexivity|]. split; [exact Hrest|]. split.
  - symmetry. exact (Forall2_length _ _ _ Hgroups).
  - exact (Happ example_planner_appends).
Defined.

(** The models of a run of [sample_gen] with [-n 2]. *)
Lemma sample_gen_uses_candgen_only_witness :
  Getopt.getopt ["-n"; "2"; "model"; "das"] "r:n:o:w:" = inr ([("-n", "2")], ["model"; "das"])
  /\ List.filter is_model_event
       (sample_gen (W := example_world) ["-n"; "2"; "model"; "das"] example_start).1.1
     = sampling_setup 0%nat "model".
Proof.
  split; [reflexivity|].
  destruct (sample_gen_uses_candgen_only (W := example_world)
              ["-n"; "2"; "model"; "das"] example_start) as [_ H].
  destruct (H [("-n", "2")] ["model"; "das"] eq_refl) as [_ H'].
  apply H'; [exact example_reliable|reflexivity|reflexivity].
Defined.

(** Each action with too few files and well-formed options. *)
Lemma wrong_file_count_exits_witness :
  candgen_train (W := example_world) ["-p"; "5"; "das"] example_start
  = ([], example_start, inl (SystemExit __doc__))
  /\ (exists s', percrank_train (W := example_world) ["-d"; "dbg"; "-j"; "4"; "cfg"] example_start
                 = ([EvSetDebugStream "dbg" "w"], s', inl (SystemExit __doc__)))
  /\ sample_gen (W := example_world) ["-n"; "3"; "model"] example_start
     = ([], example_start, inl (SystemExit __doc__))
  /\ (exists s', asearch_gen (W := example_world) ["-d"; "dbg"; "model"; "rank"] example_start
                 = ([EvSetDebugStream "dbg" "w"], s',
                    inl (SystemExit ("Invalid arguments." +:+ nl +:+ __doc__)))).
Proof.
  destruct (wrong_file_count_exits (W := example_world)) as (H1 & H2 & H3 & H4).
  split; [|split; [|split]].
  - apply (H1 _ [("-p", "5")] ["das"]); [reflexivity|discriminate|reflexivity].
  - apply (H2 _ [("-d", "dbg"); ("-j", "4")] ["cfg"]);
      [reflexivity|discriminate|reflexivity|intros f p; reflexivity].
  - apply (H3 _ [("-n", "3")] ["model"]); [reflexivity|discriminate|reflexivity].
  - apply (H4 _ [("-d", "dbg")] ["model"; "rank"]);
      [reflexivity|discriminate|intros f p; reflexivity].
Defined.

(** [candgen_train] with [-p 5]. *)
Lemma candgen_train_trains_then_saves_witness :
  Getopt.getopt ["-p"; "5"; "das"; "trees"; "model"] "p:"
  = inr ([("-p", "5")], ["das"; "trees"; "model"])
  /\ (candgen_train (W := example_world) ["-p"; "5"; "das"; "trees"; "model"]
                    example_start).1.1
     = [EvLogInfo "Training candidate generator...";
        EvNewCandgen 0%nat {["prune_threshold" := VInt 5]};
        EvCandgenTrain 0%nat "das" "trees";
        EvCandgenSave 0%nat "model"].
Proof.
  split; [reflexivity|].
  destruct (candgen_train_trains_then_saves (W := example_world)
              ["-p"; "5"; "das"; "trees"; "model"] [("-p", "5")] "das" "trees" "model"
              example_start eq_refl eq_refl) as (v & Hv & _ & _ & _ & Hfull).
  cbn in Hv. inversion Hv; subst v.
  exact (proj1 (Hfull example_reliable)).
Defined.

(** An A* run with evaluation on two acts and two gold trees. *)
Lemma asearch_gen_eval_analyzes_witness :
  reliable (W := example_world)
  /\ exists (lists_analyzer : list (string * nat * nat)) (docs : list (list string)) t_rest,
      (asearch_gen (W := example_world) ["-e"; "gold"; "model"; "rank"; "das"]
                   example_start).1.1
      = [EvLogInfo "Initializing...";
         EvNewCandgen 0%nat ∅;
         EvCandgenLoad 0%nat "model";
         EvRankerLoad 1%nat "rank";
         EvNewASearchPlanner 2%nat
           (<["ranker" := VObj 1%nat]> (<["candgen" := VObj 0%nat]> ∅));
         EvLogInfo "Generating...";
         EvReadDas "das";
         EvReadTTrees "gold";
         EvLogDebug (nl +:+ nl +:+ "TREE No. 000");
         EvGenerateTree 2%nat "ab" 4%nat true;
         EvLogDebug (nl +:+ nl +:+ "TREE No. 001");
         EvGenerateTree 2%nat "cd" 4%nat true;
         EvLogInfo (fmt3 (W := example_world)
                      "Gold tree BEST: " "%.4f" ", on CLOSE: " "%.4f" ", on ANY list: " "%4f"
                      (lists_analyzer_stats lists_analyzer))]
        ++ t_rest
      /\ lists_analyzer = [("ab1", 0%nat, 1%nat); ("cd3", 1%nat, 2%nat)]
      /\ docs !! 2%nat = Some ["ab"; "cd"].
Proof.
  split; [exact example_reliable|].
  destruct (asearch_gen_eval_analyzes (W := example_world)
              ["-e"; "gold"; "model"; "rank"; "das"] [("-e", "gold")]
              "model" "rank" "das" "gold" example_start example_reliable eq_refl eq_refl)
    as (la & docs & t_rest & s' & Hrun & Hlen & Hd0 & Hcalls & _).
  exists la, docs, t_rest. rewrite Hrun. split; [reflexivity|].
  destruct (Hcalls 0%nat "ab" "ab1" [] eq_refl Hd0) as [Hl0 Hd1].
  destruct (Hcalls 1%nat "cd" "cd3" ["ab"] eq_refl Hd1) as [Hl1 Hd2].
  split; [|exact Hd2].
  destruct la as [|x0 [|x1 [|x2 la]]]; try discriminate Hlen.
  cbn in Hl0, Hl1. inversion Hl0. inversion Hl1. reflexivity.
Defined.

(** [-ssel] after [-w out]. *)
Lemma asearch_gen_rejects_s_witness :
  option_words "e:d:w:c:" ["-w"; "out"] [("-w", "out")]
  /\ asearch_gen (W := example_world)
       (["-w"; "out"] ++ ("-s" +:+ "sel") :: ["model"; "rank"; "das"]) example_start
     = ([], example_start, inl (GetoptError "option -s not recognized" "s"))
  /\ Forall (fun oa : string * string => oa.1 <> "-s") [("-e", "gold"); ("-w", "out")].
Proof.
  destruct (asearch_gen_rejects_s (W := example_world)) as (H1 & _ & H2).
  assert (Hw : option_words "e:d:w:c:" ["-w"; "out"] [("-w", "out")])
    by (split; reflexivity).
  split; [exact Hw|]. split.
  - exact (H1 _ _ "sel" ["model"; "rank"; "das"] example_start Hw).
  - exact (proj1 (H2 ["-e"; "gold"; "-w"; "out"; "model"; "rank"; "das"]
                     [("-e", "gold"); ("-w", "out")] ["model"; "rank"; "das"] eq_refl)).
Defined.

(** [-r 7] after [-n 2]. *)
Lemma sample_gen_ignores_r_witness :
  option_words "r:n:o:w:" ["-n"; "2"] [("-n", "2")]
  /\ sample_gen (W := example_world) (["-n"; "2"] ++ "-r" :: "7" :: ["model"; "das"])
                example_start
     = sample_gen (W := example_world) (["-n"; "2"] ++ ["model"; "das"]) example_start.
Proof.
  assert (Hw : option_words "r:n:o:w:" ["-n"; "2"] [("-n", "2")])
    by (split; reflexivity).
  split; [exact Hw|].
  exact (proj1 (sample_gen_ignores_r (W := example_world) _ _ "7" ["model"; "das"]
                                     example_start Hw)).
Defined.

(** ** The further properties in the small world *)

(** Only the action name follows the program name. *)
Lemma main_too_few_arguments_witness :
  (List.length ["run_tgen.py"; "candgen_train"] < 3)%nat
  /\ main (W := example_world) ["run_tgen.py"; "candgen_train"] example_start
     = ([EvRandomSeed 1206],
        with_proc example_start
          {| rng := rng_of_seed 1206; store := store (st_proc example_start) |},
        inl (SystemExit __doc__)).
Proof.
  assert (H : (List.length ["run_tgen.py"; "candgen_train"] < 3)%nat) by (cbn; lia).
  split; [exact H|].
  exact (main_too_few_arguments (W := example_world) _ example_start H).
Defined.

(** The action [train] does not exist. *)
Lemma main_unknown_action_witness :
  String.eqb "train" "candgen_train" = false
  /\ (main (W := example_world) ["run_tgen.py"; "train"; "x"] example_start).1.1
     = [EvRandomSeed 1206; EvLogInfo "Running on CPython version 2.7.18"]
  /\ exists msg,
       (main (W := example_world) ["run_tgen.py"; "train"; "x"] example_start).2
       = inl (SystemExit msg)
       /\ contains "Unknown Tgen action: train" msg = true.
Proof.
  pose proof (main_unknown_action (W := example_world) "run_tgen.py" "train" "x" []
                example_start eq_refl eq_refl eq_refl eq_refl) as H.
  cbn zeta in H. split; [reflexivity|]. rewrite H. split; [reflexivity|].
  eexists. split; reflexivity.
Defined.

(** [-x] after [-n 2] in [sample_gen]. *)
Lemma unknown_option_rejected_witness :
  Ascii.eqb "x" "-" = false
  /\ option_words "r:n:o:w:" ["-n"; "2"] [("-n", "2")]
  /\ opt_letter "x" "r:n:o:w:" = false
  /\ sample_gen (W := example_world) (["-n"; "2"] ++ "-x" :: ["model"; "das"]) example_start
     = ([], example_start, inl (GetoptError "option -x not recognized" "x")).
Proof.
  assert (Hw : option_words "r:n:o:w:" ["-n"; "2"] [("-n", "2")]) by (split; reflexivity).
  split; [reflexivity|]. split; [exact Hw|]. split; [reflexivity|].
  destruct (unknown_option_rejected (W := example_world) ["-n"; "2"] [("-n", "2")]
              "x"%char "" ["model"; "das"] example_start eq_refl) as (_ & _ & H & _).
  exact (H Hw eq_refl).
Defined.

(** [-n] as the last word, after [-w out]. *)
Lemma missing_option_argument_witness :
  option_words "r:n:o:w:" ["-w"; "out"] [("-w", "out")]
  /\ opt_letter "n" "r:n:o:w:" = true
  /\ sample_gen (W := example_world) (["-w"; "out"] ++ ["-n"]) example_start
     = ([], example_start, inl (GetoptError "option -n requires argument" "n")).
Proof.
  assert (Hw : option_words "r:n:o:w:" ["-w"; "out"] [("-w", "out")]) by (split; reflexivity).
  split; [exact Hw|]. split; [reflexivity|].
  destruct (missing_option_argument (W := example_world) ["-w"; "out"] [("-w", "out")]
              "n"%char example_start) as (_ & _ & H & _).
  exact (H Hw eq_refl).
Defined.

(** [-w out] after the two files of [sample_gen]. *)
Lemma options_after_files_are_files_witness :
  option_words "r:n:o:w:" ["-n"; "2"] [("-n", "2")]
  /\ non_option "model" = true
  /\ Getopt.getopt (["-n"; "2"] ++ "model" :: ["-w"; "out"]) "r:n:o:w:"
     = inr ([("-n", "2")], "model" :: ["-w"; "out"])
  /\ sample_gen (W := example_world) (["-n"; "2"] ++ "model" :: "das" :: ["-w"; "out"])
                example_start
     = ([], example_start, inl (SystemExit __doc__)).
Proof.
  assert (Hw : option_words "r:n:o:w:" ["-n"; "2"] [("-n", "2")]) by (split; reflexivity).
  split; [exact Hw|]. split; [reflexivity|].
  destruct (options_after_files_are_files (W := example_world) "r:n:o:w:" ["-n"; "2"]
              [("-n", "2")] "model" ["-w"; "out"] Hw) as (H1 & _ & H3).
  split; [exact (H1 eq_refl)|].
  apply (H3 "das" example_start); [reflexivity|reflexivity|reflexivity|discriminate].
Defined.

(** Two [-n] and two [-w]. *)
Lemma sample_gen_opts_last_wins_witness :
  values_convert (W := example_world) ["-n"] []
    [("-n", "2"); ("-w", "a"); ("-n", "3"); ("-w", "b")] = true
  /\ sample_gen_opts (W := example_world)
       [("-n", "2"); ("-w", "a"); ("-n", "3"); ("-w", "b")] example_start
     = ([], example_start, inr (3, None, Some "b")).
Proof.
  split; [reflexivity|].
  destruct (sample_gen_opts_last_wins (W := example_world)
              [("-n", "2"); ("-w", "a"); ("-n", "3"); ("-w", "b")] example_start eq_refl)
    as (n & Hrun & Hn).
  vm_compute in Hn. inversion Hn; subst n. exact Hrun.
Defined.

(** The second of three [-n] values is not a number. *)
Lemma bad_integer_option_raises_witness :
  py_int (World := example_world) "x" = None
  /\ Getopt.getopt ["-n"; "2"; "-n"; "x"; "-n"; "y"; "model"] "r:n:o:w:"
     = inr ([("-n", "2")] ++ ("-n", "x") :: [("-n", "y")], ["model"])
  /\ sample_gen (W := example_world) ["-n"; "2"; "-n"; "x"; "-n"; "y"; "model"] example_start
     = ([], example_start, inl (ValueError "invalid literal for int() with base 10" "x")).
Proof.
  split; [reflexivity|]. split; [reflexivity|].
  destruct (bad_integer_option_raises (W := example_world)
              ["-n"; "2"; "-n"; "x"; "-n"; "y"; "model"] [("-n", "2")] "x" [("-n", "y")]
              ["model"] example_start eq_refl) as [H _].
  exact (H eq_refl eq_refl).
Defined.

(** A parallel training run with an empty [-c] and no [-w]. *)
Lemma percrank_train_builds_ranker_witness :
  reliable (W := example_world)
  /\ (percrank_train (W := example_world)
        ["-d"; "dbg"; "-j"; "4"; "-c"; ""; "-s"; "500"; "conf/cfg.py"; "das"; "trees"; "model"]
        example_start).1.1
     = [EvSetDebugStream "dbg" "w";
        EvLogInfo "Training perceptron ranker...";
        EvConfig "conf/cfg.py";
        EvNewParallelRanker 0%nat (<["jobs_number" := VInt 4]> ∅) "conf";
        EvRankerTrain 0%nat "das" "trees" 500;
        EvRankerSave 0%nat "model"].
Proof.
  split; [exact example_reliable|].
  destruct (percrank_train_builds_ranker (W := example_world)
              ["-d"; "dbg"; "-j"; "4"; "-c"; ""; "-s"; "500"; "conf/cfg.py"; "das"; "trees";
               "model"]
              [("-d", "dbg"); ("-j", "4"); ("-c", ""); ("-s", "500")]
              "conf/cfg.py" "das" "trees" "model" example_start
              example_reliable eq_refl eq_refl) as (ts & jobs & s' & Hrun & Hts & Hj).
  vm_compute in Hts, Hj. inversion Hts; subst ts. inversion Hj; subst jobs.
  rewrite Hrun. reflexivity.
Defined.

(** A generation run without [-w]. *)
Lemma no_output_without_w_witness :
  Getopt.getopt ["-n"; "2"; "model"; "das"] "r:n:o:w:" = inr ([("-n", "2")], ["model"; "das"])
  /\ has_opt "-w" [("-n", "2")] = false
  /\ Forall (fun e => is_write e = false)
       (sample_gen (W := example_world) ["-n"; "2"; "model"; "das"] example_start).1.1.
Proof.
  split; [reflexivity|]. split; [reflexivity|].
  destruct (no_output_without_w (W := example_world) ["-n"; "2"; "model"; "das"]
              example_start) as (_ & _ & H & _).
  exact (H [("-n", "2")] ["model"; "das"] eq_refl eq_refl).
Defined.

(** Two samples for each of two acts, written to [out]. *)
Lemma sample_gen_plain_run_witness :
  reliable (W := example_world) /\ c_long (W := example_world) 2 = true
  /\ exists d,
      (sample_gen (W := example_world) ["-n"; "2"; "-w"; "out"; "model"; "das"]
                  example_start).1.1
      = [EvLogInfo "Initializing...";
         EvNewCandgen 0%nat ∅;
         EvCandgenLoad 0%nat "model";
         EvNewSamplingPlanner 1%nat
           (<["ranker" := VObj 0%nat]> (<["candgen" := VObj 0%nat]> ∅));
         EvLogInfo "Generating...";
         EvReadDas "das";
         EvGenerateTree 1%nat "ab" 2%nat false; EvGenerateTree 1%nat "ab" 2%nat false;
         EvGenerateTree 1%nat "cd" 2%nat false; EvGenerateTree 1%nat "cd" 2%nat false;
         EvLogInfo "Writing output...";
         EvWriteYAML "out" d].
Proof.
  split; [exact example_reliable|]. split; [reflexivity|].
  destruct (sample_gen_plain_run (W := example_world)
              ["-n"; "2"; "-w"; "out"; "model"; "das"] [("-n", "2"); ("-w", "out")]
              "model" "das" 2 example_start example_reliable eq_refl eq_refl eq_refl
              eq_refl eq_refl)
    as (groups & d & s' & Hrun & _).
  exists d. rewrite Hrun. reflexivity.
Defined.

(** A number of samples one above the largest C long. *)
Lemma sample_gen_overflow_witness :
  reliable (W := example_world)
  /\ py_int (World := example_world) "9223372036854775808" = Some 9223372036854775808
  /\ c_long (W := example_world) 9223372036854775808 = false
  /\ (sample_gen (W := example_world) ["-n"; "9223372036854775808"; "-w"; "out"; "model"; "das"]
                 example_start).1.1
     = [EvLogInfo "Initializing...";
        EvNewCandgen 0%nat ∅;
        EvCandgenLoad 0%nat "model";
        EvNewSamplingPlanner 1%nat
          (<["ranker" := VObj 0%nat]> (<["candgen" := VObj 0%nat]> ∅));
        EvLogInfo "Generating...";
        EvReadDas "das"]
  /\ (sample_gen (W := example_world) ["-n"; "9223372036854775808"; "-w"; "out"; "model"; "das"]
                 example_start).2
     = inl (OverflowError "Python int too large to convert to C long").
Proof.
  split; [exact example_reliable|]. split; [reflexivity|]. split; [reflexivity|].
  destruct (sample_gen_overflow (W := example_world)
              ["-n"; "9223372036854775808"; "-w"; "out"; "model"; "das"]
              [("-n", "9223372036854775808"); ("-w", "out")]
              "model" "das" 9223372036854775808 example_start example_reliable
              eq_refl eq_refl eq_refl eq_refl) as (s' & Hrun); [discriminate|].
  rewrite Hrun. split; reflexivity.
Defined.

(** An oracle file name with the byte 233. *)
Lemma sample_gen_oracle_file_not_ascii_witness :
  reliable (W := example_world)
  /\ is_ascii (String (ascii_of_nat 233) "t") = false
  /\ (sample_gen (W := example_world)
        ["-o"; String (ascii_of_nat 233) "t"; "-w"; "out"; "model"; "das"] example_start).1.1
     = [EvLogInfo "Initializing...";
        EvNewCandgen 0%nat ∅;
        EvCandgenLoad 0%nat "model";
        EvNewSamplingPlanner 1%nat
          (<["ranker" := VObj 0%nat]> (<["candgen" := VObj 0%nat]> ∅));
        EvLogInfo "Generating...";
        EvReadDas "das";
        EvGenerateTree 1%nat "ab" 2%nat false;
        EvGenerateTree 1%nat "cd" 2%nat false;
        EvLogInfo "Evaluating oracle F1..."]
  /\ (sample_gen (W := example_world)
        ["-o"; String (ascii_of_nat 233) "t"; "-w"; "out"; "model"; "das"] example_start).2
     = inl (UnicodeDecodeError (String (ascii_of_nat 233) "t")).
Proof.
  split; [exact example_reliable|]. split; [reflexivity|].
  destruct (sample_gen_oracle_file_not_ascii (W := example_world)
              ["-o"; String (ascii_of_nat 233) "t"; "-w"; "out"; "model"; "das"]
              [("-o", String (ascii_of_nat 233) "t"); ("-w", "out")]
              "model" "das" (String (ascii_of_nat 233) "t") 1 example_start example_reliable
              eq_refl eq_refl eq_refl eq_refl eq_refl eq_refl) as (s' & Hrun).
  rewrite Hrun. split; reflexivity.
Defined.

(** The models of an A* run with a configuration file. *)
Lemma asearch_gen_loads_models_witness :
  reliable (W := example_world)
  /\ List.filter is_model_event
       (asearch_gen (W := example_world) ["-c"; "cfg"; "model"; "rank"; "das"]
                    example_start).1.1
     = [EvNewCandgen 0%nat ∅;
        EvCandgenLoad 0%nat "model";
        EvRankerLoad 1%nat "rank";
        EvNewASearchPlanner 2%nat
          (<["ranker" := VObj 1%nat]> (<["candgen" := VObj 0%nat]> ∅))].
Proof.
  split; [exact example_reliable|].
  exact (proj1 (asearch_gen_loads_models (W := example_world)
                  ["-c"; "cfg"; "model"; "rank"; "das"] [("-c", "cfg")]
                  "model" "rank" "das" example_start example_reliable eq_refl)).
Defined.

(** An A* run without evaluation, written to [out]. *)
Lemma asearch_gen_plain_run_witness :
  reliable (W := example_world)
  /\ exists d,
      (asearch_gen (W := example_world) ["-w"; "out"; "model"; "rank"; "das"]
                   example_start).1.1
      = [EvLogInfo "Initializing...";
         EvNewCandgen 0%nat ∅;
         EvCandgenLoad 0%nat "model";
         EvRankerLoad 1%nat "rank";
         EvNewASearchPlanner 2%nat
           (<["ranker" := VObj 1%nat]> (<["candgen" := VObj 0%nat]> ∅));
         EvLogInfo "Generating...";
         EvReadDas "das";
         EvGenerateTree 2%nat "ab" 3%nat false;
         EvGenerateTree 2%nat "cd" 3%nat false;
         EvLogInfo "Writing output...";
         EvWriteYAML "out" d].
Proof.
  split; [exact example_reliable|].
  destruct (asearch_gen_plain_run (W := example_world)
              ["-w"; "out"; "model"; "rank"; "das"] [("-w", "out")]
              "model" "rank" "das" example_start example_reliable eq_refl eq_refl)
    as (d & s' & Hrun & _).
  exists d. rewrite Hrun. reflexivity.
Defined.

(** Four bundles scored against themselves. *)
Lemma asearch_gen_fscores_scores_pairs_witness :
  reliable (W := example_world)
  /\ List.length
       (asearch_gen_fscores (W := example_world) "en" "" "" 2%nat 2%nat
                            example_generated).1.1
     = 7%nat
  /\ (asearch_gen_fscores (W := example_world) "en" "" "" 2%nat 2%nat
                          example_generated).1.1 !! 2%nat
     = Some (EvAddBundleText 2%nat 1%nat "en" "Xscore"
               (score_text (W := example_world) "ab1" "ab1")).
Proof.
  split; [exact example_reliable|].
  destruct (asearch_gen_fscores_scores_pairs (W := example_world) "en" "" "" 2%nat 2%nat
              example_generated example_reliable) as (s' & Hrun & _).
  rewrite Hrun. split; reflexivity.
Defined.

(** An A* run with evaluation: the planner's selector is empty, so a new
    document is generated into. *)
Lemma asearch_gen_eval_run_witness :
  reliable (W := example_world)
  /\ exists t d,
      (asearch_gen (W := example_world)
         ["-e"; "gold"; "-w"; "out"; "model"; "rank"; "das"] example_start).1.1
      = [EvLogInfo "Initializing...";
         EvNewCandgen 0%nat ∅;
         EvCandgenLoad 0%nat "model";
         EvRankerLoad 1%nat "rank";
         EvNewASearchPlanner 2%nat
           (<["ranker" := VObj 1%nat]> (<["candgen" := VObj 0%nat]> ∅));
         EvLogInfo "Generating...";
         EvReadDas "das"]
        ++ t ++ [EvLogInfo "Writing output..."; EvWriteYAML "out" d]
      /\ head t = Some (EvReadTTrees "gold")
      /\ Forall (targets 2%nat 4%nat 3%nat) t.
Proof.
  split; [exact example_reliable|].
  destruct (asearch_gen_eval_run (W := example_world)
              ["-e"; "gold"; "-w"; "out"; "model"; "rank"; "das"]
              [("-e", "gold"); ("-w", "out")]
              "model" "rank" "das" "gold" example_start example_reliable eq_refl eq_refl)
    as (t & d & s' & Hrun & Hhead & Ht & _).
  exists t, d. rewrite Hrun. split; [reflexivity|]. split; [exact Hhead|exact Ht].
Defined.
